(** * Verification of the notebook-export, display-data and server-selector
      adapters of the Jupyter extension.

    The development embeds three pieces of TypeScript:
    - [ExportBase] (export through the remote kernel),
    - [ConnectionDisplayDataProvider] (memoised display data),
    - [JupyterServerSelector] and [validateSelectJupyterURI].

    Asynchronous code is written in a small monad whose computations read an
    environment (what the host and the remote server answer) and extend a
    history of the external calls made so far. *)

From stdpp Require Import gmap strings list.
From Equations Require Import Equations.
From Stdlib Require Import NArith Lia.

Set Default Proof Using "Type".

(** ** JavaScript strings

    A JavaScript string is a sequence of UTF-16 code units.  String literals
    of the source are ASCII and are written [lit "..."]. *)
Module Js.

Definition jsstring := list N.

Definition lit (s : string) : jsstring :=
  map Ascii.N_of_ascii (String.list_ascii_of_string s).

(** The characters matched by [\s] in a regular expression, which are also
    the ones removed by [String.prototype.trim]. *)
Definition isWhiteSpace (c : N) : bool :=
  ((9 <=? c) && (c <=? 13) || (c =? 32) || (c =? 160) || (c =? 5760)
   || (8192 <=? c) && (c <=? 8202) || (c =? 8232) || (c =? 8233)
   || (c =? 8239) || (c =? 8287) || (c =? 12288) || (c =? 65279))%N.

Fixpoint trimStart (s : jsstring) : jsstring :=
  match s with
  | c :: s' => if isWhiteSpace c then trimStart s' else s
  | [] => []
  end.

Definition trimEnd (s : jsstring) : jsstring := rev (trimStart (rev s)).

Definition trim (s : jsstring) : jsstring := trimEnd (trimStart s).

Fixpoint startsWith (p s : jsstring) : bool :=
  match p, s with
  | [], _ => true
  | a :: p', b :: s' => (a =? b)%N && startsWith p' s'
  | _ :: _, [] => false
  end.

(** [includes p s]: the literal [p] occurs somewhere in [s]. *)
Fixpoint includes (p s : jsstring) : bool :=
  startsWith p s ||
  match s with
  | [] => false
  | _ :: s' => includes p s'
  end.

(** Truthiness of a string and of a possibly undefined string. *)
Definition truthy (s : jsstring) : bool :=
  match s with [] => false | _ :: _ => true end.

Definition truthy_opt (s : option jsstring) : bool :=
  match s with Some s => truthy s | None => false end.

(** [Array.prototype.join]. *)
Fixpoint join (sep : jsstring) (l : list jsstring) : jsstring :=
  match l with
  | [] => []
  | [s] => s
  | s :: l' => s ++ sep ++ join sep l'
  end.

(** A thrown value: the class of the error object and its message. *)
Record JsError := mkError { errClass : jsstring; message : jsstring }.

Definition Error (msg : jsstring) : JsError := mkError (lit "Error") msg.
Definition TypeError (msg : jsstring) : JsError := mkError (lit "TypeError") msg.

End Js.
Import Js.

(** ** Outcomes and the monad of asynchronous computations *)

Inductive Outcome (A : Type) : Type :=
| Return (a : A)
| Throw (e : JsError).
Arguments Return {A} a.
Arguments Throw {A} e.

(** What a component talks to: [Call]s are invocations of the host or of the
    remote server that may fail (a rejected promise, a thrown exception);
    [Obs]ervations read mutable state of the host, cannot fail and leave no
    trace. *)
Class Signature := {
  Call : Type;
  Resp : Call -> Type;
  Obs : Type;
  ObsResp : Obs -> Type
}.

Section Async.
Context `{Sig : Signature}.

(** The history lists the calls made so far, newest first.  Everything mutable
    outside the component is a function of the history: it can only change
    when a call is made, which is the run-to-completion rule of JavaScript. *)
Definition History := list Call.

Record Env := {
  answer : History -> forall c : Call, Outcome (Resp c);
  observe : History -> forall o : Obs, ObsResp o
}.

Definition M (A : Type) : Type := Env -> History -> History * Outcome A.

Definition ret {A} (a : A) : M A := fun _ h => (h, Return a).

Definition throw {A} (e : JsError) : M A := fun _ h => (h, Throw e).

Definition bind {A B} (m : M A) (f : A -> M B) : M B :=
  fun env h =>
    match m env h with
    | (h', Return a) => f a env h'
    | (h', Throw e) => (h', Throw e)
    end.

(** A value that was computed synchronously and may have thrown. *)
Definition lift {A} (o : Outcome A) : M A := fun _ h => (h, o).

(** [await c]: make the call, get what the environment answers. *)
Definition await (c : Call) : M (Resp c) :=
  fun env h => (c :: h, answer env h c).

(** [emit c]: a call whose result is not used and that does not throw
    (logging, telemetry, disposal of a local handle). *)
Definition emit (c : Call) : M unit := fun _ h => (c :: h, Return tt).

Definition read (o : Obs) : M (ObsResp o) :=
  fun env h => (h, Return (observe env h o)).

(** [attempt m] runs [m] and hands back how it ended. *)
Definition attempt {A} (m : M A) : M (Outcome A) :=
  fun env h => let '(h', o) := m env h in (h', Return o).

(** [try { m } finally { fin }]: [fin] always runs; when it throws, its
    exception replaces the outcome of [m]. *)
Definition finally_ {A} (m : M A) (fin : M unit) : M A :=
  fun env h =>
    let '(h1, o) := m env h in
    match fin env h1 with
    | (h2, Return _) => (h2, o)
    | (h2, Throw e) => (h2, Throw e)
    end.

(** [p.catch(noop)]. *)
Definition catch_noop {A} (m : M A) : M unit :=
  fun env h => let '(h', _) := m env h in (h', Return tt).

(** The calls of a run, oldest first. *)
Definition trace {A} (r : History * Outcome A) : list Call := rev (fst r).

(** [emits Q m]: a run of [m] keeps the history it starts from and adds to
    it only calls that satisfy [Q]. *)
Definition emits (Q : Call -> Prop) {A} (m : M A) : Prop :=
  forall env h, exists l, fst (m env h) = l ++ h /\ Forall Q l.

End Async.

Notation "'let!' x := m 'in' k" := (bind m (fun x => k))
  (at level 10, x name, m at level 100, k at level 200).
Notation "'let!' ' p := m 'in' k" := (bind m (fun x => match x with p => k end))
  (at level 10, p pattern, m at level 100, k at level 200).
Notation "'do!' m 'in' k" := (bind m (fun _ => k))
  (at level 10, m at level 100, k at level 200).

(** ** Types shared by the three components (declared in [kernels/types]) *)
Module Kernels.

Definition Uri := jsstring.

(** [Resource = Uri | undefined]. *)
Definition Resource := option Uri.

Record JupyterServerProviderHandle := {
  providerId : jsstring;
  providerHandle : jsstring
}.

Record PythonEnvironment := {
  envId : jsstring;
  isCondaEnvWithoutPython : bool
}.

(** The [kind] of a connection is a string at run time; these are the values
    the code compares it with. *)
Definition startUsingPythonInterpreter : jsstring := lit "startUsingPythonInterpreter".
Definition startUsingRemoteKernelSpec : jsstring := lit "startUsingRemoteKernelSpec".
Definition connectToLiveRemoteKernel : jsstring := lit "connectToLiveRemoteKernel".

Record KernelConnectionMetadata := {
  id : jsstring;
  kind : jsstring;
  interpreter : option PythonEnvironment;
  serverProviderHandle : JupyterServerProviderHandle
}.

End Kernels.
Import Kernels.

(** ** The export orchestrator: [ExportBase] *)
Module ExportBase.

Definition NotebookDocument := Uri.
Definition KernelConnection := N.

Record CancellationToken := { isCancellationRequested : bool }.

(** [kernel.session], when defined, may or may not have a [kernel]. *)
Record IKernelSession := { sessionKernel : option KernelConnection }.

Record IKernel := {
  kernelHandle : N;
  kernelConnectionMetadata : KernelConnectionMetadata;
  resourceUri : Resource
}.

(** Modelled from the spec: the enumeration [ExportFormat] of [./types], with
    the three formats the specification lists and the [switch] names; the
    text of a member is [formatValue] below. *)
Inductive ExportFormat := pdf | html | python.

Global Instance ExportFormat_eq_dec : EqDecision ExportFormat.
Proof. solve_decision. Defined.

Record IJupyterConnection := { baseUrl : jsstring }.
Record ServerSettings := { settingsBaseUrl : jsstring; settingsToken : jsstring }.

(** [new jupyter.ContentsManager({ serverSettings })]. *)
Record ContentsManager := { serverSettings : ServerSettings }.

(** What [createBackingFile] resolves to, when defined; its [dispose] is a
    closure of the creator and is invoked through [BackingFileDispose]. *)
Record BackingFile := { filePath : jsstring }.

(** [nbformat.MultilineString = string | string[]]. *)
Inductive MultilineString :=
| Single (s : jsstring)
| Lines (l : list jsstring).

(** An [nbformat.IOutput] as the object it is at run time: the code casts it
    to [IStream] or [IExecuteResult] and reads fields that may be absent. *)
Record IOutput := {
  output_type : jsstring;
  name : option jsstring;
  text : option MultilineString;
  data : option (gmap jsstring MultilineString)
}.

(** [Contents.IModel], reduced to the fields the code reads. *)
Record IModel := { path : jsstring; content : jsstring }.

Inductive FileFormat := base64 | textFormat.

(** What [fs.writeFile] receives: a string or a [Buffer] of bytes. *)
Inductive FileData :=
| TextData (s : jsstring)
| BufferData (bytes : list N).

(** Imports of the module whose code is outside this component, and the
    built-ins [JSON.parse] and [atob]. *)
Class Platform := {
  Json : Type;
  JSON_parse : jsstring -> Outcome Json;
  atob : jsstring -> Outcome jsstring;
  isRemoteConnection : KernelConnectionMetadata -> bool;
  concatMultilineString : option MultilineString -> Outcome jsstring;
  basename : jsstring -> jsstring;
  formatValue : ExportFormat -> jsstring;
  SessionDisposedError : JsError
}.

Section WithPlatform.
Context `{P : Platform}.

Inductive ExportCall :=
| KernelStart (k : IKernel)
| CreateConnectionInfo (h : JupyterServerProviderHandle)
| GetServerConnectSettings (c : IJupyterConnection)
| GetContent (doc : NotebookDocument)
| CreateBackingFile (resource : Resource) (workingDirectory : Uri)
    (metadata : KernelConnectionMetadata) (conn : IJupyterConnection)
    (cm : ContentsManager)
| Save (cm : ContentsManager) (p : jsstring) (notebook : Json)
| NewUntitled (cm : ContentsManager) (ext : jsstring)
| ExecuteSilently (k : KernelConnection) (code : jsstring)
| Get (cm : ContentsManager) (p : jsstring) (format : FileFormat)
| WriteFile (target : Uri) (d : FileData)
| Delete (cm : ContentsManager) (p : jsstring)
| BackingFileDispose (f : BackingFile)
| DisposeContentsManager (cm : ContentsManager)
| TraceLog (msg : jsstring).

Definition ExportResp (c : ExportCall) : Type :=
  match c with
  | KernelStart _ => unit
  | CreateConnectionInfo _ => IJupyterConnection
  | GetServerConnectSettings _ => ServerSettings
  | GetContent _ => jsstring
  | CreateBackingFile _ _ _ _ _ => option BackingFile
  | Save _ _ _ => unit
  | NewUntitled _ _ => IModel
  | ExecuteSilently _ _ => list IOutput
  | Get _ _ _ => IModel
  | WriteFile _ _ => unit
  | Delete _ _ => unit
  | BackingFileDispose _ => unit
  | DisposeContentsManager _ => unit
  | TraceLog _ => unit
  end.

Inductive ExportObs :=
| KernelProviderGet (doc : NotebookDocument)
| KernelSession (k : IKernel).

Definition ExportObsResp (o : ExportObs) : Type :=
  match o with
  | KernelProviderGet _ => option IKernel
  | KernelSession _ => option IKernelSession
  end.

#[export] Instance ExportSig : Signature := {|
  Call := ExportCall; Resp := ExportResp;
  Obs := ExportObs; ObsResp := ExportObsResp
|}.

(** [kernel.session?.kernel]. *)
Definition session_kernel (s : option IKernelSession) : option KernelConnection :=
  match s with
  | Some s => sessionKernel s
  | None => None
  end.

(** *** [export] *)
Definition export (_sourceDocument : NotebookDocument) (_target : Uri)
    (_interpreter : PythonEnvironment) (_token : CancellationToken) : M unit :=
  ret tt.

(** *** [b64toBlob] *)

Definition sliceSize : nat := 512.

(** [b64Data.replace(/^[^,]+,/, '')]: a leading run of one or more characters
    other than a comma, and the comma after it, are removed. *)
Fixpoint afterComma (s : jsstring) : option jsstring :=
  match s with
  | [] => None
  | c :: s' => if (c =? 44)%N then Some s' else afterComma s'
  end.

Definition stripPrefix (s : jsstring) : jsstring :=
  match s with
  | [] => []
  | c :: s' =>
      if (c =? 44)%N then s
      else match afterComma s' with
           | Some rest => rest
           | None => s
           end
  end.

(** [b64Data.replace(/\s/g, '')]. *)
Definition stripWhiteSpace (s : jsstring) : jsstring :=
  filter (fun c => isWhiteSpace c = false) s.

(** [new Uint8Array(byteNumbers)]: every number is taken modulo 256. *)
Definition toUint8Array (byteNumbers : list N) : list N :=
  map (fun n => (n mod 256)%N) byteNumbers.

(** The [for (offset = 0; offset < byteCharacters.length; offset += sliceSize)]
    loop, from [offset] on; the result is the list [byteArrays]. *)
Equations? slices (byteCharacters : jsstring) (offset : nat) : list (list N)
  by wf (length byteCharacters - offset) lt :=
slices byteCharacters offset with decide (offset < length byteCharacters) => {
  | left _ =>
      let slice := take sliceSize (drop offset byteCharacters) in
      toUint8Array slice :: slices byteCharacters (offset + sliceSize)
  | right _ => []
}.
Proof. unfold sliceSize. lia. Qed.

(** [new Blob(byteArrays)] followed by [arrayBuffer()]: the parts in order. *)
Definition blobBytes (byteArrays : list (list N)) : list N := concat byteArrays.

Definition b64toBlob (b64Data : jsstring) : Outcome (list N) :=
  let b64Data := stripPrefix b64Data in
  let b64Data := stripWhiteSpace b64Data in
  match atob b64Data with
  | Throw e => Throw e
  | Return byteCharacters => Return (blobBytes (slices byteCharacters 0))
  end.

(** Decoding in a single pass, as the specification words it: strip, decode,
    and take the bytes of the decoded characters. *)
Definition decodeSinglePass (b64Data : jsstring) : Outcome (list N) :=
  match atob (stripWhiteSpace (stripPrefix b64Data)) with
  | Return byteCharacters => Return (toUint8Array byteCharacters)
  | Throw e => Throw e
  end.

(** *** [isExportFailed], [parseStreamOutput], [getCWD] *)

Definition tracebackSignature : jsstring := lit "Traceback (most recent call last)".

(** The result is used as a condition only: [true] stands for [true] and for
    the match array, [false] for [null]. *)
Definition isExportFailed (message : option jsstring) : bool :=
  match message with
  | None => true
  | Some m => if truthy m then includes tracebackSignature m else true
  end.

Definition parseStreamOutput (outputs : list IOutput) : Outcome (option jsstring) :=
  match outputs with
  | [] => Return None
  | output :: _ =>
      if bool_decide (name output ≠ Some (lit "stdout"))
         && bool_decide (output_type output ≠ lit "stream")
      then Return None
      else match concatMultilineString (text output) with
           | Return t => Return (Some (trim t))
           | Throw e => Throw e
           end
  end.

Definition getCWD (kernel : IKernel) : M (option MultilineString) :=
  let! session := read (KernelSession kernel) in
  match session_kernel session with
  | None => throw SessionDisposedError
  | Some sessionKernel =>
      let! outputs := await (ExecuteSilently sessionKernel (lit "import os;os.getcwd();")) in
      match outputs return M (option MultilineString) with
      | [] => ret None
      | output :: _ =>
          if bool_decide (output_type output ≠ lit "execute_result")
          then ret None
          else match data output with
               | Some d => ret (d !! lit "text/plain")
               | None => throw (TypeError (lit "Cannot read properties of undefined"))
               end
      end
  end.

(** *** [executeCommand] *)

(** A value interpolated in a template literal. *)
Definition templateString (v : option MultilineString) : jsstring :=
  match v with
  | None => lit "undefined"
  | Some (Single s) => s
  | Some (Lines l) => join (lit ",") l
  end.

(** [text || fallback]. *)
Definition or_else (t : option jsstring) (fallback : jsstring) : jsstring :=
  match t with
  | Some s => if truthy s then s else fallback
  | None => fallback
  end.

Definition fileExtension (format : ExportFormat) : jsstring :=
  match format with
  | html => lit ".html"
  | pdf => lit ".pdf"
  | python => lit ".py"
  end.

Definition Uri_file (fsPath : jsstring) : Uri := fsPath.

(** The first argument of the conversion command: [`${pwd}/${backingFile.filePath}`]. *)
Definition sourcePath (pwd : option MultilineString) (backingFile : BackingFile) : jsstring :=
  templateString pwd ++ lit "/" ++ filePath backingFile.

Definition nbconvertCommand (filePath : jsstring) (format : ExportFormat)
    (tempTarget : jsstring) : jsstring :=
  lit "!jupyter nbconvert " ++ filePath ++ lit " --to " ++ formatValue format
  ++ lit " --output " ++ basename tempTarget.

(** Lines 137 to 143: the check of what the conversion printed. *)
Definition checkConversionOutput (format : ExportFormat) (outputs : list IOutput) : M unit :=
  let! text := lift (parseStreamOutput outputs) in
  if isExportFailed text
  then throw (Error (or_else text (lit "Failed to export to " ++ formatValue format)))
  else match text with
       | Some t => if truthy t then emit (TraceLog t) else ret tt
       | None => ret tt
       end.

(** Lines 145 to 161: fetch the converted file and write it to [target]. *)
Definition fetchAndWrite (target : Uri) (format : ExportFormat)
    (contentsManager : ContentsManager) (tempTarget : jsstring) : M unit :=
  if decide (format = pdf) then
    let! file := await (Get contentsManager tempTarget base64) in
    let! bytes := lift (b64toBlob (content file)) in
    await (WriteFile target (BufferData bytes))
  else
    let! file := await (Get contentsManager tempTarget textFormat) in
    await (WriteFile target (TextData (content file))).

(** The [try] block up to the assignment of [tempTarget]. *)
Definition tryAllocate (kernel : IKernel) (format : ExportFormat)
    (contentsManager : ContentsManager) : M (option MultilineString * IModel) :=
  let! pwd := getCWD kernel in
  let! tempFile := await (NewUntitled contentsManager (fileExtension format)) in
  ret (pwd, tempFile).

(** The [try] block after the assignment of [tempTarget]. *)
Definition tryConvert (kernelConnection : KernelConnection) (target : Uri)
    (format : ExportFormat) (backingFile : BackingFile)
    (contentsManager : ContentsManager) (pwd : option MultilineString)
    (tempTarget : jsstring) : M unit :=
  let filePath := sourcePath pwd backingFile in
  let! outputs := await (ExecuteSilently kernelConnection
                           (nbconvertCommand filePath format tempTarget)) in
  do! checkConversionOutput format outputs in
  fetchAndWrite target format contentsManager tempTarget.

(** The [finally] block; [tempTarget] is what the variable holds when the
    block is entered. *)
Definition finallyBlock (tempTarget : option jsstring) (backingFile : BackingFile)
    (contentsManager : ContentsManager) : M unit :=
  do! match tempTarget with
      | Some t => if truthy t then await (Delete contentsManager t) else ret tt
      | None => ret tt
      end in
  do! await (BackingFileDispose backingFile) in
  do! catch_noop (await (Delete contentsManager (filePath backingFile))) in
  emit (DisposeContentsManager contentsManager).

(** The whole [try { ... } finally { ... }] statement.  The variable
    [tempTarget] is undefined until [newUntitled] has resolved, so the
    statement is split at that assignment. *)
Definition tryFinally (kernel : IKernel) (kernelConnection : KernelConnection)
    (target : Uri) (format : ExportFormat) (backingFile : BackingFile)
    (contentsManager : ContentsManager) : M unit :=
  let! allocated := attempt (tryAllocate kernel format contentsManager) in
  match allocated with
  | Throw e =>
      do! finallyBlock None backingFile contentsManager in
      throw e
  | Return (pwd, tempFile) =>
      let tempTarget := path tempFile in
      finally_
        (tryConvert kernelConnection target format backingFile contentsManager pwd tempTarget)
        (finallyBlock (Some tempTarget) backingFile contentsManager)
  end.

Definition executeCommand (sourceDocument : NotebookDocument) (target : Uri)
    (format : ExportFormat) (_interpreter : PythonEnvironment)
    (_token : CancellationToken) : M unit :=
  let! kernel := read (KernelProviderGet sourceDocument) in
  match kernel with
  | None => ret tt
  | Some kernel =>
  let! session := read (KernelSession kernel) in
  do! match session with
      | None => await (KernelStart kernel)
      | Some _ => ret tt
      end in
  let! session := read (KernelSession kernel) in
  match session_kernel session with
  | None => ret tt
  | Some kernelConnection =>
  let kernelConnectionMetadata := kernelConnectionMetadata kernel in
  let resource := resourceUri kernel in
  if negb (isRemoteConnection kernelConnectionMetadata) then ret tt else
  match resource with
  | Some _ => ret tt
  | None =>
  let! connection := await (CreateConnectionInfo
                              (serverProviderHandle kernelConnectionMetadata)) in
  let! serverSettings := await (GetServerConnectSettings connection) in
  let contentsManager := {| serverSettings := serverSettings |} in
  let! contents := await (GetContent sourceDocument) in
  let! backingFile := await (CreateBackingFile resource (Uri_file (lit ""))
                               kernelConnectionMetadata connection contentsManager) in
  match backingFile with
  | None => ret tt
  | Some backingFile =>
  let! notebook := lift (JSON_parse contents) in
  do! catch_noop (await (Save contentsManager (filePath backingFile) notebook)) in
  tryFinally kernel kernelConnection target format backingFile contentsManager
  end end end end.

(** The history once the session has been looked at: [kernel.start] is
    called, and only then, when the kernel has no session. *)
Definition startedHistory (env : Env) (h : History) (kernel : IKernel) : History :=
  match observe env h (KernelSession kernel) with
  | None => KernelStart kernel :: h
  | Some _ => h
  end.

(** The conditions under which [executeCommand] gets as far as asking for a
    backing file: the document has a kernel; when the kernel has no session,
    [kernel.start] resolves; the session the kernel has after that, its own
    or the one [start] gave it, has a kernel handle; the connection is
    remote, the kernel has no resource, and the connection info, the server
    settings and the notebook content are obtained. *)
Definition reachesStaging (env : Env) (h : History)
    (sourceDocument : NotebookDocument) (kernel : IKernel)
    (kernelConnection : KernelConnection) (connection : IJupyterConnection)
    (settings : ServerSettings) (contents : jsstring) : Prop :=
  let metadata := kernelConnectionMetadata kernel in
  let h0 := startedHistory env h kernel in
  let c1 := CreateConnectionInfo (serverProviderHandle metadata) in
  let c2 := GetServerConnectSettings connection in
  let c3 := GetContent sourceDocument in
  observe env h (KernelProviderGet sourceDocument) = Some kernel
  /\ (observe env h (KernelSession kernel) = None ->
      answer env h (KernelStart kernel) = Return tt)
  /\ session_kernel (observe env h0 (KernelSession kernel)) = Some kernelConnection
  /\ isRemoteConnection metadata = true
  /\ resourceUri kernel = None
  /\ answer env h0 c1 = Return connection
  /\ answer env (c1 :: h0) c2 = Return settings
  /\ answer env (c2 :: c1 :: h0) c3 = Return contents.

(** The history when the backing file is asked for, [h] being the history
    once the session has been looked at, and the call asking. *)
Definition stagingHistory (h : History) (sourceDocument : NotebookDocument)
    (kernel : IKernel) (connection : IJupyterConnection) : History :=
  GetContent sourceDocument :: GetServerConnectSettings connection
  :: CreateConnectionInfo (serverProviderHandle (kernelConnectionMetadata kernel))
  :: h.

Definition createBackingFileCall (kernel : IKernel)
    (connection : IJupyterConnection) (settings : ServerSettings) : ExportCall :=
  CreateBackingFile None (Uri_file (lit "")) (kernelConnectionMetadata kernel)
    connection {| serverSettings := settings |}.

(** The calls of the [finally] block. *)
Definition isCleanupCall (c : ExportCall) : bool :=
  match c with
  | Delete _ _ | BackingFileDispose _ | DisposeContentsManager _ => true
  | _ => false
  end.

Definition bodyCall (c : ExportCall) : Prop := isCleanupCall c = false.
Definition cleanupCall (c : ExportCall) : Prop := isCleanupCall c = true.

(** The calls that dispose of the backing file or delete it. *)
Definition isBackingCleanup (backingFile : BackingFile) (c : ExportCall) : bool :=
  match c with
  | BackingFileDispose f => bool_decide (filePath f = filePath backingFile)
  | Delete _ p => bool_decide (p = filePath backingFile)
  | _ => false
  end.

(** Creation of a remote file, code run in the kernel, local write. *)
Definition isFileOrKernelIO (c : ExportCall) : bool :=
  match c with
  | CreateBackingFile _ _ _ _ _ | Save _ _ _ | NewUntitled _ _
  | ExecuteSilently _ _ | Get _ _ _ | WriteFile _ _ | Delete _ _ => true
  | _ => false
  end.

(** *** [invokeWithFileSynced] *)

(** The object handed to the handler: the path and the bound [dispose]. *)
Record IBackupFile := {
  backupFilePath : jsstring;
  backupDispose : M unit
}.

Definition invokeWithFileSynced (resource : Resource) (contents : jsstring)
    (kernelConnectionMetadata : KernelConnectionMetadata)
    (connInfo : IJupyterConnection) (contentsManager : ContentsManager)
    (handler : IBackupFile -> M unit) : M unit :=
  match resource with
  | None => ret tt
  | Some _ =>
  let! backingFile := await (CreateBackingFile resource (Uri_file (lit ""))
                               kernelConnectionMetadata connInfo contentsManager) in
  match backingFile with
  | None => ret tt
  | Some backingFile =>
  let! notebook := lift (JSON_parse contents) in
  do! catch_noop (await (Save contentsManager (filePath backingFile) notebook)) in
  do! handler {| backupFilePath := filePath backingFile;
                 backupDispose := await (BackingFileDispose backingFile) |} in
  do! await (BackingFileDispose backingFile) in
  catch_noop (await (Delete contentsManager (filePath backingFile)))
  end end.

(** *** [getContents] *)
Definition getContents (file : jsstring) (format : FileFormat)
    (contentsManager : ContentsManager) : M IModel :=
  let! data := await (Get contentsManager file format) in
  ret data.

End WithPlatform.
End ExportBase.

(** ** The display-data cache: [ConnectionDisplayDataProvider] *)
Module ConnectionDisplayDataProvider.

(** A [ConnectionDisplayData] object; the provider holds references to such
    objects, which live in a store indexed by address. *)
Record ConnectionDisplayData := {
  connectionId : jsstring;
  label : jsstring;
  description : jsstring;
  detail : jsstring;
  category : jsstring;
  serverDisplayName : option jsstring
}.

Definition Ref := N.

(** Helpers imported from [kernels/helpers] and [./connectionDisplayData];
    the workspace and platform services they receive are fixed. *)
Class Helpers := {
  getDisplayNameOrNameOfKernelConnection : KernelConnectionMetadata -> jsstring;
  getKernelConnectionDisplayPath : KernelConnectionMetadata -> jsstring;
  getRemoteKernelSessionInformation : KernelConnectionMetadata -> jsstring;
  getKernelConnectionCategorySync : KernelConnectionMetadata -> jsstring;
  updateInterpreter :
    KernelConnectionMetadata -> PythonEnvironment -> KernelConnectionMetadata
}.

Inductive Disposable :=
| DisposableDetails (d : Ref)
| DisposableSubscription (d : Ref).

(** The closure [updateInterpreterInfo] registered with
    [onDidChangeInterpreter]: it captures [connection] and [newDetails]. *)
Record Listener := {
  listenerConnection : KernelConnectionMetadata;
  listenerDetails : Ref
}.

(** A promise whose [then] callback has not run yet. *)
Inductive Task :=
| ServerDisplayNameTask (d : Ref)
| CategoryTask (d : Ref).

Record State := {
  details : gmap jsstring Ref;
  objects : gmap Ref ConnectionDisplayData;
  disposables : list Disposable;
  listeners : list Listener;
  pending : list Task;
  changes : list Ref
}.

Definition initial : State := {|
  details := ∅; objects := ∅; disposables := []; listeners := [];
  pending := []; changes := []
|}.

Section WithHelpers.
Context `{H : Helpers}.

Definition set_details (f : gmap jsstring Ref -> gmap jsstring Ref) (st : State) : State :=
  {| details := f (details st); objects := objects st;
     disposables := disposables st; listeners := listeners st;
     pending := pending st; changes := changes st |}.

Definition set_objects (f : gmap Ref ConnectionDisplayData -> gmap Ref ConnectionDisplayData)
    (st : State) : State :=
  {| details := details st; objects := f (objects st);
     disposables := disposables st; listeners := listeners st;
     pending := pending st; changes := changes st |}.

Definition push_disposable (x : Disposable) (st : State) : State :=
  {| details := details st; objects := objects st;
     disposables := disposables st ++ [x]; listeners := listeners st;
     pending := pending st; changes := changes st |}.

Definition set_listeners (f : list Listener -> list Listener) (st : State) : State :=
  {| details := details st; objects := objects st;
     disposables := disposables st; listeners := f (listeners st);
     pending := pending st; changes := changes st |}.

Definition set_pending (f : list Task -> list Task) (st : State) : State :=
  {| details := details st; objects := objects st;
     disposables := disposables st; listeners := listeners st;
     pending := f (pending st); changes := changes st |}.

(** [d.triggerChange()]. *)
Definition triggerChange (d : Ref) (st : State) : State :=
  {| details := details st; objects := objects st;
     disposables := disposables st; listeners := listeners st;
     pending := pending st; changes := d :: changes st |}.

Definition isRemoteKind (k : jsstring) : bool :=
  bool_decide (k = connectToLiveRemoteKernel)
  || bool_decide (k = startUsingRemoteKernelSpec).

(** [connection.interpreter.isCondaEnvWithoutPython]; a connection of kind
    [startUsingPythonInterpreter] has an interpreter. *)
Definition condaWithoutPython (connection : KernelConnectionMetadata) : bool :=
  match interpreter connection with
  | Some i => isCondaEnvWithoutPython i
  | None => false
  end.

(** The body of [if (!this.details.get(connection.id)) { ... }]. *)
Definition createDetails (connection : KernelConnectionMetadata) (st : State) : State :=
  let label := getDisplayNameOrNameOfKernelConnection connection in
  let description := getKernelConnectionDisplayPath connection in
  let detail :=
    if bool_decide (kind connection = connectToLiveRemoteKernel)
    then getRemoteKernelSessionInformation connection else lit "" in
  let category := getKernelConnectionCategorySync connection in
  let newDetails : Ref := fresh (dom (objects st)) in
  let st := set_objects
              (insert newDetails
                 {| connectionId := id connection; label := label;
                    description := description; detail := detail;
                    category := category; serverDisplayName := None |}) st in
  let st := push_disposable (DisposableDetails newDetails) st in
  let st := set_details (insert (id connection) newDetails) st in
  if bool_decide (kind connection = startUsingPythonInterpreter)
     && condaWithoutPython connection
  then
    push_disposable (DisposableSubscription newDetails)
      (set_listeners
         (fun l => l ++ [{| listenerConnection := connection;
                            listenerDetails := newDetails |}]) st)
  else st.

(** [getDisplayData]: the reference it returns, and the state it leaves.
    [this.details.get(connection.id)!] is [undefined] at run time when the key
    is absent, hence the [option]. *)
Definition getDisplayData (connection : KernelConnectionMetadata) (st : State)
    : option Ref * State :=
  let st :=
    match details st !! id connection with
    | None => createDetails connection st
    | Some _ => st
    end in
  match details st !! id connection with
  | None => (None, st)
  | Some d =>
      let st := set_details (insert (id connection) d) st in
      let st :=
        if isRemoteKind (kind connection)
        then set_pending (fun l => l ++ [ServerDisplayNameTask d]) st
        else st in
      let st := set_pending (fun l => l ++ [CategoryTask d]) st in
      (Some d, st)
  end.

(** The [then] callbacks of the two refreshes, run when the promise resolves
    to [v]. *)
Definition onServerDisplayName (d : Ref) (displayName : jsstring) (st : State) : State :=
  match objects st !! d with
  | Some o =>
      if bool_decide (serverDisplayName o ≠ Some displayName) then
        triggerChange d
          (set_objects
             (insert d {| connectionId := connectionId o; label := label o;
                          description := description o; detail := detail o;
                          category := category o;
                          serverDisplayName := Some displayName |}) st)
      else st
  | None => st
  end.

Definition onCategory (d : Ref) (kind : jsstring) (st : State) : State :=
  match objects st !! d with
  | Some o =>
      if bool_decide (category o ≠ kind) then
        triggerChange d
          (set_objects
             (insert d {| connectionId := connectionId o; label := label o;
                          description := description o; detail := detail o;
                          category := kind;
                          serverDisplayName := serverDisplayName o |}) st)
      else st
  | None => st
  end.

(** [updateInterpreterInfo([e])] for one listener; [resolved] is
    [this.interpreters.resolvedEnvironments].  It gives the listener's
    connection after the call and the new state. *)
Definition updateInterpreterInfo (resolved : list PythonEnvironment)
    (e : PythonEnvironment) (l : Listener) (st : State) : Listener * State :=
  let connection := listenerConnection l in
  let changedEnv :=
    if bool_decide (Some (envId e) = envId <$> interpreter connection)
    then Some e else None in
  let found :=
    List.find (fun env => bool_decide (Some (envId env) = envId <$> changedEnv)) resolved in
  match found with
  | Some i =>
      if bool_decide (kind connection = startUsingPythonInterpreter) then
        let connection := updateInterpreter connection i in
        let l' := {| listenerConnection := connection;
                     listenerDetails := listenerDetails l |} in
        match objects st !! listenerDetails l with
        | Some o =>
            let newLabel := getDisplayNameOrNameOfKernelConnection connection in
            let newDescription := getKernelConnectionDisplayPath connection in
            let newCategory := getKernelConnectionCategorySync connection in
            let changed :=
              bool_decide (newLabel ≠ label o)
              || bool_decide (newDescription ≠ description o)
              || bool_decide (newCategory ≠ category o) in
            let st :=
              set_objects
                (insert (listenerDetails l)
                   {| connectionId := connectionId o; label := newLabel;
                      description := newDescription; detail := detail o;
                      category := newCategory;
                      serverDisplayName := serverDisplayName o |}) st in
            (l', if changed then triggerChange (listenerDetails l) st else st)
        | None => (l', st)
        end
      else (l, st)
  | None => (l, st)
  end.

(** The interpreter service fires its event: every listener runs in turn. *)
Fixpoint fireInterpreterChange (resolved : list PythonEnvironment)
    (e : PythonEnvironment) (ls : list Listener) (st : State) : list Listener * State :=
  match ls with
  | [] => ([], st)
  | l :: ls' =>
      let '(l', st) := updateInterpreterInfo resolved e l st in
      let '(ls'', st) := fireInterpreterChange resolved e ls' st in
      (l' :: ls'', st)
  end.

(** The connection id stored in the object at an address, if any. *)
Definition idAt (st : State) (d : Ref) : option jsstring :=
  connectionId <$> objects st !! d.

(** The map and the store agree: every object is the entry of its own
    connection id, and every entry is an object with that id. *)
Definition consistent (st : State) : Prop :=
  (forall d k, idAt st d = Some k -> details st !! k = Some d)
  /\ (forall k d, details st !! k = Some d -> idAt st d = Some k).

(** [st'] has the entries of [st] and objects with the same ids. *)
Definition sameEntries (st st' : State) : Prop :=
  details st' = details st /\ forall d, idAt st' d = idAt st d.

(** How many entries, and how many subscriptions, were registered with the
    disposal registry. *)
Definition isDetailsDisposable (x : Disposable) : bool :=
  match x with DisposableDetails _ => true | DisposableSubscription _ => false end.

Definition countDetails (l : list Disposable) : nat :=
  length (List.filter isDetailsDisposable l).

Definition countSubscriptions (l : list Disposable) : nat :=
  length (List.filter (fun x => negb (isDetailsDisposable x)) l).

(** The map, the store and the registry have grown together. *)
Definition balanced (st : State) : Prop :=
  size (details st) = size (objects st)
  /\ countDetails (disposables st) = size (objects st)
  /\ countSubscriptions (disposables st) = length (listeners st).

(** A listener run changes no field but the objects and the notifications,
    and keeps the keys of the store. *)
Definition sameShape (st st' : State) : Prop :=
  details st' = details st /\ size (objects st') = size (objects st)
  /\ disposables st' = disposables st /\ listeners st' = listeners st.

(** What was pushed on the disposal registry, in the order of the pushes:
    the display-data objects, and the subscriptions to the interpreter
    event. *)
Definition detailsPushed (l : list Disposable) : list Ref :=
  omap (fun x => match x with
                 | DisposableDetails d => Some d
                 | DisposableSubscription _ => None
                 end) l.

Definition subscriptionsPushed (l : list Disposable) : list Ref :=
  omap (fun x => match x with
                 | DisposableDetails _ => None
                 | DisposableSubscription d => Some d
                 end) l.

(** The registry holds the objects of the store, each one once, and the
    subscriptions of the listeners, in the order of their registration. *)
Definition registered (st : State) : Prop :=
  NoDup (detailsPushed (disposables st))
  /\ (forall d, d ∈ detailsPushed (disposables st) <-> is_Some (objects st !! d))
  /\ subscriptionsPushed (disposables st) = listenerDetails <$> listeners st.

(** [st'] has the objects of [st] at the same references, the same registry
    and listeners for the same objects. *)
Definition sameRegistry (st st' : State) : Prop :=
  dom (objects st') = dom (objects st)
  /\ disposables st' = disposables st
  /\ listenerDetails <$> listeners st' = listenerDetails <$> listeners st.

(** What the event loop can run next. *)
Inductive Action :=
| CallGetDisplayData (connection : KernelConnectionMetadata)
| Resolve (i : nat) (v : jsstring)
| Reject (i : nat)
| InterpreterChanged (e : option PythonEnvironment) (resolved : list PythonEnvironment).

Definition step (a : Action) (st : State) : State :=
  match a with
  | CallGetDisplayData connection => snd (getDisplayData connection st)
  | Resolve i v =>
      match pending st !! i with
      | Some (ServerDisplayNameTask d) =>
          onServerDisplayName d v (set_pending (delete i) st)
      | Some (CategoryTask d) =>
          onCategory d v (set_pending (delete i) st)
      | None => st
      end
  | Reject i => set_pending (delete i) st
  | InterpreterChanged None _ => st
  | InterpreterChanged (Some e) resolved =>
      let '(ls, st') := fireInterpreterChange resolved e (listeners st) st in
      set_listeners (fun _ => ls) st'
  end.

Definition steps (l : list Action) (st : State) : State :=
  foldl (fun st a => step a st) st l.

End WithHelpers.
End ConnectionDisplayDataProvider.

(** ** Server registration: [serverSelector.ts] *)
Module JupyterServerSelector.

Record IJupyterServerUri := { serverBaseUrl : jsstring; displayName : jsstring }.

Inductive TelemetryEvent := ConnectRemoteSelfCertFailedJupyter.

Inductive Experiment := PasswordManager.

(** [new RemoteJupyterServerConnectionError(userURI, provider, err)]. *)
Record RemoteJupyterServerConnectionError := {
  errorUri : jsstring;
  errorProvider : JupyterServerProviderHandle;
  originalError : JsError
}.

(** Imports of the module whose code is elsewhere: the error classifiers, the
    identifier generator, the localised messages and [err.toString()]. *)
Class Platform := {
  isSelfCertsError : JsError -> bool;
  isSelfCertsExpiredError : JsError -> bool;
  generateIdFromRemoteProvider : JupyterServerProviderHandle -> jsstring;
  toString : JsError -> jsstring;
  jupyterSelfCertFailErrorMessageOnly : jsstring;
  jupyterSelfCertExpiredErrorMessageOnly : jsstring;
  passwordFailure : jsstring;
  remoteJupyterConnectionFailedWithoutServerWithErrorWeb : jsstring -> jsstring;
  remoteJupyterConnectionFailedWithoutServerWithError : jsstring -> jsstring
}.

Inductive SelectorCall :=
| ValidateRemoteUri (provider : JupyterServerProviderHandle)
    (serverUri : option IJupyterServerUri)
| HandleSelfCertsError (msg : jsstring)
| HandleExpiredCertsError (msg : jsstring)
| HandleError (e : RemoteJupyterServerConnectionError)
| StorageAdd (provider : JupyterServerProviderHandle)
| SendTelemetryEvent (ev : TelemetryEvent)
| TraceWarning (msg : jsstring) (err : JsError)
| TraceError (msg : jsstring) (err : JsError).

Definition SelectorResp (c : SelectorCall) : Type :=
  match c with
  | HandleSelfCertsError _ | HandleExpiredCertsError _ => bool
  | _ => unit
  end.

Inductive SelectorObs := InExperiment (e : Experiment).

#[export] Instance SelectorSig : Signature := {|
  Call := SelectorCall; Resp := SelectorResp;
  Obs := SelectorObs; ObsResp := fun _ => bool
|}.

(** The regular expression [/(https?:\/\/[^\s]+)/g] tried at the start of
    [s]: the text it matches and what follows it. *)
Definition schemeLength (s : jsstring) : option nat :=
  if startsWith (lit "https://") s then Some 8
  else if startsWith (lit "http://") s then Some 7
  else None.

Fixpoint nonSpaceRun (s : jsstring) : jsstring * jsstring :=
  match s with
  | [] => ([], [])
  | c :: s' =>
      if isWhiteSpace c then ([], s)
      else let '(run, rest) := nonSpaceRun s' in (c :: run, rest)
  end.

Definition matchUrl (s : jsstring) : option (jsstring * jsstring) :=
  match schemeLength s with
  | None => None
  | Some n =>
      match nonSpaceRun (drop n s) with
      | ([], _) => None
      | (run, rest) => Some (take n s ++ run, rest)
      end
  end.

(** The replacement function [(url) => `[${url}](${url})`]. *)
Definition markdownLink (url : jsstring) : jsstring :=
  lit "[" ++ url ++ lit "](" ++ url ++ lit ")".

(** [msg.replace(urlRegex, ...)] with the global flag, scanning [s] from the
    left with at most [fuel] steps; a match is replaced and the scan resumes
    after it, otherwise one character is copied. *)
Fixpoint replaceFrom (fuel : nat) (s : jsstring) : jsstring :=
  match fuel with
  | O => s
  | S fuel =>
      match s with
      | [] => []
      | c :: s' =>
          match matchUrl s with
          | Some (url, rest) => markdownLink url ++ replaceFrom fuel rest
          | None => c :: replaceFrom fuel s'
          end
      end
  end.

(** Every step consumes a character, so [length s] steps are enough. *)
Definition replaceUrls (s : jsstring) : jsstring := replaceFrom (length s) s.

(** The claim about the replacement, in the words of the specification: the
    message is read from the left; a URL, that is [http://] or [https://]
    followed by characters other than white space, as many as there are and
    at least one, becomes the link [[url](url)], written out here character
    by character; any other character is copied. *)
Definition isScheme (scheme : jsstring) : Prop :=
  scheme = lit "http://" \/ scheme = lit "https://".

Definition startsUrl (s : jsstring) : Prop :=
  exists scheme c rest,
    isScheme scheme /\ isWhiteSpace c = false /\ s = scheme ++ c :: rest.

Definition endsUrl (rest : jsstring) : Prop :=
  rest = [] \/ exists c rest', rest = c :: rest' /\ isWhiteSpace c = true.

Inductive Rewritten : jsstring -> jsstring -> Prop :=
| rewritten_nil : Rewritten [] []
| rewritten_url scheme run rest out :
    isScheme scheme -> run <> [] ->
    Forall (fun c => isWhiteSpace c = false) run ->
    endsUrl rest ->
    Rewritten rest out ->
    Rewritten (scheme ++ run ++ rest)
      (lit "[" ++ (scheme ++ run) ++ lit "](" ++ (scheme ++ run) ++ lit ")" ++ out)
| rewritten_char c s out :
    ~ startsUrl (c :: s) ->
    Rewritten s out ->
    Rewritten (c :: s) (c :: out).

Section WithPlatform.
Context `{P : Platform}.

(** [err instanceof JupyterInvalidPasswordError]. *)
Definition isInvalidPasswordError (err : JsError) : bool :=
  bool_decide (errClass err = lit "JupyterInvalidPasswordError").

(** [err.message || err.toString()]. *)
Definition messageOrString (err : JsError) : jsstring :=
  if truthy (message err) then message err else toString err.

Definition validateSelectJupyterURI (isWebExtension : bool)
    (provider : JupyterServerProviderHandle) (serverUri : IJupyterServerUri)
    : M (option jsstring) :=
  let! validated := attempt (await (ValidateRemoteUri provider (Some serverUri))) in
  match validated with
  | Return _ => ret None
  | Throw err =>
      do! emit (TraceWarning (lit "Uri verification error") err) in
      if isSelfCertsError err then
        do! emit (SendTelemetryEvent ConnectRemoteSelfCertFailedJupyter) in
        let! handled := await (HandleSelfCertsError (message err)) in
        if negb handled then ret (Some jupyterSelfCertFailErrorMessageOnly)
        else ret None
      else if isSelfCertsExpiredError err then
        do! emit (SendTelemetryEvent ConnectRemoteSelfCertFailedJupyter) in
        let! handled := await (HandleExpiredCertsError (message err)) in
        if negb handled then ret (Some jupyterSelfCertExpiredErrorMessageOnly)
        else ret None
      else if isInvalidPasswordError err then
        ret (Some passwordFailure)
      else
        let errorMessage := replaceUrls (messageOrString err) in
        ret (Some ((if isWebExtension
                    then remoteJupyterConnectionFailedWithoutServerWithErrorWeb
                    else remoteJupyterConnectionFailedWithoutServerWithError)
                     errorMessage))
  end.

Definition addJupyterServerOld (provider : JupyterServerProviderHandle) : M unit :=
  let userURI := generateIdFromRemoteProvider provider in
  let! validated := attempt (await (ValidateRemoteUri provider None)) in
  (* [proceed] tells whether control leaves the [try]/[catch] statement
     normally, rather than through one of the [return]s of the handler. *)
  let! proceed :=
    match validated with
    | Return _ => ret true
    | Throw err =>
        if isSelfCertsError err then
          do! emit (SendTelemetryEvent ConnectRemoteSelfCertFailedJupyter) in
          let! handled := await (HandleSelfCertsError (message err)) in
          ret handled
        else if isSelfCertsExpiredError err then
          do! emit (SendTelemetryEvent ConnectRemoteSelfCertFailedJupyter) in
          let! handled := await (HandleExpiredCertsError (message err)) in
          ret handled
        else if isInvalidPasswordError err then
          ret false
        else
          do! await (HandleError {| errorUri := userURI; errorProvider := provider;
                                    originalError := err |}) in
          ret false
    end in
  if proceed then await (StorageAdd provider) else ret tt.

(** The providers handed to [serverUriStorage.add] by a list of calls: the
    code touches the store through that method only. *)
Definition storeAdds (calls : list SelectorCall) : list JupyterServerProviderHandle :=
  omap (fun c => match c with StorageAdd p => Some p | _ => None end) calls.

(** The condition under which the legacy path registers the server, in the
    words of the specification: validation succeeds, or it throws a
    certificate error (self-signed, else expired) and the prompt shown for it
    is accepted. *)
Definition promptAccepted (o : Outcome bool) : bool :=
  match o with
  | Return true => true
  | _ => false
  end.

Definition registrationAccepted (env : Env) (h : History)
    (provider : JupyterServerProviderHandle) : bool :=
  let validate := ValidateRemoteUri provider None in
  let h1 := SendTelemetryEvent ConnectRemoteSelfCertFailedJupyter :: validate :: h in
  match answer env h validate with
  | Return _ => true
  | Throw err =>
      if isSelfCertsError err then
        promptAccepted (answer env h1 (HandleSelfCertsError (message err)))
      else if isSelfCertsExpiredError err then
        promptAccepted (answer env h1 (HandleExpiredCertsError (message err)))
      else false
  end.

(** The cases in which the specification says the store is left alone. *)
Definition registrationRefused (env : Env) (h : History)
    (provider : JupyterServerProviderHandle) (err : JsError) : Prop :=
  let validate := ValidateRemoteUri provider None in
  let h1 := SendTelemetryEvent ConnectRemoteSelfCertFailedJupyter :: validate :: h in
  (isSelfCertsError err = true
   /\ answer env h1 (HandleSelfCertsError (message err)) = Return false)
  \/ (isSelfCertsError err = false /\ isSelfCertsExpiredError err = true
      /\ answer env h1 (HandleExpiredCertsError (message err)) = Return false)
  \/ (isSelfCertsError err = false /\ isSelfCertsExpiredError err = false
      /\ isInvalidPasswordError err = true)
  \/ (isSelfCertsError err = false /\ isSelfCertsExpiredError err = false
      /\ isInvalidPasswordError err = false).

(** The calls that change the store or report through the error handler. *)
Definition isStoreOrReport (c : SelectorCall) : bool :=
  match c with
  | StorageAdd _ | HandleError _ => true
  | _ => false
  end.

Definition addJupyterServerNew (provider : JupyterServerProviderHandle) : M unit :=
  let! validated := attempt (await (ValidateRemoteUri provider None)) in
  match validated with
  | Throw err =>
      emit (TraceError (lit "Error in validating the Remote Uri " ++ providerId provider
                        ++ lit "." ++ providerHandle provider) err)
  | Return _ => await (StorageAdd provider)
  end.

Definition addJupyterServer (provider : JupyterServerProviderHandle) : M unit :=
  let! inExperiment := read (InExperiment PasswordManager) in
  if inExperiment then addJupyterServerNew provider
  else addJupyterServerOld provider.

End WithPlatform.
End JupyterServerSelector.

(** ** A concrete platform and concrete environments

    They are used to run the model on examples; the general theorems below
    quantify over every platform and every environment. *)
Module Sample.
Import ExportBase.

(** [atob] as the HTML standard defines it (forgiving base64 decoding). *)
Definition b64Index (c : N) : option N :=
  if ((65 <=? c) && (c <=? 90))%N then Some (c - 65)%N
  else if ((97 <=? c) && (c <=? 122))%N then Some (c - 71)%N
  else if ((48 <=? c) && (c <=? 57))%N then Some (c + 4)%N
  else if (c =? 43)%N then Some 62%N
  else if (c =? 47)%N then Some 63%N
  else None.

Fixpoint sextets (s : jsstring) : option (list N) :=
  match s with
  | [] => Some []
  | c :: s' =>
      match b64Index c, sextets s' with
      | Some v, Some l => Some (v :: l)
      | _, _ => None
      end
  end.

Fixpoint bytesOfSextets (l : list N) : list N :=
  match l with
  | a :: b :: c :: d :: l' =>
      (a * 4 + b / 16)%N :: ((b mod 16) * 16 + c / 4)%N :: ((c mod 4) * 64 + d)%N
      :: bytesOfSextets l'
  | [a; b; c] => [(a * 4 + b / 16)%N; ((b mod 16) * 16 + c / 4)%N]
  | [a; b] => [(a * 4 + b / 16)%N]
  | _ => []
  end.

Definition isAsciiWhiteSpace (c : N) : bool :=
  ((c =? 9) || (c =? 10) || (c =? 12) || (c =? 13) || (c =? 32))%N.

Definition removePadding (s : jsstring) : jsstring :=
  match rev s with
  | 61%N :: 61%N :: r => rev r
  | 61%N :: r => rev r
  | _ => s
  end.

Definition InvalidCharacterError : JsError :=
  mkError (lit "InvalidCharacterError") (lit "The string to be decoded is not correctly encoded.").

Definition atobForgiving (d : jsstring) : Outcome jsstring :=
  let s := filter (fun c => isAsciiWhiteSpace c = false) d in
  let s := if (length s mod 4 =? 0)%nat then removePadding s else s in
  if (length s mod 4 =? 1)%nat then Throw InvalidCharacterError
  else match sextets s with
       | Some l => Return (bytesOfSextets l)
       | None => Throw InvalidCharacterError
       end.

(** The last component of a path with [/] separators. *)
Fixpoint lastComponent (acc s : jsstring) : jsstring :=
  match s with
  | [] => acc
  | c :: s' => if (c =? 47)%N then lastComponent [] s' else lastComponent (acc ++ [c]) s'
  end.

Definition samplePlatform : Platform := {|
  Json := jsstring;
  JSON_parse := fun s => if truthy s then Return s
                         else Throw (mkError (lit "SyntaxError") (lit "Unexpected end of JSON input"));
  atob := atobForgiving;
  isRemoteConnection := fun m =>
    bool_decide (kind m = startUsingRemoteKernelSpec)
    || bool_decide (kind m = connectToLiveRemoteKernel);
  concatMultilineString := fun t =>
    match t with
    | Some (Single s) => Return s
    | Some (Lines l) => Return (concat l)
    | None => Throw (TypeError (lit "Cannot read properties of undefined"))
    end;
  basename := lastComponent [];
  formatValue := fun f =>
    match f with pdf => lit "pdf" | html => lit "html" | python => lit "python" end;
  SessionDisposedError := mkError (lit "SessionDisposedError") (lit "Session disposed")
|}.

#[local] Existing Instance samplePlatform.

Definition sampleHandle : JupyterServerProviderHandle :=
  {| providerId := lit "myserver"; providerHandle := lit "1" |}.

Definition sampleMetadata : KernelConnectionMetadata :=
  {| id := lit "remote-python3"; kind := startUsingRemoteKernelSpec;
     interpreter := None; serverProviderHandle := sampleHandle |}.

Definition sampleKernel : IKernel :=
  {| kernelHandle := 1; kernelConnectionMetadata := sampleMetadata;
     resourceUri := None |}.

Definition sampleInterpreter : PythonEnvironment :=
  {| envId := lit "py"; isCondaEnvWithoutPython := false |}.

Definition sampleToken : CancellationToken := {| isCancellationRequested := false |}.

Definition sampleBackingFile : BackingFile := {| filePath := lit "rem/nb-1.ipynb" |}.

Definition streamOutput (s : jsstring) : IOutput :=
  {| output_type := lit "stream"; name := Some (lit "stdout");
     text := Some (Single s); data := None |}.

Definition executeResult (s : jsstring) : IOutput :=
  {| output_type := lit "execute_result"; name := None; text := None;
     data := Some {[ lit "text/plain" := Single s ]} |}.

(** What varies between the runs below. *)
Record Scenario := {
  hasKernel : bool;
  sessionBeforeStart : bool;
  sessionAfterStart : bool;
  probeOutputs : list IOutput;
  convertOutputs : list IOutput;
  tempPath : jsstring;
  convertedContent : jsstring;
  deleteTempFails : bool;
  deleteBackingFails : bool;
  writeFails : bool
}.

Definition started (h : list ExportCall) : bool :=
  existsb (fun c => match c with KernelStart _ => true | _ => false end) h.

Definition serverError : JsError := mkError (lit "ResponseError") (lit "Not Found").
Definition diskError : JsError := mkError (lit "Error") (lit "ENOSPC: no space left on device").

Definition scenarioAnswer (sc : Scenario) (h : list ExportCall) (c : ExportCall)
    : Outcome (ExportResp c) :=
  match c as c return Outcome (ExportResp c) with
  | KernelStart _ => Return tt
  | CreateConnectionInfo _ => Return {| baseUrl := lit "http://host:8888" |}
  | GetServerConnectSettings c =>
      Return {| settingsBaseUrl := baseUrl c; settingsToken := lit "t" |}
  | GetContent _ => Return (lit "{}")
  | CreateBackingFile _ _ _ _ _ => Return (Some sampleBackingFile)
  | Save _ _ _ => Return tt
  | NewUntitled _ _ => Return {| path := tempPath sc; content := [] |}
  | ExecuteSilently _ code =>
      if bool_decide (code = lit "import os;os.getcwd();")
      then Return (probeOutputs sc) else Return (convertOutputs sc)
  | Get _ p _ => Return {| path := p; content := convertedContent sc |}
  | WriteFile _ _ => if writeFails sc then Throw diskError else Return tt
  | Delete _ p =>
      if bool_decide (p = tempPath sc) then
        if deleteTempFails sc then Throw serverError else Return tt
      else if deleteBackingFails sc then Throw serverError else Return tt
  | BackingFileDispose _ => Return tt
  | DisposeContentsManager _ => Return tt
  | TraceLog _ => Return tt
  end.

Definition scenarioObserve (sc : Scenario) (h : list ExportCall) (o : ExportObs)
    : ExportObsResp o :=
  match o as o return ExportObsResp o with
  | KernelProviderGet _ => if hasKernel sc then Some sampleKernel else None
  | KernelSession _ =>
      if sessionBeforeStart sc || (started h && sessionAfterStart sc)
      then Some {| sessionKernel := Some 7%N |} else None
  end.

Definition scenarioEnv (sc : Scenario) : Env :=
  {| answer := scenarioAnswer sc; observe := scenarioObserve sc |}.

(** A run in which everything succeeds. *)
Definition happy : Scenario := {|
  hasKernel := true; sessionBeforeStart := true; sessionAfterStart := true;
  probeOutputs := [executeResult (lit "/home/user")];
  convertOutputs := [streamOutput (lit "[NbConvertApp] Writing 5 bytes")];
  tempPath := lit "untitled.html";
  convertedContent := lit "<p/>";
  deleteTempFails := false; deleteBackingFails := false; writeFails := false
|}.

(** The kernel has no session until it is started. *)
Definition coldKernel : Scenario := {|
  hasKernel := true; sessionBeforeStart := false; sessionAfterStart := true;
  probeOutputs := [executeResult (lit "/home/user")];
  convertOutputs := [streamOutput (lit "[NbConvertApp] Writing 5 bytes")];
  tempPath := lit "untitled.html";
  convertedContent := lit "<p/>";
  deleteTempFails := false; deleteBackingFails := false; writeFails := false
|}.

(** The kernel has no session and starting it does not give it one. *)
Definition deadKernel : Scenario := {|
  hasKernel := true; sessionBeforeStart := false; sessionAfterStart := false;
  probeOutputs := []; convertOutputs := [];
  tempPath := lit "untitled.html"; convertedContent := [];
  deleteTempFails := false; deleteBackingFails := false; writeFails := false
|}.

(** The probe of the working directory prints nothing. *)
Definition noCwd : Scenario := {|
  hasKernel := true; sessionBeforeStart := true; sessionAfterStart := true;
  probeOutputs := [];
  convertOutputs := [streamOutput (lit "[NbConvertApp] Writing 5 bytes")];
  tempPath := lit "untitled.html";
  convertedContent := lit "<p/>";
  deleteTempFails := false; deleteBackingFails := false; writeFails := false
|}.

(** The conversion prints a Python traceback. *)
Definition tracebackText : jsstring :=
  lit "Traceback (most recent call last): nbconvert failed".

Definition failing : Scenario := {|
  hasKernel := true; sessionBeforeStart := true; sessionAfterStart := true;
  probeOutputs := [executeResult (lit "/home/user")];
  convertOutputs := [streamOutput (lit "  " ++ tracebackText ++ lit " ")];
  tempPath := lit "untitled.html";
  convertedContent := lit "<p/>";
  deleteTempFails := false; deleteBackingFails := false; writeFails := false
|}.

(** The conversion prints nothing. *)
Definition silent : Scenario := {|
  hasKernel := true; sessionBeforeStart := true; sessionAfterStart := true;
  probeOutputs := [executeResult (lit "/home/user")];
  convertOutputs := [];
  tempPath := lit "untitled.html";
  convertedContent := lit "<p/>";
  deleteTempFails := false; deleteBackingFails := false; writeFails := false
|}.

(** Everything succeeds, then the server rejects the deletion of the
    temporary file. *)
Definition tempDeleteRejected : Scenario := {|
  hasKernel := true; sessionBeforeStart := true; sessionAfterStart := true;
  probeOutputs := [executeResult (lit "/home/user")];
  convertOutputs := [streamOutput (lit "[NbConvertApp] Writing 5 bytes")];
  tempPath := lit "untitled.html";
  convertedContent := lit "<p/>";
  deleteTempFails := true; deleteBackingFails := false; writeFails := false
|}.

(** The local write fails and the server rejects the deletion of the backing
    file. *)
Definition writeRejected : Scenario := {|
  hasKernel := true; sessionBeforeStart := true; sessionAfterStart := true;
  probeOutputs := [executeResult (lit "/home/user")];
  convertOutputs := [streamOutput (lit "[NbConvertApp] Writing 5 bytes")];
  tempPath := lit "untitled.html";
  convertedContent := lit "<p/>";
  deleteTempFails := false; deleteBackingFails := true; writeFails := true
|}.

Definition sampleConnection : IJupyterConnection := {| baseUrl := lit "http://host:8888" |}.

Definition handlerError : JsError := mkError (lit "Error") (lit "handler failed").

Definition sampleContentsManager : ContentsManager :=
  {| serverSettings := {| settingsBaseUrl := lit "http://host:8888";
                          settingsToken := lit "t" |} |}.

(** The server selector. *)
Definition sampleSelectorPlatform : JupyterServerSelector.Platform := {|
  JupyterServerSelector.isSelfCertsError := fun e =>
    includes (lit "reason: self signed certificate") (message e);
  JupyterServerSelector.isSelfCertsExpiredError := fun e =>
    includes (lit "reason: certificate has expired") (message e);
  JupyterServerSelector.generateIdFromRemoteProvider := fun p =>
    providerId p ++ lit ":" ++ providerHandle p;
  JupyterServerSelector.toString := fun e => errClass e ++ lit ": " ++ message e;
  JupyterServerSelector.jupyterSelfCertFailErrorMessageOnly :=
    lit "The security certificate used by server was not issued by a trusted certificate authority.";
  JupyterServerSelector.jupyterSelfCertExpiredErrorMessageOnly :=
    lit "The security certificate used by server has expired.";
  JupyterServerSelector.passwordFailure := lit "Failed to connect to password protected server.";
  JupyterServerSelector.remoteJupyterConnectionFailedWithoutServerWithErrorWeb := fun m =>
    lit "Connection failure. Verify the server is running and reachable from a browser. (" ++ m ++ lit ").";
  JupyterServerSelector.remoteJupyterConnectionFailedWithoutServerWithError := fun m =>
    lit "Connection failure. Verify the server is running and reachable. (" ++ m ++ lit ")."
|}.

Definition selectorAnswer (validation : Outcome unit) (promptAnswer : bool)
    (h : list JupyterServerSelector.SelectorCall)
    (c : JupyterServerSelector.SelectorCall)
    : Outcome (JupyterServerSelector.SelectorResp c) :=
  match c as c return Outcome (JupyterServerSelector.SelectorResp c) with
  | JupyterServerSelector.ValidateRemoteUri _ _ => validation
  | JupyterServerSelector.HandleSelfCertsError _ => Return promptAnswer
  | JupyterServerSelector.HandleExpiredCertsError _ => Return promptAnswer
  | JupyterServerSelector.HandleError _ => Return tt
  | JupyterServerSelector.StorageAdd _ => Return tt
  | JupyterServerSelector.SendTelemetryEvent _ => Return tt
  | JupyterServerSelector.TraceWarning _ _ => Return tt
  | JupyterServerSelector.TraceError _ _ => Return tt
  end.

Definition selectorEnv (validation : Outcome unit) (promptAnswer : bool)
    : @Env JupyterServerSelector.SelectorSig :=
  @Build_Env JupyterServerSelector.SelectorSig
    (selectorAnswer validation promptAnswer) (fun _ _ => false).

Definition selfSignedError : JsError :=
  mkError (lit "FetchError")
    (lit "request to https://host:8888/api failed, reason: self signed certificate").

Definition refusedError : JsError :=
  mkError (lit "FetchError")
    (lit "request to http://host:8888/api/kernels?1 failed, reason: connect ECONNREFUSED").



Definition sampleServerUri : JupyterServerSelector.IJupyterServerUri :=
  {| JupyterServerSelector.serverBaseUrl := lit "http://host:8888";
     JupyterServerSelector.displayName := lit "host" |}.

(** The display-data provider. *)
Definition sampleHelpers : ConnectionDisplayDataProvider.Helpers := {|
  ConnectionDisplayDataProvider.getDisplayNameOrNameOfKernelConnection := fun c => id c;
  ConnectionDisplayDataProvider.getKernelConnectionDisplayPath := fun _ => lit "~/env/bin/python";
  ConnectionDisplayDataProvider.getRemoteKernelSessionInformation := fun _ => lit "1 connection";
  ConnectionDisplayDataProvider.getKernelConnectionCategorySync := fun c =>
    if bool_decide (kind c = startUsingPythonInterpreter)
    then lit "Python Environments" else lit "Jupyter Kernel";
  ConnectionDisplayDataProvider.updateInterpreter := fun c i =>
    {| id := id c; kind := kind c; interpreter := Some i;
       serverProviderHandle := serverProviderHandle c |}
|}.

Definition liveMetadata : KernelConnectionMetadata :=
  {| id := lit "remote-python3"; kind := connectToLiveRemoteKernel;
     interpreter := None; serverProviderHandle := sampleHandle |}.

Definition localMetadata : KernelConnectionMetadata :=
  {| id := lit "conda-base"; kind := startUsingPythonInterpreter;
     interpreter := Some {| envId := lit "base"; isCondaEnvWithoutPython := true |};
     serverProviderHandle := sampleHandle |}.

(** Environments that answer some calls in a special way and the others as
    a scenario does. *)
Definition withAnswers
    (special : forall c : ExportCall, option (Outcome (ExportResp c)))
    (sc : Scenario) : Env :=
  {| answer := fun h c =>
       match special c with
       | Some o => o
       | None => scenarioAnswer sc h c
       end;
     observe := scenarioObserve sc |}.

Definition rejectStart (c : ExportCall) : option (Outcome (ExportResp c)) :=
  match c as c return option (Outcome (ExportResp c)) with
  | KernelStart _ => Some (Throw serverError)
  | _ => None
  end.

Definition noBackingFile (c : ExportCall) : option (Outcome (ExportResp c)) :=
  match c as c return option (Outcome (ExportResp c)) with
  | CreateBackingFile _ _ _ _ _ => Some (Return None)
  | _ => None
  end.

Definition emptyContent (c : ExportCall) : option (Outcome (ExportResp c)) :=
  match c as c return option (Outcome (ExportResp c)) with
  | GetContent _ => Some (Return [])
  | _ => None
  end.

Definition rejectAllocation (c : ExportCall) : option (Outcome (ExportResp c)) :=
  match c as c return option (Outcome (ExportResp c)) with
  | NewUntitled _ _ => Some (Throw serverError)
  | _ => None
  end.




(** The converted file is a PDF, read as base64. *)
Definition pdfReady : Scenario := {|
  hasKernel := true; sessionBeforeStart := true; sessionAfterStart := true;
  probeOutputs := [executeResult (lit "/home/user")];
  convertOutputs := [streamOutput (lit "[NbConvertApp] Writing 5 bytes")];
  tempPath := lit "untitled.pdf";
  convertedContent := lit "JVBERi0=";
  deleteTempFails := false; deleteBackingFails := false; writeFails := false
|}.

Definition sampleSettings : ServerSettings :=
  {| settingsBaseUrl := lit "http://host:8888"; settingsToken := lit "t" |}.

Definition sampleTempFile : IModel := {| path := lit "untitled.html"; content := [] |}.

Definition experimentEnv (validation : Outcome unit)
    : @Env JupyterServerSelector.SelectorSig :=
  @Build_Env JupyterServerSelector.SelectorSig
    (selectorAnswer validation false) (fun _ _ => true).

Definition invalidPasswordError : JsError :=
  mkError (lit "JupyterInvalidPasswordError") (lit "Invalid password.").

Definition liveEntry : ConnectionDisplayDataProvider.ConnectionDisplayData :=
  {| ConnectionDisplayDataProvider.connectionId := lit "remote-python3";
     ConnectionDisplayDataProvider.label := lit "remote-python3";
     ConnectionDisplayDataProvider.description := lit "~/env/bin/python";
     ConnectionDisplayDataProvider.detail := lit "1 connection";
     ConnectionDisplayDataProvider.category := lit "Jupyter Kernel";
     ConnectionDisplayDataProvider.serverDisplayName := None |}.

Definition otherEnvironment : PythonEnvironment :=
  {| envId := lit "other"; isCondaEnvWithoutPython := false |}.

Definition resolvedBase : PythonEnvironment :=
  {| envId := lit "base"; isCondaEnvWithoutPython := false |}.

Definition runExport (sc : Scenario) (format : ExportFormat) : History * Outcome unit :=
  executeCommand (lit "doc.ipynb") (lit "/out/doc") format sampleInterpreter sampleToken
    (scenarioEnv sc) [].

End Sample.

(** * Properties *)

(** ** The monad: what a computation adds to the history *)
Section AsyncFacts.
Context `{Sig : Signature}.

Lemma emits_ret Q {A} (a : A) : emits Q (ret a).
Proof. intros env h. by exists []. Qed.

Lemma emits_throw Q {A} e : emits Q (@throw _ A e).
Proof. intros env h. by exists []. Qed.

Lemma emits_lift Q {A} (o : Outcome A) : emits Q (lift o).
Proof. intros env h. by exists []. Qed.

Lemma emits_read Q o : emits Q (read o).
Proof. intros env h. by exists []. Qed.

Lemma emits_await (Q : Call -> Prop) c : Q c -> emits Q (await c).
Proof. intros Hc env h. exists [c]. split; [done|]. by constructor. Qed.

Lemma emits_emit (Q : Call -> Prop) c : Q c -> emits Q (emit c).
Proof. intros Hc env h. exists [c]. split; [done|]. by constructor. Qed.

Lemma emits_bind Q {A B} (m : M A) (f : A -> M B) :
  emits Q m -> (forall a, emits Q (f a)) -> emits Q (bind m f).
Proof.
  intros Hm Hf env h. unfold bind.
  destruct (Hm env h) as (l & Hl & HQ).
  destruct (m env h) as [h1 [a|e]]; simpl in *; subst.
  - destruct (Hf a env (l ++ h)) as (l' & Hl' & HQ'). exists (l' ++ l).
    rewrite Hl', app_assoc. split; [done|]. by apply Forall_app.
  - by exists l.
Qed.

Lemma emits_attempt Q {A} (m : M A) : emits Q m -> emits Q (attempt m).
Proof.
  intros Hm env h. unfold attempt. destruct (Hm env h) as (l & Hl & HQ).
  destruct (m env h) as [h1 o]. by exists l.
Qed.

Lemma emits_catch_noop Q {A} (m : M A) : emits Q m -> emits Q (catch_noop m).
Proof.
  intros Hm env h. unfold catch_noop. destruct (Hm env h) as (l & Hl & HQ).
  destruct (m env h) as [h1 o]. by exists l.
Qed.

Lemma emits_finally Q {A} (m : M A) (fin : M unit) :
  emits Q m -> emits Q fin -> emits Q (finally_ m fin).
Proof.
  intros Hm Hf env h. unfold finally_. destruct (Hm env h) as (l & Hl & HQ).
  destruct (m env h) as [h1 o]; simpl in *; subst.
  destruct (Hf env (l ++ h)) as (l' & Hl' & HQ').
  destruct (fin env (l ++ h)) as [h2 [[]|e]]; simpl in *; subst;
    exists (l' ++ l); rewrite app_assoc; (split; [done|]); by apply Forall_app.
Qed.

Lemma emits_weaken (Q Q' : Call -> Prop) {A} (m : M A) :
  (forall c, Q c -> Q' c) -> emits Q m -> emits Q' m.
Proof.
  intros HQ Hm env h. destruct (Hm env h) as (l & Hl & Hall).
  exists l. split; [done|]. eapply Forall_impl; eauto.
Qed.

(** A call made at some point of a run is in the history of the whole run. *)
Lemma emits_elem_of Q {A} (m : M A) env h c :
  emits Q m -> c ∈ h -> c ∈ fst (m env h).
Proof.
  intros Hm Hc. destruct (Hm env h) as (l & -> & _). apply elem_of_app. by right.
Qed.

End AsyncFacts.

Ltac emits_step :=
  match goal with
  | |- emits _ (bind _ _) => apply emits_bind; [| intros ?]
  | |- emits _ (finally_ _ _) => apply emits_finally
  | |- emits _ (attempt _) => apply emits_attempt
  | |- emits _ (catch_noop _) => apply emits_catch_noop
  | |- emits _ (await _) => apply emits_await; simpl; done
  | |- emits _ (emit _) => apply emits_emit; simpl; done
  | |- emits _ (read _) => exact (emits_read _ _)
  | |- emits _ (ret _) => exact (emits_ret _ _)
  | |- emits _ (throw _) => exact (emits_throw _ _)
  | |- emits _ (lift _) => exact (emits_lift _ _)
  | |- emits _ (match ?x with _ => _ end) => destruct x
  | |- emits _ (if ?b then _ else _) => destruct b
  end.

Ltac solve_emits := repeat emits_step.

(** ** Strings *)
Section JsFacts.

Lemma startsWith_iff (p s : jsstring) :
  startsWith p s = true <-> exists r, s = p ++ r.
Proof.
  revert s. induction p as [|a p IH]; intros s.
  - split; [by exists s|done].
  - destruct s as [|b s]; simpl.
    + split; [done|]. by intros [r Hr].
    + rewrite andb_true_iff, N.eqb_eq, IH. split.
      * intros [-> [r ->]]. by exists r.
      * intros [r [= -> ->]]. split; [done|]. by exists r.
Qed.

(** [includes p s] holds exactly when [p] occurs in [s]. *)
Lemma includes_iff (p s : jsstring) :
  includes p s = true <-> exists pre post, s = pre ++ p ++ post.
Proof.
  induction s as [|c s IH].
  - simpl. rewrite orb_false_r, startsWith_iff. split.
    + intros [r Hr]. by exists [], r.
    + intros (pre & post & Hs). symmetry in Hs.
      apply app_eq_nil in Hs as [-> Hs]. apply app_eq_nil in Hs as [-> ->].
      by exists [].
  - simpl. rewrite orb_true_iff, startsWith_iff, IH. split.
    + intros [[r Hr]|(pre & post & ->)].
      * by exists [], r.
      * by exists (c :: pre), post.
    + intros (pre & post & Hs). destruct pre as [|c' pre].
      * left. by exists post.
      * right. injection Hs as -> ->. by exists pre, post.
Qed.

(** What [trimStart] drops is white space and what it keeps does not start
    with white space. *)
Lemma trimStart_split (s : jsstring) :
  exists w, s = w ++ trimStart s /\ Forall (fun c => isWhiteSpace c = true) w.
Proof.
  induction s as [|c s (w & Hs & Hw)]; [by exists []|]. simpl.
  destruct (isWhiteSpace c) eqn:Hc.
  - exists (c :: w). split; [by rewrite Hs at 1|by constructor].
  - by exists [].
Qed.

Lemma trimStart_head (s : jsstring) c rest :
  trimStart s = c :: rest -> isWhiteSpace c = false.
Proof.
  induction s as [|a s IH]; [done|]. simpl.
  destruct (isWhiteSpace a) eqn:Ha; [done|]. by intros [= <- _].
Qed.

Lemma trimEnd_split (s : jsstring) :
  exists w, s = trimEnd s ++ w /\ Forall (fun c => isWhiteSpace c = true) w.
Proof.
  destruct (trimStart_split (rev s)) as (w & Hs & Hw).
  exists (rev w). split.
  - unfold trimEnd. rewrite <- rev_app_distr, <- Hs. by rewrite rev_involutive.
  - by apply Forall_rev.
Qed.

Lemma trimEnd_last (s : jsstring) init c :
  trimEnd s = init ++ [c] -> isWhiteSpace c = false.
Proof.
  unfold trimEnd. intros Hs.
  apply (f_equal (@rev N)) in Hs. rewrite rev_involutive, rev_app_distr in Hs.
  simpl in Hs. by eapply trimStart_head.
Qed.

(** The two ends of a trimmed string are not white space. *)
Lemma trim_ends (s : jsstring) :
  (forall c rest, trim s = c :: rest -> isWhiteSpace c = false)
  /\ (forall init c, trim s = init ++ [c] -> isWhiteSpace c = false).
Proof.
  unfold trim. split.
  - intros c rest Ht.
    destruct (trimEnd_split (trimStart s)) as (w & Hs & _).
    rewrite Ht in Hs. by eapply trimStart_head.
  - intros init c. apply trimEnd_last.
Qed.

End JsFacts.

(** ** [ExportBase] *)
Module ExportBaseFacts.
Import ExportBase.

Section General.
Context `{P : Platform}.

(** *** The chunked copy of [b64toBlob] *)

Lemma toUint8Array_app a b :
  toUint8Array (a ++ b) = toUint8Array a ++ toUint8Array b.
Proof. apply map_app. Qed.

(** The byte arrays pushed from [offset] on, put end to end, are the bytes of
    the characters from [offset] on. *)
Lemma slices_concat byteCharacters offset :
  blobBytes (slices byteCharacters offset) = toUint8Array (drop offset byteCharacters).
Proof.
  funelim (slices byteCharacters offset).
  - unfold blobBytes in *. simpl concat. rewrite H, <- toUint8Array_app.
    f_equal. rewrite <- drop_drop. apply take_drop.
  - unfold blobBytes. simpl. rewrite drop_ge by lia. reflexivity.
Qed.


(** C9. The bytes produced by [b64toBlob] are those of decoding the stripped
    string in one pass: whatever [atob] does, copying the decoded characters
    in slices of 512 and putting the slices end to end gives the same bytes
    as converting them all at once, and the two fail together.  So the PDF
    branch writes to the destination what the single pass would have
    written. *)
Theorem b64toBlob_chunking_unobservable (b64Data : jsstring) :
  b64toBlob b64Data = decodeSinglePass b64Data
  /\ (forall byteCharacters,
        blobBytes (slices byteCharacters 0) = toUint8Array byteCharacters)
  /\ (forall target contentsManager tempTarget env h,
        fetchAndWrite target pdf contentsManager tempTarget env h
        = (let! file := await (Get contentsManager tempTarget base64) in
           let! bytes := lift (decodeSinglePass (content file)) in
           await (WriteFile target (BufferData bytes))) env h).
Proof.
  assert (forall d, b64toBlob d = decodeSinglePass d) as Hsame.
  { intros d. unfold b64toBlob, decodeSinglePass.
    destruct (atob _) as [byteCharacters|e]; [|reflexivity].
    by rewrite slices_concat. }
  split; [apply Hsame|]. split.
  - intros. by rewrite slices_concat.
  - intros. unfold fetchAndWrite. rewrite decide_True by done.
    unfold bind. destruct (await _ env h) as [h1 [file|e]]; [|reflexivity].
    by rewrite Hsame.
Qed.

(** C10. [export] resolves to [undefined] whatever it is given: it is the
    computation that returns at once, so it makes no call, reads nothing and
    leaves the history as it was. *)
Theorem export_does_nothing (sourceDocument : NotebookDocument) (target : Uri)
    (interpreter : PythonEnvironment) (token : CancellationToken) :
  export sourceDocument target interpreter token = ret tt
  /\ forall env h, export sourceDocument target interpreter token env h = (h, Return tt).
Proof. split; reflexivity. Qed.

(** *** The check of the conversion output *)

Lemma includes_truthy text :
  includes tracebackSignature text = true -> truthy text = true.
Proof. destruct text; [discriminate|reflexivity]. Qed.

(** C4. In the [try] block, once the conversion command has returned
    [outputs]: when the text parsed from the first output contains the
    traceback signature, [Error(text)] is thrown; when no text was captured
    (none, or the empty string), [Error("Failed to export to " + format)] is
    thrown; in both cases nothing is fetched or written.  Text that is not
    empty and has no signature is logged, no error is thrown by the check
    and the block goes on to fetch and write the file. *)
Theorem conversion_failure_classified (kernelConnection : KernelConnection)
    (target : Uri) (format : ExportFormat) (backingFile : BackingFile)
    (contentsManager : ContentsManager) (pwd : option MultilineString)
    (tempTarget : jsstring) (env : Env) (h : History) (outputs : list IOutput) :
  let command :=
    ExecuteSilently kernelConnection
      (nbconvertCommand (sourcePath pwd backingFile) format tempTarget) in
  let run :=
    tryConvert kernelConnection target format backingFile contentsManager pwd
      tempTarget env h in
  answer env h command = Return outputs ->
  (forall text, parseStreamOutput outputs = Return (Some text) ->
     includes tracebackSignature text = true ->
     run = (command :: h, Throw (Error text)))
  /\ (forall text, parseStreamOutput outputs = Return text ->
        truthy_opt text = false ->
        run = (command :: h,
               Throw (Error (lit "Failed to export to " ++ formatValue format))))
  /\ (forall text, parseStreamOutput outputs = Return (Some text) ->
        truthy text = true -> includes tracebackSignature text = false ->
        run = fetchAndWrite target format contentsManager tempTarget env
                (TraceLog text :: command :: h)).
Proof.
  intros command run Hans. subst run command.
  unfold tryConvert, checkConversionOutput, bind, await, lift.
  rewrite Hans. repeat split; intros text Hparse.
  - intros Hsig. rewrite Hparse. simpl.
    rewrite (includes_truthy _ Hsig), Hsig. reflexivity.
  - intros Hempty. rewrite Hparse.
    destruct text as [[|c t]|]; try discriminate; reflexivity.
  - intros Htruthy Hsig. rewrite Hparse. simpl.
    rewrite Htruthy, Hsig. unfold emit. reflexivity.
Qed.

Lemma parseStreamOutput_first (o : IOutput) (rest : list IOutput) (t : jsstring) :
  name o = Some (lit "stdout") \/ output_type o = lit "stream" ->
  concatMultilineString (text o) = Return t ->
  parseStreamOutput (o :: rest) = Return (Some (trim t)).
Proof.
  intros Hstream Hconcat. unfold parseStreamOutput.
  destruct Hstream as [Hn|Ht].
  - rewrite bool_decide_false by (intros Hne; by apply Hne). simpl.
    by rewrite Hconcat.
  - rewrite (bool_decide_false (output_type o ≠ _)) by (intros Hne; by apply Hne).
    rewrite andb_false_r. by rewrite Hconcat.
Qed.

Lemma parseStreamOutput_none (outputs : list IOutput) :
  outputs = [] \/
  (exists o rest, outputs = o :: rest /\ name o <> Some (lit "stdout")
                  /\ output_type o <> lit "stream") ->
  parseStreamOutput outputs = Return None.
Proof.
  intros [->|(o & rest & -> & Hn & Ht)]; [reflexivity|].
  unfold parseStreamOutput. by rewrite !bool_decide_true.
Qed.

(** *** The working directory and the path given to the conversion *)

Lemma emits_checkConversionOutput format outputs :
  emits bodyCall (checkConversionOutput format outputs).
Proof. unfold checkConversionOutput. solve_emits. Qed.

Lemma emits_fetchAndWrite target format cm tempTarget :
  emits bodyCall (fetchAndWrite target format cm tempTarget).
Proof. unfold fetchAndWrite. solve_emits. Qed.

Lemma emits_getCWD kernel : emits bodyCall (getCWD kernel).
Proof. unfold getCWD. solve_emits. Qed.

Lemma emits_tryAllocate kernel format cm :
  emits bodyCall (tryAllocate kernel format cm).
Proof. unfold tryAllocate. solve_emits. apply emits_getCWD. Qed.

Lemma emits_tryConvert kc target format bf cm pwd tempTarget :
  emits bodyCall (tryConvert kc target format bf cm pwd tempTarget).
Proof.
  unfold tryConvert. solve_emits;
    auto using emits_checkConversionOutput, emits_fetchAndWrite.
Qed.

Lemma emits_finallyBlock tempTarget bf cm :
  emits cleanupCall (finallyBlock tempTarget bf cm).
Proof. unfold finallyBlock. solve_emits. Qed.

(** The conversion command is the first call of the second part of the
    [try] block, so it is in the history whatever happens next. *)
Lemma tryConvert_issues_command kc target format bf cm pwd tempTarget env h :
  ExecuteSilently kc (nbconvertCommand (sourcePath pwd bf) format tempTarget)
  ∈ fst (tryConvert kc target format bf cm pwd tempTarget env h).
Proof.
  unfold tryConvert, bind at 1. unfold await at 1.
  destruct (answer env h _) as [outputs|e]; [|simpl; by left].
  apply (@emits_elem_of ExportSig bodyCall); [|by left].
  solve_emits; auto using emits_checkConversionOutput, emits_fetchAndWrite.
Qed.

Lemma getCWD_undefined (kernel : IKernel) (sessionKernel : KernelConnection)
    (env : Env) (h : History) (outputs : list IOutput) :
  session_kernel (observe env h (KernelSession kernel)) = Some sessionKernel ->
  answer env h (ExecuteSilently sessionKernel (lit "import os;os.getcwd();"))
    = Return outputs ->
  outputs = [] \/
  (exists o rest, outputs = o :: rest /\ output_type o <> lit "execute_result") ->
  getCWD kernel env h
  = (ExecuteSilently sessionKernel (lit "import os;os.getcwd();") :: h, Return None).
Proof.
  intros Hs Hans Hout. unfold getCWD, bind, read. simpl. simpl in Hs. rewrite Hs.
  unfold await. simpl in *. rewrite Hans.
  destruct Hout as [->|(o & rest & -> & Ht)]; [reflexivity|].
  by rewrite bool_decide_true.
Qed.

(** C5, amended. When the probe yields no output, or a first output that is
    not an execution result, [getCWD] resolves to [undefined]; the template
    literal then renders it as the text ["undefined"], so the path given to
    [nbconvert] is ["undefined/"] followed by the backing file's path, and
    the command carrying that path is the one sent to the kernel. *)
Theorem undefined_cwd_source_path (kernel : IKernel)
    (sessionKernel kernelConnection : KernelConnection) (target : Uri)
    (format : ExportFormat) (backingFile : BackingFile)
    (contentsManager : ContentsManager) (env : Env) (h : History)
    (outputs : list IOutput) (tempFile : IModel) :
  let probe := ExecuteSilently sessionKernel (lit "import os;os.getcwd();") in
  session_kernel (observe env h (KernelSession kernel)) = Some sessionKernel ->
  answer env h probe = Return outputs ->
  outputs = [] \/
  (exists o rest, outputs = o :: rest /\ output_type o <> lit "execute_result") ->
  answer env (probe :: h) (NewUntitled contentsManager (fileExtension format))
    = Return tempFile ->
  getCWD kernel env h = (probe :: h, Return None)
  /\ sourcePath None backingFile = lit "undefined/" ++ filePath backingFile
  /\ ExecuteSilently kernelConnection
       (nbconvertCommand (lit "undefined/" ++ filePath backingFile) format
          (path tempFile))
     ∈ fst (tryFinally kernel kernelConnection target format backingFile
              contentsManager env h).
Proof.
  intros probe Hs Hans Hout Hnew.
  pose proof (getCWD_undefined _ _ _ _ _ Hs Hans Hout) as Hcwd.
  split; [exact Hcwd|]. split; [reflexivity|].
  unfold tryFinally, bind at 1. unfold attempt, tryAllocate, bind at 1.
  rewrite Hcwd. unfold bind, await. subst probe. simpl in Hnew |- *. rewrite Hnew.
  unfold ret. simpl.
  match goal with |- _ ∈ fst (finally_ ?m ?fin ?env ?h2) =>
    pose proof (tryConvert_issues_command kernelConnection target format
                  backingFile contentsManager None (path tempFile) env h2) as Hin;
    unfold finally_;
    destruct m as [h3 o] eqn:Hm
  end.
  simpl in Hin.
  pose proof (emits_finallyBlock (Some (path tempFile)) backingFile contentsManager
                env h3) as (l & Hl & _).
  destruct (finallyBlock _ _ _ env h3) as [h4 [[]|e]]; simpl in *; subst h4;
    apply elem_of_app; by right.
Qed.

(** *** Early exits *)

(** C3, amended. When the document has no kernel, or its kernel has no
    session and still has none (or one without a kernel handle) once
    [kernel.start] has resolved, [executeCommand] resolves without throwing
    and the only external call it may have made is [kernel.start]: no remote
    file is created, no code is run in the kernel, nothing is written. *)
Theorem no_session_no_io (sourceDocument : NotebookDocument) (target : Uri)
    (format : ExportFormat) (interpreter : PythonEnvironment)
    (token : CancellationToken) (env : Env) (h : History) :
  observe env h (KernelProviderGet sourceDocument) = None \/
  (exists kernel,
     observe env h (KernelProviderGet sourceDocument) = Some kernel
     /\ observe env h (KernelSession kernel) = None
     /\ answer env h (KernelStart kernel) = Return tt
     /\ session_kernel (observe env (KernelStart kernel :: h) (KernelSession kernel))
        = None) ->
  exists started,
    executeCommand sourceDocument target format interpreter token env h
    = (started ++ h, Return tt)
    /\ Forall (fun c => exists kernel, c = KernelStart kernel) started.
Proof.
  intros [Hnone|(kernel & Hk & Hs & Hstart & Hafter)];
    unfold executeCommand, bind at 1; unfold read at 1; simpl in *.
  - rewrite Hnone. exists []. split; [reflexivity|constructor].
  - rewrite Hk. unfold bind at 1. unfold read at 1. simpl. rewrite Hs.
    unfold bind at 1. unfold await at 1. simpl. rewrite Hstart.
    unfold bind at 1. unfold read at 1. simpl. rewrite Hafter.
    exists [KernelStart kernel]. split; [reflexivity|].
    constructor; [by exists kernel|constructor].
Qed.

(** *** Cleanup *)

(** The [finally] block when the deletion of the temporary file (if any) and
    [dispose] succeed: the three or four calls are made in order, and a
    failure of the deletion of the backing file is not seen. *)
Lemma finallyBlock_completes (tempTarget : option jsstring)
    (backingFile : BackingFile) (contentsManager : ContentsManager)
    (env : Env) (h : History) :
  let h1 := match tempTarget with
            | Some t => if truthy t then Delete contentsManager t :: h else h
            | None => h
            end in
  (forall t, tempTarget = Some t -> truthy t = true ->
             answer env h (Delete contentsManager t) = Return tt) ->
  answer env h1 (BackingFileDispose backingFile) = Return tt ->
  finallyBlock tempTarget backingFile contentsManager env h
  = (DisposeContentsManager contentsManager
     :: Delete contentsManager (filePath backingFile)
     :: BackingFileDispose backingFile :: h1, Return tt).
Proof.
  intros h1 Htemp Hdispose. subst h1. unfold finallyBlock.
  destruct tempTarget as [t|]; [destruct (truthy t) eqn:Ht|].
  - unfold bind at 1. unfold await at 1. simpl in *. rewrite (Htemp t eq_refl Ht).
    unfold bind at 1. unfold await at 1. simpl. rewrite Hdispose.
    unfold bind, catch_noop, await, emit. simpl.
    reflexivity.
  - unfold bind at 1. unfold ret at 1.
    unfold bind at 1. unfold await at 1. simpl in *. rewrite Hdispose.
    unfold bind, catch_noop, await, emit. simpl.
    reflexivity.
  - unfold bind at 1. unfold ret at 1.
    unfold bind at 1. unfold await at 1. simpl in *. rewrite Hdispose.
    unfold bind, catch_noop, await, emit. simpl.
    reflexivity.
Qed.

Lemma tryFinally_allocated (kernel : IKernel) (kernelConnection : KernelConnection)
    (target : Uri) (format : ExportFormat) (backingFile : BackingFile)
    (contentsManager : ContentsManager) (env : Env) (h h2 : History)
    (pwd : option MultilineString) (tempFile : IModel) :
  tryAllocate kernel format contentsManager env h = (h2, Return (pwd, tempFile)) ->
  tryFinally kernel kernelConnection target format backingFile contentsManager env h
  = finally_
      (tryConvert kernelConnection target format backingFile contentsManager pwd
         (path tempFile))
      (finallyBlock (Some (path tempFile)) backingFile contentsManager) env h2.
Proof.
  intros Halloc. unfold tryFinally, bind at 1. unfold attempt. by rewrite Halloc.
Qed.

(** X16. What holds of the cleanup: once the temporary file is allocated,
    if its deletion and [dispose] succeed, then whatever the rest of the
    [try] block did (conversion, remote read or local write, thrown or not),
    the temporary file is deleted, the backing file is disposed of and
    deleted, each once and after the block, and the outcome of the block is
    the outcome of the statement. *)
Lemma tryFinally_cleans_up (kernel : IKernel) (kernelConnection : KernelConnection)
    (target : Uri) (format : ExportFormat) (backingFile : BackingFile)
    (contentsManager : ContentsManager) (env : Env) (h h2 : History)
    (pwd : option MultilineString) (tempFile : IModel) :
  let body := tryConvert kernelConnection target format backingFile
                contentsManager pwd (path tempFile) env h2 in
  tryAllocate kernel format contentsManager env h = (h2, Return (pwd, tempFile)) ->
  truthy (path tempFile) = true ->
  answer env (fst body) (Delete contentsManager (path tempFile)) = Return tt ->
  answer env (Delete contentsManager (path tempFile) :: fst body)
    (BackingFileDispose backingFile) = Return tt ->
  tryFinally kernel kernelConnection target format backingFile contentsManager env h
  = (DisposeContentsManager contentsManager
     :: Delete contentsManager (filePath backingFile)
     :: BackingFileDispose backingFile
     :: Delete contentsManager (path tempFile) :: fst body, snd body)
  /\ exists l, fst body = l ++ h /\ Forall bodyCall l.
Proof.
  intros body Halloc Ht Hdel Hdisp. split.
  - rewrite (tryFinally_allocated _ _ _ _ _ _ _ _ _ _ _ Halloc).
    unfold finally_. fold body. destruct body as [hb ob]. simpl in *.
    rewrite finallyBlock_completes; simpl; rewrite ?Ht; auto.
    intros t [= <-] _. exact Hdel.
  - destruct (emits_tryAllocate kernel format contentsManager env h) as (l1 & Hl1 & HQ1).
    rewrite Halloc in Hl1. simpl in Hl1. subst h2.
    destruct (emits_tryConvert kernelConnection target format backingFile
                contentsManager pwd (path tempFile) env (l1 ++ h)) as (l2 & Hl2 & HQ2).
    exists (l2 ++ l1). subst body. split.
    + rewrite <- app_assoc. exact Hl2.
    + by apply Forall_app.
Qed.

(** The defect: when the deletion of the temporary file is rejected with [e],
    the statement ends there with [e], whatever the [try] block had done;
    [dispose] and the deletion of the backing file are not reached. *)
Lemma tryFinally_temp_delete_rejected (kernel : IKernel)
    (kernelConnection : KernelConnection) (target : Uri) (format : ExportFormat)
    (backingFile : BackingFile) (contentsManager : ContentsManager) (env : Env)
    (h h2 : History) (pwd : option MultilineString) (tempFile : IModel) (e : JsError) :
  let body := tryConvert kernelConnection target format backingFile
                contentsManager pwd (path tempFile) env h2 in
  tryAllocate kernel format contentsManager env h = (h2, Return (pwd, tempFile)) ->
  truthy (path tempFile) = true ->
  answer env (fst body) (Delete contentsManager (path tempFile)) = Throw e ->
  tryFinally kernel kernelConnection target format backingFile contentsManager env h
  = (Delete contentsManager (path tempFile) :: fst body, Throw e).
Proof.
  intros body Halloc Ht Hdel.
  rewrite (tryFinally_allocated _ _ _ _ _ _ _ _ _ _ _ Halloc).
  unfold finally_. fold body. destruct body as [hb ob]. simpl in *.
  unfold finallyBlock. rewrite Ht. unfold bind at 1. unfold await at 1.
  simpl. by rewrite Hdel.
Qed.

(** [invokeWithFileSynced] up to the handler. *)
Lemma invokeWithFileSynced_staged (uri : Uri) (contents : jsstring)
    (metadata : KernelConnectionMetadata) (connInfo : IJupyterConnection)
    (contentsManager : ContentsManager) (handler : IBackupFile -> M unit)
    (env : Env) (h : History) (backingFile : BackingFile) (notebook : Json) :
  let create := CreateBackingFile (Some uri) (Uri_file (lit "")) metadata connInfo
                  contentsManager in
  let h2 := Save contentsManager (filePath backingFile) notebook :: create :: h in
  answer env h create = Return (Some backingFile) ->
  JSON_parse contents = Return notebook ->
  invokeWithFileSynced (Some uri) contents metadata connInfo contentsManager handler
    env h
  = (do! handler {| backupFilePath := filePath backingFile;
                    backupDispose := await (BackingFileDispose backingFile) |} in
     do! await (BackingFileDispose backingFile) in
     catch_noop (await (Delete contentsManager (filePath backingFile)))) env h2.
Proof.
  intros create h2 Hcreate Hparse. unfold invokeWithFileSynced.
  unfold bind at 1. unfold await at 1. fold create. simpl in *. rewrite Hcreate.
  unfold bind at 1. unfold lift at 1. rewrite Hparse.
  unfold bind at 1. unfold catch_noop at 1. unfold await at 1. reflexivity.
Qed.

(** The defect: a handler that rejects ends [invokeWithFileSynced] where the
    handler stopped; no [dispose], no deletion follows. *)
Lemma invokeWithFileSynced_handler_rejects (uri : Uri) (contents : jsstring)
    (metadata : KernelConnectionMetadata) (connInfo : IJupyterConnection)
    (contentsManager : ContentsManager) (handler : IBackupFile -> M unit)
    (env : Env) (h h3 : History) (backingFile : BackingFile) (notebook : Json)
    (e : JsError) :
  let create := CreateBackingFile (Some uri) (Uri_file (lit "")) metadata connInfo
                  contentsManager in
  let h2 := Save contentsManager (filePath backingFile) notebook :: create :: h in
  answer env h create = Return (Some backingFile) ->
  JSON_parse contents = Return notebook ->
  handler {| backupFilePath := filePath backingFile;
             backupDispose := await (BackingFileDispose backingFile) |} env h2
  = (h3, Throw e) ->
  invokeWithFileSynced (Some uri) contents metadata connInfo contentsManager handler
    env h
  = (h3, Throw e).
Proof.
  intros create h2 Hcreate Hparse Hhandler.
  rewrite (invokeWithFileSynced_staged _ _ _ _ _ _ _ _ _ _ Hcreate Hparse).
  unfold bind at 1. fold create. fold h2. by rewrite Hhandler.
Qed.

(** X17. When a backing file is created and the handler resolves,
    [invokeWithFileSynced] then disposes of the backing file and deletes it,
    in that order; it resolves whatever the save and the deletion answer,
    provided [dispose] does not reject. *)
Lemma invokeWithFileSynced_handler_resolves (uri : Uri) (contents : jsstring)
    (metadata : KernelConnectionMetadata) (connInfo : IJupyterConnection)
    (contentsManager : ContentsManager) (handler : IBackupFile -> M unit)
    (env : Env) (h h3 : History) (backingFile : BackingFile) (notebook : Json) :
  let create := CreateBackingFile (Some uri) (Uri_file (lit "")) metadata connInfo
                  contentsManager in
  let h2 := Save contentsManager (filePath backingFile) notebook :: create :: h in
  answer env h create = Return (Some backingFile) ->
  JSON_parse contents = Return notebook ->
  handler {| backupFilePath := filePath backingFile;
             backupDispose := await (BackingFileDispose backingFile) |} env h2
  = (h3, Return tt) ->
  answer env h3 (BackingFileDispose backingFile) = Return tt ->
  invokeWithFileSynced (Some uri) contents metadata connInfo contentsManager handler
    env h
  = (Delete contentsManager (filePath backingFile)
     :: BackingFileDispose backingFile :: h3, Return tt).
Proof.
  intros create h2 Hcreate Hparse Hhandler Hdisp.
  rewrite (invokeWithFileSynced_staged _ _ _ _ _ _ _ _ _ _ Hcreate Hparse).
  unfold bind at 1. fold create. fold h2. rewrite Hhandler.
  unfold bind at 1. unfold await at 1. simpl in *. rewrite Hdisp.
  reflexivity.
Qed.

End General.

(** *** Runs on the concrete platform *)
Section Runs.
Import Sample.
#[local] Existing Instance samplePlatform.

Example happy_run_cleans_up :
  snd (runExport happy html) = Return tt
  /\ drop 11 (trace (runExport happy html))
     = [Delete sampleContentsManager (lit "untitled.html");
        BackingFileDispose sampleBackingFile;
        Delete sampleContentsManager (lit "rem/nb-1.ipynb");
        DisposeContentsManager sampleContentsManager].
Proof. split; vm_compute; reflexivity. Qed.

Example failed_write_still_cleans_up :
  snd (runExport writeRejected html) = Throw diskError
  /\ drop 11 (trace (runExport writeRejected html))
     = [Delete sampleContentsManager (lit "untitled.html");
        BackingFileDispose sampleBackingFile;
        Delete sampleContentsManager (lit "rem/nb-1.ipynb");
        DisposeContentsManager sampleContentsManager].
Proof. split; vm_compute; reflexivity. Qed.

Example traceback_run :
  snd (runExport failing html) = Throw (Error tracebackText).
Proof. vm_compute. reflexivity. Qed.

Example stripPrefix_data_url :
  stripPrefix (lit "data:application/pdf;base64,JVBE,Ri0=") = lit "JVBE,Ri0="
  /\ stripPrefix (lit ",JVBE") = lit ",JVBE"
  /\ stripPrefix (lit "JVBERi0=") = lit "JVBERi0=".
Proof. repeat split; vm_compute; reflexivity. Qed.

Example stripWhiteSpace_lines :
  stripWhiteSpace (lit "JVBE" ++ [10; 13; 9; 32; 160; 8232]%N ++ lit "Ri0=") = lit "JVBERi0=".
Proof. vm_compute. reflexivity. Qed.

Example b64toBlob_pdf_header :
  b64toBlob (lit "data:application/pdf;base64,JVBE Ri0=") = Return [37; 80; 68; 70; 45]%N.
Proof. vm_compute. reflexivity. Qed.

Example slices_lengths :
  map length (slices (repeat 65%N 1300) 0) = [512; 512; 276].
Proof. vm_compute. reflexivity. Qed.

(** C1, failing input. The conversion, the remote read and the local write
    succeed; the server then rejects the deletion of the temporary file.
    [executeCommand] rejects with the error of that deletion, which is the
    last call it makes, right after the local write: no call of the run
    disposes of the backing file or deletes it. *)
Theorem temp_delete_failure_aborts_cleanup :
  let run := runExport tempDeleteRejected html in
  snd run = Throw serverError
  /\ trace run
     = [CreateConnectionInfo sampleHandle;
        GetServerConnectSettings sampleConnection;
        GetContent (lit "doc.ipynb");
        CreateBackingFile None (lit "") sampleMetadata sampleConnection
          sampleContentsManager;
        Save sampleContentsManager (lit "rem/nb-1.ipynb") (lit "{}");
        ExecuteSilently 7%N (lit "import os;os.getcwd();");
        NewUntitled sampleContentsManager (lit ".html");
        ExecuteSilently 7%N
          (lit "!jupyter nbconvert /home/user/rem/nb-1.ipynb --to html --output untitled.html");
        TraceLog (lit "[NbConvertApp] Writing 5 bytes");
        Get sampleContentsManager (lit "untitled.html") textFormat;
        WriteFile (lit "/out/doc") (TextData (lit "<p/>"));
        Delete sampleContentsManager (lit "untitled.html")]
  /\ existsb (isBackingCleanup sampleBackingFile) (fst run) = false.
Proof. repeat split; vm_compute; reflexivity. Qed.

(** C2, failing input. A backing file is created for a resource and the
    handler rejects: [invokeWithFileSynced] rejects with the handler's error
    and has made two calls only, the creation and the save; the backing file
    is neither disposed of nor deleted. *)
Theorem handler_rejection_skips_cleanup :
  invokeWithFileSynced (Some (lit "doc.ipynb")) (lit "{}") sampleMetadata
    sampleConnection sampleContentsManager (fun _ => throw handlerError)
    (scenarioEnv happy) []
  = ([Save sampleContentsManager (lit "rem/nb-1.ipynb") (lit "{}");
      CreateBackingFile (Some (lit "doc.ipynb")) (lit "") sampleMetadata
        sampleConnection sampleContentsManager],
     Throw handlerError).
Proof. vm_compute. reflexivity. Qed.

Example handler_resolution_cleans_up :
  invokeWithFileSynced (Some (lit "doc.ipynb")) (lit "{}") sampleMetadata
    sampleConnection sampleContentsManager (fun _ => ret tt)
    (scenarioEnv happy) []
  = ([Delete sampleContentsManager (lit "rem/nb-1.ipynb");
      BackingFileDispose sampleBackingFile;
      Save sampleContentsManager (lit "rem/nb-1.ipynb") (lit "{}");
      CreateBackingFile (Some (lit "doc.ipynb")) (lit "") sampleMetadata
        sampleConnection sampleContentsManager],
     Return tt).
Proof. vm_compute. reflexivity. Qed.

(** C3, counterexample. The kernel of the document has no session; it is
    started, gets one, and the export goes on: the first call of the run
    is [kernel.start], then a backing file is created, code is run in the
    kernel and the result is written locally. *)
Lemma no_session_counterexample :
  let env := scenarioEnv coldKernel in
  let run := runExport coldKernel html in
  observe env [] (KernelProviderGet (lit "doc.ipynb")) = Some sampleKernel
  /\ observe env [] (KernelSession sampleKernel) = None
  /\ snd run = Return tt
  /\ trace run !! 0 = Some (KernelStart sampleKernel)
  /\ trace run !! 4
     = Some (CreateBackingFile None (lit "") sampleMetadata sampleConnection
               sampleContentsManager)
  /\ trace run !! 6 = Some (ExecuteSilently 7%N (lit "import os;os.getcwd();"))
  /\ trace run !! 11 = Some (WriteFile (lit "/out/doc") (TextData (lit "<p/>")))
  /\ existsb isFileOrKernelIO (fst run) = true.
Proof.
  intros env run. subst env run.
  repeat split; vm_compute; reflexivity.
Qed.

Lemma no_session_no_io_witness :
  exists started,
    runExport deadKernel html = (started ++ [], Return tt)
    /\ Forall (fun c => exists kernel, c = KernelStart kernel) started.
Proof.
  apply (no_session_no_io (lit "doc.ipynb") (lit "/out/doc") html sampleInterpreter
           sampleToken (scenarioEnv deadKernel) []).
  right. exists sampleKernel. repeat split; reflexivity.
Defined.

(** C5, counterexample. The probe prints nothing, [getCWD] resolves to
    [undefined], and the path given to [nbconvert] is
    ["undefined/rem/nb-1.ipynb"], not ["/rem/nb-1.ipynb"]. *)
Lemma undefined_cwd_counterexample :
  getCWD sampleKernel (scenarioEnv noCwd) []
  = ([ExecuteSilently 7%N (lit "import os;os.getcwd();")], Return None)
  /\ sourcePath None sampleBackingFile = lit "undefined/rem/nb-1.ipynb"
  /\ sourcePath None sampleBackingFile <> lit "/" ++ filePath sampleBackingFile
  /\ trace (runExport noCwd html) !! 7
     = Some (ExecuteSilently 7%N
               (lit "!jupyter nbconvert undefined/rem/nb-1.ipynb --to html --output untitled.html")).
Proof.
  split; [vm_compute; reflexivity|]. split; [vm_compute; reflexivity|].
  split; [vm_compute; discriminate|]. vm_compute. reflexivity.
Qed.

Lemma undefined_cwd_source_path_witness :
  getCWD sampleKernel (scenarioEnv noCwd) []
  = ([ExecuteSilently 7%N (lit "import os;os.getcwd();")], Return None)
  /\ sourcePath None sampleBackingFile = lit "undefined/" ++ filePath sampleBackingFile
  /\ ExecuteSilently 7%N
       (nbconvertCommand (lit "undefined/" ++ filePath sampleBackingFile) html
          (lit "untitled.html"))
     ∈ fst (tryFinally sampleKernel 7%N (lit "/out/doc") html sampleBackingFile
              sampleContentsManager (scenarioEnv noCwd) []).
Proof.
  apply (undefined_cwd_source_path sampleKernel 7%N 7%N (lit "/out/doc") html
           sampleBackingFile sampleContentsManager (scenarioEnv noCwd) [] []
           {| path := lit "untitled.html"; content := [] |}).
  - reflexivity.
  - reflexivity.
  - left. reflexivity.
  - reflexivity.
Defined.

Lemma conversion_failure_classified_witness :
  let target := lit "/out/doc" in
  let temp := lit "untitled.html" in
  let pwd := Some (Single (lit "/home/user")) in
  let command :=
    ExecuteSilently 7%N (nbconvertCommand (sourcePath pwd sampleBackingFile) html temp) in
  tryConvert 7%N target html sampleBackingFile sampleContentsManager pwd temp
    (scenarioEnv failing) []
  = ([command], Throw (Error tracebackText))
  /\ tryConvert 7%N target html sampleBackingFile sampleContentsManager pwd temp
       (scenarioEnv silent) []
     = ([command], Throw (Error (lit "Failed to export to html")))
  /\ tryConvert 7%N target html sampleBackingFile sampleContentsManager pwd temp
       (scenarioEnv happy) []
     = fetchAndWrite target html sampleContentsManager temp (scenarioEnv happy)
         [TraceLog (lit "[NbConvertApp] Writing 5 bytes"); command].
Proof.
  intros target temp pwd command. split; [|split].
  - apply (proj1 (conversion_failure_classified 7%N target html sampleBackingFile
                    sampleContentsManager pwd temp (scenarioEnv failing) []
                    (convertOutputs failing) eq_refl) tracebackText).
    + vm_compute. reflexivity.
    + vm_compute. reflexivity.
  - apply (proj1 (proj2 (conversion_failure_classified 7%N target html
                           sampleBackingFile sampleContentsManager pwd temp
                           (scenarioEnv silent) [] (convertOutputs silent)
                           eq_refl)) None).
    + reflexivity.
    + reflexivity.
  - apply (proj2 (proj2 (conversion_failure_classified 7%N target html
                           sampleBackingFile sampleContentsManager pwd temp
                           (scenarioEnv happy) [] (convertOutputs happy)
                           eq_refl)) (lit "[NbConvertApp] Writing 5 bytes")).
    + vm_compute. reflexivity.
    + reflexivity.
    + vm_compute. reflexivity.
Defined.

End Runs.

(** *** Further behaviour of [executeCommand] *)
Section Coverage.
Context `{P : Platform}.

(** [executeCommand] as far as the request for a backing file, on both
    routes: the kernel had a session, or [kernel.start] gave it one. *)
Lemma executeCommand_staged (sourceDocument : NotebookDocument) (target : Uri)
    (format : ExportFormat) (interpreter : PythonEnvironment)
    (token : CancellationToken) (env : Env) (h : History) (kernel : IKernel)
    (kernelConnection : KernelConnection) (connection : IJupyterConnection)
    (settings : ServerSettings) (contents : jsstring) :
  reachesStaging env h sourceDocument kernel kernelConnection connection settings
    contents ->
  executeCommand sourceDocument target format interpreter token env h
  = (let! backingFile := await (createBackingFileCall kernel connection settings) in
     match backingFile with
     | None => ret tt
     | Some backingFile =>
         let! notebook := lift (JSON_parse contents) in
         do! catch_noop (await (Save {| serverSettings := settings |}
                                  (filePath backingFile) notebook)) in
         tryFinally kernel kernelConnection target format backingFile
           {| serverSettings := settings |}
     end) env (stagingHistory (startedHistory env h kernel) sourceDocument kernel
                 connection).
Proof.
  intros (Hk & Hstart & Hs & Hremote & Hres & H1 & H2 & H3).
  unfold executeCommand, stagingHistory, createBackingFileCall.
  unfold bind at 1. unfold read at 1. simpl in *. rewrite Hk.
  unfold bind at 1. unfold read at 1. simpl.
  unfold startedHistory in *.
  destruct (observe env h (KernelSession kernel)) as [s|] eqn:Hobs.
  - unfold bind at 1. unfold ret at 1.
    unfold bind at 1. unfold read at 1. simpl. rewrite Hobs.
    simpl in Hs. rewrite Hobs in Hs. rewrite Hs.
    rewrite Hremote, Hres. simpl.
    unfold bind at 1. unfold await at 1. simpl. rewrite H1.
    unfold bind at 1. unfold await at 1. simpl. rewrite H2.
    unfold bind at 1. unfold await at 1. simpl. rewrite H3.
    reflexivity.
  - unfold bind at 1. unfold await at 1. simpl. rewrite (Hstart eq_refl).
    unfold bind at 1. unfold read at 1. simpl.
    destruct (observe env (KernelStart kernel :: h) (KernelSession kernel))
      as [s|] eqn:Hobs2; [|discriminate].
    simpl in Hs. cbn [session_kernel]. rewrite Hs.
    rewrite Hremote, Hres. simpl.
    unfold bind at 1. unfold await at 1. simpl. rewrite H1.
    unfold bind at 1. unfold await at 1. simpl. rewrite H2.
    unfold bind at 1. unfold await at 1. simpl. rewrite H3.
    reflexivity.
Qed.


(** X2. When the kernel has no session and [kernel.start] rejects,
    [executeCommand] rejects with the same error and [start] is the only
    call it has made. *)
Theorem executeCommand_start_rejected (sourceDocument : NotebookDocument)
    (target : Uri) (format : ExportFormat) (interpreter : PythonEnvironment)
    (token : CancellationToken) (env : Env) (h : History) (kernel : IKernel)
    (e : JsError) :
  observe env h (KernelProviderGet sourceDocument) = Some kernel ->
  observe env h (KernelSession kernel) = None ->
  answer env h (KernelStart kernel) = Throw e ->
  executeCommand sourceDocument target format interpreter token env h
  = (KernelStart kernel :: h, Throw e).
Proof.
  intros Hk Hs Hstart. unfold executeCommand.
  unfold bind at 1. unfold read at 1. simpl in *. rewrite Hk.
  unfold bind at 1. unfold read at 1. simpl. rewrite Hs.
  unfold bind at 1. unfold await at 1. simpl. by rewrite Hstart.
Qed.

(** X3. When [createBackingFile] resolves to [undefined], [executeCommand]
    resolves after that call, whether the kernel had its session or
    [kernel.start] gave it one: nothing is saved, no code is run in the
    kernel, nothing is written, and the contents manager it has built is not
    disposed of. *)
Theorem executeCommand_no_backing_file (sourceDocument : NotebookDocument)
    (target : Uri) (format : ExportFormat) (interpreter : PythonEnvironment)
    (token : CancellationToken) (env : Env) (h : History) (kernel : IKernel)
    (kernelConnection : KernelConnection) (connection : IJupyterConnection)
    (settings : ServerSettings) (contents : jsstring) :
  let h3 := stagingHistory (startedHistory env h kernel) sourceDocument kernel
              connection in
  let create := createBackingFileCall kernel connection settings in
  reachesStaging env h sourceDocument kernel kernelConnection connection settings
    contents ->
  answer env h3 create = Return None ->
  executeCommand sourceDocument target format interpreter token env h
  = (create :: h3, Return tt).
Proof.
  intros h3 create Hready Hcreate.
  rewrite (executeCommand_staged _ _ _ _ _ _ _ _ _ _ _ _ Hready).
  unfold bind, await. fold h3 create. simpl in *. by rewrite Hcreate.
Qed.

(** X4. When the content of the notebook is not valid JSON, [executeCommand]
    rejects with the error of [JSON.parse] right after the backing file was
    created, whether the kernel had its session or [kernel.start] gave it
    one: the [try] statement is not entered, so the backing file is neither
    disposed of nor deleted. *)
Theorem executeCommand_invalid_json (sourceDocument : NotebookDocument)
    (target : Uri) (format : ExportFormat) (interpreter : PythonEnvironment)
    (token : CancellationToken) (env : Env) (h : History) (kernel : IKernel)
    (kernelConnection : KernelConnection) (connection : IJupyterConnection)
    (settings : ServerSettings) (contents : jsstring)
    (backingFile : BackingFile) (e : JsError) :
  let h3 := stagingHistory (startedHistory env h kernel) sourceDocument kernel
              connection in
  let create := createBackingFileCall kernel connection settings in
  reachesStaging env h sourceDocument kernel kernelConnection connection settings
    contents ->
  answer env h3 create = Return (Some backingFile) ->
  JSON_parse contents = Throw e ->
  executeCommand sourceDocument target format interpreter token env h
  = (create :: h3, Throw e).
Proof.
  intros h3 create Hready Hcreate Hparse.
  rewrite (executeCommand_staged _ _ _ _ _ _ _ _ _ _ _ _ Hready).
  unfold bind at 1. unfold await at 1. fold h3 create. simpl in *. rewrite Hcreate.
  unfold bind, lift. by rewrite Hparse.
Qed.

(** X5. When the session has lost its kernel by the time the working
    directory is asked for, [getCWD] throws [SessionDisposedError] without
    running code; the [finally] block then skips the deletion of the
    temporary file, which was never allocated, disposes of the backing file
    and deletes it, and the error is rethrown. *)
Theorem tryFinally_session_disposed (kernel : IKernel)
    (kernelConnection : KernelConnection) (target : Uri) (format : ExportFormat)
    (backingFile : BackingFile) (contentsManager : ContentsManager)
    (env : Env) (h : History) :
  session_kernel (observe env h (KernelSession kernel)) = None ->
  answer env h (BackingFileDispose backingFile) = Return tt ->
  tryFinally kernel kernelConnection target format backingFile contentsManager env h
  = (DisposeContentsManager contentsManager
     :: Delete contentsManager (filePath backingFile)
     :: BackingFileDispose backingFile :: h, Throw SessionDisposedError).
Proof.
  intros Hs Hdisp. unfold tryFinally.
  unfold bind at 1. unfold attempt, tryAllocate. unfold bind at 1.
  unfold getCWD. unfold bind at 1. unfold read at 1. simpl in *. rewrite Hs.
  unfold throw at 1. unfold bind at 1.
  rewrite finallyBlock_completes; [reflexivity| |exact Hdisp]. intros t [=].
Qed.

(** X6. When the temporary file cannot be allocated, the rejection of
    [newUntitled] comes out of [executeCommand]'s [try] statement after the
    backing file has been disposed of and deleted, and no deletion of a
    temporary file is attempted. *)
Theorem tryFinally_allocation_rejected (kernel : IKernel)
    (kernelConnection : KernelConnection) (target : Uri) (format : ExportFormat)
    (backingFile : BackingFile) (contentsManager : ContentsManager)
    (env : Env) (h h1 : History) (pwd : option MultilineString) (e : JsError) :
  let allocate := NewUntitled contentsManager (fileExtension format) in
  getCWD kernel env h = (h1, Return pwd) ->
  answer env h1 allocate = Throw e ->
  answer env (allocate :: h1) (BackingFileDispose backingFile) = Return tt ->
  tryFinally kernel kernelConnection target format backingFile contentsManager env h
  = (DisposeContentsManager contentsManager
     :: Delete contentsManager (filePath backingFile)
     :: BackingFileDispose backingFile :: allocate :: h1, Throw e).
Proof.
  intros allocate Hcwd Hnew Hdisp. unfold tryFinally.
  unfold bind at 1. unfold attempt, tryAllocate. unfold bind at 1.
  rewrite Hcwd. unfold bind at 1. unfold await at 1. fold allocate.
  simpl in *. rewrite Hnew. unfold bind at 1.
  rewrite finallyBlock_completes; [reflexivity| |exact Hdisp]. intros t [=].
Qed.



(** *** What is written, and when nothing is *)

(** X8. For a format other than PDF, when the conversion printed text that
    is not empty and has no traceback, the text is logged, the temporary
    file is read as text and what was read is written to the target
    unchanged; the [try] block ends with the outcome of that write. *)
Theorem tryConvert_writes_text (kernelConnection : KernelConnection)
    (target : Uri) (format : ExportFormat) (backingFile : BackingFile)
    (contentsManager : ContentsManager) (pwd : option MultilineString)
    (tempTarget : jsstring) (env : Env) (h : History) (outputs : list IOutput)
    (text : jsstring) (file : IModel) :
  let command :=
    ExecuteSilently kernelConnection
      (nbconvertCommand (sourcePath pwd backingFile) format tempTarget) in
  let h2 := Get contentsManager tempTarget textFormat :: TraceLog text :: command :: h in
  let write := WriteFile target (TextData (content file)) in
  format <> pdf ->
  answer env h command = Return outputs ->
  parseStreamOutput outputs = Return (Some text) ->
  truthy text = true -> includes tracebackSignature text = false ->
  answer env (TraceLog text :: command :: h) (Get contentsManager tempTarget textFormat)
    = Return file ->
  tryConvert kernelConnection target format backingFile contentsManager pwd
    tempTarget env h
  = (write :: h2, answer env h2 write).
Proof.
  intros command h2 write Hfmt Hcmd Hparse Ht Hsig Hget.
  unfold tryConvert. unfold bind at 1. unfold await at 1. fold command.
  simpl in *. rewrite Hcmd.
  unfold bind at 1. unfold checkConversionOutput. unfold bind at 1.
  unfold lift at 1. rewrite Hparse. simpl. rewrite Ht, Hsig. unfold emit at 1.
  unfold fetchAndWrite. rewrite decide_False by done.
  unfold bind at 1. unfold await at 1. simpl. rewrite Hget. reflexivity.
Qed.

(** X9. For PDF the temporary file is read as base64.  When [atob] rejects
    what was read (after the prefix and the white space are removed), the
    [try] block throws that error and nothing is written; when it accepts,
    the bytes of the decoded characters are written. *)
Theorem fetchAndWrite_pdf (target : Uri) (contentsManager : ContentsManager)
    (tempTarget : jsstring) (env : Env) (h : History) (file : IModel) :
  let fetch := Get contentsManager tempTarget base64 in
  let stripped := stripWhiteSpace (stripPrefix (content file)) in
  answer env h fetch = Return file ->
  fetchAndWrite target pdf contentsManager tempTarget env h
  = match atob stripped with
    | Throw e => (fetch :: h, Throw e)
    | Return byteCharacters =>
        let write := WriteFile target (BufferData (toUint8Array byteCharacters)) in
        (write :: fetch :: h, answer env (fetch :: h) write)
    end.
Proof.
  intros fetch stripped Hget. unfold fetchAndWrite. rewrite decide_True by done.
  unfold bind at 1. unfold await at 1. fold fetch. simpl in *. rewrite Hget.
  unfold bind, lift, b64toBlob. fold stripped.
  destruct (atob stripped) as [byteCharacters|e]; [|reflexivity].
  by rewrite slices_concat.
Qed.

(** *** The check of the output *)

(** X10. [isExportFailed] lets a message through exactly when it is a string
    that is not empty and in which ["Traceback (most recent call last)"]
    does not occur. *)
Theorem isExportFailed_false_iff (message : option jsstring) :
  isExportFailed message = false
  <-> exists text, message = Some text /\ text <> []
        /\ ~ exists pre post, text = pre ++ tracebackSignature ++ post.
Proof.
  unfold isExportFailed. destruct message as [[|c m]|]; simpl truthy; cbv iota.
  - split; [done|]. by intros (text & [= <-] & Hne & _).
  - split.
    + intros Hf. exists (c :: m). split; [done|]. split; [done|].
      intros Hex. apply includes_iff in Hex. congruence.
    + intros (text & [= <-] & _ & Hn).
      destruct (includes tracebackSignature (c :: m)) eqn:Hi; [|done].
      exfalso. apply Hn. by apply includes_iff.
  - split; [done|]. by intros (text & [=] & _).
Qed.

(** X11. The text parsed from a stream output is trimmed: when it is not
    empty, neither its first nor its last character is white space. *)
Theorem parseStreamOutput_trimmed (outputs : list IOutput) (parsed : jsstring) :
  parseStreamOutput outputs = Return (Some parsed) ->
  (forall c rest, parsed = c :: rest -> isWhiteSpace c = false)
  /\ (forall init c, parsed = init ++ [c] -> isWhiteSpace c = false).
Proof.
  unfold parseStreamOutput. destruct outputs as [|output rest]; [done|].
  destruct (_ && _); [done|].
  destruct (concatMultilineString (text output)) as [t|e]; [|done].
  intros [= <-]. apply trim_ends.
Qed.

(** *** The working directory *)

(** X12. [getCWD] resolves to the [text/plain] entry of the first output when
    that output is an execution result, whatever the other outputs are; an
    execution result without that entry gives [undefined]. *)
Theorem getCWD_execute_result (kernel : IKernel) (sessionKernel : KernelConnection)
    (env : Env) (h : History) (output : IOutput) (rest : list IOutput)
    (bundle : gmap jsstring MultilineString) :
  let probe := ExecuteSilently sessionKernel (lit "import os;os.getcwd();") in
  session_kernel (observe env h (KernelSession kernel)) = Some sessionKernel ->
  answer env h probe = Return (output :: rest) ->
  output_type output = lit "execute_result" ->
  data output = Some bundle ->
  getCWD kernel env h = (probe :: h, Return (bundle !! lit "text/plain")).
Proof.
  intros probe Hs Hans Htype Hdata. unfold getCWD, bind, read. simpl in *.
  rewrite Hs. unfold await. fold probe. simpl in *. rewrite Hans.
  rewrite bool_decide_false by (intros Hne; by apply Hne). by rewrite Hdata.
Qed.


(** *** The byte arrays of [b64toBlob] *)

Lemma slices_lookup (byteCharacters : jsstring) (offset i : nat) :
  slices byteCharacters offset !! i
  = if decide (offset + i * sliceSize < length byteCharacters)
    then Some (toUint8Array (take sliceSize (drop (offset + i * sliceSize) byteCharacters)))
    else None.
Proof.
  revert i. funelim (slices byteCharacters offset); intros i.
  - destruct i as [|i].
    + simpl. rewrite Nat.add_0_r. by rewrite decide_True.
    + simpl lookup. rewrite H.
      replace (offset + S i * sliceSize) with (offset + sliceSize + i * sliceSize)
        by (unfold sliceSize; lia).
      reflexivity.
  - rewrite decide_False by lia. reflexivity.
Qed.

Lemma slices_length (byteCharacters : jsstring) (offset : nat) :
  length (slices byteCharacters offset)
  = (length byteCharacters - offset + (sliceSize - 1)) / sliceSize.
Proof.
  funelim (slices byteCharacters offset).
  - simpl length. rewrite H. unfold sliceSize in *.
    set (n := length byteCharacters) in *.
    destruct (decide (offset + 512 <= n)) as [Hle|Hgt].
    + replace (n - offset + (512 - 1)) with (n - (offset + 512) + (512 - 1) + 1 * 512)
        by lia.
      rewrite Nat.div_add by lia. lia.
    + replace (n - (offset + 512) + (512 - 1)) with 511 by lia.
      rewrite (Nat.div_small 511) by lia.
      replace (n - offset + (512 - 1)) with (n - offset - 1 + 1 * 512) by lia.
      rewrite Nat.div_add by lia. rewrite Nat.div_small by lia. reflexivity.
  - unfold sliceSize. replace (length byteCharacters - offset) with 0 by lia.
    reflexivity.
Qed.

(** X13. The loop of [b64toBlob] makes one byte array for every 512
    characters, the last one shorter when the length is not a multiple of
    512 and none when there is no character: array [i] holds characters
    [512 i] to [512 i + 511], each taken modulo 256, and there are
    [ceil(length / 512)] arrays. *)
Theorem slices_layout (byteCharacters : jsstring) :
  length (slices byteCharacters 0) = (length byteCharacters + 511) / 512
  /\ forall i,
       slices byteCharacters 0 !! i
       = if decide (i * 512 < length byteCharacters)
         then Some (map (fun n => (n mod 256)%N)
                      (take 512 (drop (i * 512) byteCharacters)))
         else None.
Proof.
  split.
  - rewrite slices_length. unfold sliceSize. by rewrite Nat.sub_0_r.
  - intros i. by rewrite slices_lookup.
Qed.

Lemma afterComma_header (header payload : jsstring) :
  Forall (fun c => c <> 44%N) header ->
  afterComma (header ++ 44%N :: payload) = Some payload.
Proof.
  induction 1 as [|c header Hc _ IH]; [reflexivity|]. simpl.
  by rewrite (proj2 (N.eqb_neq c 44) Hc).
Qed.

(** X14. A header in front of the payload, that is characters other than a
    comma, at least one, and then a comma, is dropped by [b64toBlob] and the
    payload alone is decoded, commas of the payload included; a comma in
    first position is no header and stays. *)
Theorem b64toBlob_header (header payload : jsstring) :
  header <> [] ->
  Forall (fun c => c <> 44%N) header ->
  stripPrefix (header ++ 44%N :: payload) = payload
  /\ stripPrefix (44%N :: payload) = 44%N :: payload
  /\ b64toBlob (header ++ 44%N :: payload)
     = match atob (stripWhiteSpace payload) with
       | Return byteCharacters => Return (toUint8Array byteCharacters)
       | Throw e => Throw e
       end.
Proof.
  intros Hne Hall.
  assert (stripPrefix (header ++ 44%N :: payload) = payload) as Hstrip.
  { destruct header as [|c header]; [done|].
    apply Forall_cons in Hall as [Hc Hall]. simpl.
    rewrite (proj2 (N.eqb_neq c 44) Hc). by rewrite afterComma_header. }
  split; [exact Hstrip|]. split; [reflexivity|].
  unfold b64toBlob. rewrite Hstrip.
  destruct (atob _) as [byteCharacters|e]; [|reflexivity].
  by rewrite slices_concat.
Qed.

(** *** [invokeWithFileSynced] without a backing file *)

(** X15. [invokeWithFileSynced] runs the handler only when a backing file
    was created: for a resource, when [createBackingFile] resolves to
    [undefined] it resolves after that one call, whatever the handler is. *)
Theorem invokeWithFileSynced_no_backing_file (uri : Uri) (contents : jsstring)
    (metadata : KernelConnectionMetadata) (connInfo : IJupyterConnection)
    (contentsManager : ContentsManager) (handler : IBackupFile -> M unit)
    (env : Env) (h : History) :
  let create := CreateBackingFile (Some uri) (Uri_file (lit "")) metadata connInfo
                  contentsManager in
  answer env h create = Return None ->
  invokeWithFileSynced (Some uri) contents metadata connInfo contentsManager handler
    env h
  = (create :: h, Return tt).
Proof.
  intros create Hcreate. unfold invokeWithFileSynced, bind, await.
  fold create. simpl in *. by rewrite Hcreate.
Qed.

End Coverage.

(** *** The further properties on concrete runs *)
Section CoverageRuns.
Import Sample.
#[local] Existing Instance samplePlatform.


Lemma executeCommand_start_rejected_witness :
  executeCommand (lit "doc.ipynb") (lit "/out/doc") html sampleInterpreter
    sampleToken (withAnswers rejectStart coldKernel) []
  = ([KernelStart sampleKernel], Throw serverError).
Proof.
  apply (executeCommand_start_rejected (lit "doc.ipynb") (lit "/out/doc") html
           sampleInterpreter sampleToken (withAnswers rejectStart coldKernel) []
           sampleKernel serverError); reflexivity.
Defined.

Lemma sample_reachesStaging special sc contents :
  sc = happy \/ sc = coldKernel ->
  (forall c, match c with
             | KernelStart _ | CreateConnectionInfo _
             | GetServerConnectSettings _ => special c = None
             | _ => True
             end) ->
  answer (withAnswers special sc)
    (GetServerConnectSettings sampleConnection :: CreateConnectionInfo sampleHandle
     :: startedHistory (withAnswers special sc) [] sampleKernel)
    (GetContent (lit "doc.ipynb")) = Return contents ->
  reachesStaging (withAnswers special sc) [] (lit "doc.ipynb") sampleKernel 7%N
    sampleConnection sampleSettings contents.
Proof.
  intros Hsc Hspecial Hcontent. unfold reachesStaging.
  split; [by destruct Hsc as [-> | ->]|].
  split; [intros _; simpl; by rewrite (Hspecial (KernelStart sampleKernel))|].
  split; [by destruct Hsc as [-> | ->]|].
  split; [reflexivity|]. split; [reflexivity|].
  split; [simpl; by rewrite (Hspecial (CreateConnectionInfo sampleHandle))|].
  split; [simpl; by rewrite (Hspecial (GetServerConnectSettings sampleConnection))|].
  exact Hcontent.
Defined.

Lemma executeCommand_no_backing_file_witness :
  executeCommand (lit "doc.ipynb") (lit "/out/doc") html sampleInterpreter
    sampleToken (withAnswers noBackingFile happy) []
  = (createBackingFileCall sampleKernel sampleConnection sampleSettings
     :: stagingHistory [] (lit "doc.ipynb") sampleKernel sampleConnection,
     Return tt)
  /\ executeCommand (lit "doc.ipynb") (lit "/out/doc") html sampleInterpreter
       sampleToken (withAnswers noBackingFile coldKernel) []
     = (createBackingFileCall sampleKernel sampleConnection sampleSettings
        :: stagingHistory [KernelStart sampleKernel] (lit "doc.ipynb") sampleKernel
             sampleConnection,
        Return tt).
Proof.
  split.
  - apply (executeCommand_no_backing_file (lit "doc.ipynb") (lit "/out/doc") html
             sampleInterpreter sampleToken (withAnswers noBackingFile happy) []
             sampleKernel 7%N sampleConnection sampleSettings (lit "{}")).
    + apply sample_reachesStaging; [by left|by intros []|reflexivity].
    + reflexivity.
  - apply (executeCommand_no_backing_file (lit "doc.ipynb") (lit "/out/doc") html
             sampleInterpreter sampleToken (withAnswers noBackingFile coldKernel) []
             sampleKernel 7%N sampleConnection sampleSettings (lit "{}")).
    + apply sample_reachesStaging; [by right|by intros []|reflexivity].
    + reflexivity.
Defined.

Lemma executeCommand_invalid_json_witness :
  executeCommand (lit "doc.ipynb") (lit "/out/doc") html sampleInterpreter
    sampleToken (withAnswers emptyContent happy) []
  = (createBackingFileCall sampleKernel sampleConnection sampleSettings
     :: stagingHistory [] (lit "doc.ipynb") sampleKernel sampleConnection,
     Throw (mkError (lit "SyntaxError") (lit "Unexpected end of JSON input")))
  /\ executeCommand (lit "doc.ipynb") (lit "/out/doc") html sampleInterpreter
       sampleToken (withAnswers emptyContent coldKernel) []
     = (createBackingFileCall sampleKernel sampleConnection sampleSettings
        :: stagingHistory [KernelStart sampleKernel] (lit "doc.ipynb") sampleKernel
             sampleConnection,
        Throw (mkError (lit "SyntaxError") (lit "Unexpected end of JSON input"))).
Proof.
  split.
  - apply (executeCommand_invalid_json (lit "doc.ipynb") (lit "/out/doc") html
             sampleInterpreter sampleToken (withAnswers emptyContent happy) []
             sampleKernel 7%N sampleConnection sampleSettings [] sampleBackingFile).
    + apply sample_reachesStaging; [by left|by intros []|reflexivity].
    + reflexivity.
    + reflexivity.
  - apply (executeCommand_invalid_json (lit "doc.ipynb") (lit "/out/doc") html
             sampleInterpreter sampleToken (withAnswers emptyContent coldKernel) []
             sampleKernel 7%N sampleConnection sampleSettings [] sampleBackingFile).
    + apply sample_reachesStaging; [by right|by intros []|reflexivity].
    + reflexivity.
    + reflexivity.
Defined.

Lemma tryFinally_session_disposed_witness :
  tryFinally sampleKernel 7%N (lit "/out/doc") html sampleBackingFile
    sampleContentsManager (scenarioEnv deadKernel) []
  = ([DisposeContentsManager sampleContentsManager;
      Delete sampleContentsManager (filePath sampleBackingFile);
      BackingFileDispose sampleBackingFile],
     Throw SessionDisposedError).
Proof.
  apply (tryFinally_session_disposed sampleKernel 7%N (lit "/out/doc") html
           sampleBackingFile sampleContentsManager (scenarioEnv deadKernel) []);
    reflexivity.
Defined.

Lemma tryFinally_allocation_rejected_witness :
  let probe := ExecuteSilently 7%N (lit "import os;os.getcwd();") in
  let allocate := NewUntitled sampleContentsManager (fileExtension html) in
  tryFinally sampleKernel 7%N (lit "/out/doc") html sampleBackingFile
    sampleContentsManager (withAnswers rejectAllocation happy) []
  = ([DisposeContentsManager sampleContentsManager;
      Delete sampleContentsManager (filePath sampleBackingFile);
      BackingFileDispose sampleBackingFile; allocate; probe],
     Throw serverError).
Proof.
  intros probe allocate.
  apply (tryFinally_allocation_rejected sampleKernel 7%N (lit "/out/doc") html
           sampleBackingFile sampleContentsManager
           (withAnswers rejectAllocation happy) [] [probe]
           (Some (Single (lit "/home/user"))) serverError).
  - vm_compute. reflexivity.
  - reflexivity.
  - reflexivity.
Defined.


Lemma tryConvert_writes_text_witness :
  let pwd := Some (Single (lit "/home/user")) in
  let text := lit "[NbConvertApp] Writing 5 bytes" in
  let command :=
    ExecuteSilently 7%N
      (nbconvertCommand (sourcePath pwd sampleBackingFile) html (lit "untitled.html")) in
  let h2 := [Get sampleContentsManager (lit "untitled.html") textFormat;
             TraceLog text; command] in
  let write := WriteFile (lit "/out/doc") (TextData (lit "<p/>")) in
  tryConvert 7%N (lit "/out/doc") html sampleBackingFile sampleContentsManager pwd
    (lit "untitled.html") (scenarioEnv happy) []
  = (write :: h2, answer (scenarioEnv happy) h2 write).
Proof.
  intros pwd text command h2 write.
  apply (tryConvert_writes_text 7%N (lit "/out/doc") html sampleBackingFile
           sampleContentsManager pwd (lit "untitled.html") (scenarioEnv happy) []
           (convertOutputs happy) text
           {| path := lit "untitled.html"; content := lit "<p/>" |}).
  - discriminate.
  - reflexivity.
  - vm_compute. reflexivity.
  - reflexivity.
  - vm_compute. reflexivity.
  - reflexivity.
Defined.

Lemma fetchAndWrite_pdf_witness :
  let fetch := Get sampleContentsManager (lit "untitled.pdf") base64 in
  let file := {| path := lit "untitled.pdf"; content := lit "JVBERi0=" |} in
  let stripped := stripWhiteSpace (stripPrefix (content file)) in
  fetchAndWrite (lit "/out/doc.pdf") pdf sampleContentsManager (lit "untitled.pdf")
    (scenarioEnv pdfReady) []
  = match atob stripped with
    | Throw e => ([fetch], Throw e)
    | Return byteCharacters =>
        let write := WriteFile (lit "/out/doc.pdf")
                       (BufferData (toUint8Array byteCharacters)) in
        ([write; fetch], answer (scenarioEnv pdfReady) [fetch] write)
    end.
Proof.
  intros fetch file stripped.
  apply (fetchAndWrite_pdf (lit "/out/doc.pdf") sampleContentsManager
           (lit "untitled.pdf") (scenarioEnv pdfReady) [] file).
  reflexivity.
Defined.

Example pdf_bytes_written :
  fetchAndWrite (lit "/out/doc.pdf") pdf sampleContentsManager (lit "untitled.pdf")
    (scenarioEnv pdfReady) []
  = ([WriteFile (lit "/out/doc.pdf") (BufferData [37; 80; 68; 70; 45]%N);
      Get sampleContentsManager (lit "untitled.pdf") base64],
     Return tt).
Proof. vm_compute. reflexivity. Qed.

Lemma parseStreamOutput_trimmed_witness :
  (forall c rest, lit "ok" = c :: rest -> isWhiteSpace c = false)
  /\ (forall init c, lit "ok" = init ++ [c] -> isWhiteSpace c = false).
Proof.
  apply (parseStreamOutput_trimmed [streamOutput (lit "  ok ")] (lit "ok")).
  vm_compute. reflexivity.
Defined.

Lemma getCWD_execute_result_witness :
  getCWD sampleKernel (scenarioEnv happy) []
  = ([ExecuteSilently 7%N (lit "import os;os.getcwd();")],
     Return (({[ lit "text/plain" := Single (lit "/home/user") ]}
                : gmap jsstring MultilineString) !! lit "text/plain")).
Proof.
  apply (getCWD_execute_result sampleKernel 7%N (scenarioEnv happy) []
           (executeResult (lit "/home/user")) []).
  - reflexivity.
  - reflexivity.
  - reflexivity.
  - reflexivity.
Defined.

Lemma b64toBlob_header_witness :
  let header := lit "data:application/pdf;base64" in
  let payload := lit "JVBERi0=" in
  stripPrefix (header ++ 44%N :: payload) = payload
  /\ stripPrefix (44%N :: payload) = 44%N :: payload
  /\ b64toBlob (header ++ 44%N :: payload)
     = match atob (stripWhiteSpace payload) with
       | Return byteCharacters => Return (toUint8Array byteCharacters)
       | Throw e => Throw e
       end.
Proof.
  intros header payload.
  apply (b64toBlob_header header payload).
  - discriminate.
  - repeat (constructor; [discriminate|]). constructor.
Defined.

Lemma invokeWithFileSynced_no_backing_file_witness :
  invokeWithFileSynced (Some (lit "doc.ipynb")) (lit "{}") sampleMetadata
    sampleConnection sampleContentsManager (fun _ => throw handlerError)
    (withAnswers noBackingFile happy) []
  = ([CreateBackingFile (Some (lit "doc.ipynb")) (Uri_file (lit "")) sampleMetadata
        sampleConnection sampleContentsManager],
     Return tt).
Proof.
  apply (invokeWithFileSynced_no_backing_file (lit "doc.ipynb") (lit "{}")
           sampleMetadata sampleConnection sampleContentsManager
           (fun _ => throw handlerError) (withAnswers noBackingFile happy) []).
  reflexivity.
Defined.

Lemma tryFinally_cleans_up_witness :
  let env := scenarioEnv happy in
  let probe := ExecuteSilently 7%N (lit "import os;os.getcwd();") in
  let h2 := [NewUntitled sampleContentsManager (fileExtension html); probe] in
  let body := tryConvert 7%N (lit "/out/doc") html sampleBackingFile
                sampleContentsManager (Some (Single (lit "/home/user")))
                (path sampleTempFile) env h2 in
  tryFinally sampleKernel 7%N (lit "/out/doc") html sampleBackingFile
    sampleContentsManager env []
  = (DisposeContentsManager sampleContentsManager
     :: Delete sampleContentsManager (filePath sampleBackingFile)
     :: BackingFileDispose sampleBackingFile
     :: Delete sampleContentsManager (path sampleTempFile) :: fst body, snd body)
  /\ exists l, fst body = l ++ [] /\ Forall bodyCall l.
Proof.
  intros env probe h2 body.
  apply (tryFinally_cleans_up sampleKernel 7%N (lit "/out/doc") html
           sampleBackingFile sampleContentsManager env [] h2
           (Some (Single (lit "/home/user"))) sampleTempFile).
  - vm_compute. reflexivity.
  - reflexivity.
  - vm_compute. reflexivity.
  - vm_compute. reflexivity.
Defined.

Lemma invokeWithFileSynced_handler_resolves_witness :
  let create := CreateBackingFile (Some (lit "doc.ipynb")) (Uri_file (lit ""))
                  sampleMetadata sampleConnection sampleContentsManager in
  let h2 := [Save sampleContentsManager (filePath sampleBackingFile) (lit "{}"); create] in
  invokeWithFileSynced (Some (lit "doc.ipynb")) (lit "{}") sampleMetadata
    sampleConnection sampleContentsManager (fun _ => ret tt) (scenarioEnv happy) []
  = (Delete sampleContentsManager (filePath sampleBackingFile)
     :: BackingFileDispose sampleBackingFile :: h2, Return tt).
Proof.
  intros create h2.
  apply (invokeWithFileSynced_handler_resolves (lit "doc.ipynb") (lit "{}")
           sampleMetadata sampleConnection sampleContentsManager (fun _ => ret tt)
           (scenarioEnv happy) [] h2 sampleBackingFile (lit "{}"));
    reflexivity.
Defined.

End CoverageRuns.
End ExportBaseFacts.

(** ** [ConnectionDisplayDataProvider] *)
Module ConnectionDisplayDataProviderFacts.
Import ConnectionDisplayDataProvider.

Section General.
Context `{H : Helpers}.

Lemma sameEntries_refl st : sameEntries st st.
Proof. by split. Qed.

Lemma sameEntries_trans st1 st2 st3 :
  sameEntries st1 st2 -> sameEntries st2 st3 -> sameEntries st1 st3.
Proof.
  intros [Hd1 Hi1] [Hd2 Hi2]. split; [congruence|].
  intros d. by rewrite Hi2, Hi1.
Qed.

Lemma sameEntries_consistent st st' :
  sameEntries st st' -> consistent st -> consistent st'.
Proof.
  intros [Hd Hi] [H1 H2]. split.
  - intros d k. rewrite Hi, Hd. apply H1.
  - intros k d. rewrite Hi, Hd. apply H2.
Qed.

(** Replacing an object by one with the same id. *)
Lemma sameEntries_update st d o o' :
  objects st !! d = Some o -> connectionId o' = connectionId o ->
  sameEntries st (set_objects (insert d o') st).
Proof.
  intros Hd Hid. split; [reflexivity|]. intros d'. unfold idAt. simpl.
  destruct (decide (d = d')) as [<-|Hne].
  - rewrite lookup_insert_eq, Hd. simpl. by rewrite Hid.
  - by rewrite lookup_insert_ne.
Qed.

Lemma sameEntries_triggerChange st d : sameEntries st (triggerChange d st).
Proof. by split. Qed.

Lemma sameEntries_set_pending st f : sameEntries st (set_pending f st).
Proof. by split. Qed.

Lemma sameEntries_set_listeners st f : sameEntries st (set_listeners f st).
Proof. by split. Qed.

Lemma sameEntries_push_disposable st x : sameEntries st (push_disposable x st).
Proof. by split. Qed.

Lemma sameEntries_onServerDisplayName d v st :
  sameEntries st (onServerDisplayName d v st).
Proof.
  unfold onServerDisplayName. destruct (objects st !! d) as [o|] eqn:Ho;
    [|apply sameEntries_refl].
  case_bool_decide; [|apply sameEntries_refl].
  eapply sameEntries_trans; [|apply sameEntries_triggerChange].
  by eapply sameEntries_update.
Qed.

Lemma sameEntries_onCategory d v st : sameEntries st (onCategory d v st).
Proof.
  unfold onCategory. destruct (objects st !! d) as [o|] eqn:Ho;
    [|apply sameEntries_refl].
  case_bool_decide; [|apply sameEntries_refl].
  eapply sameEntries_trans; [|apply sameEntries_triggerChange].
  by eapply sameEntries_update.
Qed.

Lemma sameEntries_updateInterpreterInfo resolved e l st :
  sameEntries st (snd (updateInterpreterInfo resolved e l st)).
Proof.
  unfold updateInterpreterInfo.
  destruct (List.find _ resolved) as [i|]; [|apply sameEntries_refl].
  case_bool_decide; [|apply sameEntries_refl].
  destruct (objects st !! listenerDetails l) as [o|] eqn:Ho;
    [|apply sameEntries_refl].
  simpl. match goal with |- context [if ?b then _ else _] => destruct b end.
  - eapply sameEntries_trans; [|apply sameEntries_triggerChange].
    by eapply sameEntries_update.
  - by eapply sameEntries_update.
Qed.

Lemma sameEntries_fireInterpreterChange resolved e ls st :
  sameEntries st (snd (fireInterpreterChange resolved e ls st)).
Proof.
  revert st. induction ls as [|l ls IH]; intros st; [apply sameEntries_refl|].
  simpl.
  pose proof (sameEntries_updateInterpreterInfo resolved e l st) as H1.
  destruct (updateInterpreterInfo resolved e l st) as [l' st1]. simpl in H1.
  pose proof (IH st1) as H2.
  destruct (fireInterpreterChange resolved e ls st1) as [ls' st2]. simpl in *.
  by eapply sameEntries_trans.
Qed.

(** *** [getDisplayData] *)

Lemma details_createDetails connection st :
  details (createDetails connection st)
  = <[id connection := fresh (dom (objects st))]> (details st).
Proof. unfold createDetails. by destruct (_ && _). Qed.

Lemma objects_createDetails connection st :
  exists o, connectionId o = id connection
            /\ objects (createDetails connection st)
               = <[fresh (dom (objects st)) := o]> (objects st).
Proof. unfold createDetails. eexists. split; [|by destruct (_ && _)]. done. Qed.

(** The entries after a call: a new one when the id was unknown, the same map
    otherwise. *)
Lemma details_getDisplayData connection st :
  details (snd (getDisplayData connection st))
  = match details st !! id connection with
    | Some _ => details st
    | None => <[id connection := fresh (dom (objects st))]> (details st)
    end.
Proof.
  unfold getDisplayData. destruct (details st !! id connection) as [d|] eqn:Hd.
  - rewrite Hd. destruct (isRemoteKind _); simpl; by rewrite insert_id.
  - rewrite details_createDetails, lookup_insert_eq.
    destruct (isRemoteKind _); simpl; rewrite details_createDetails;
      by rewrite insert_insert_eq.
Qed.

Lemma fst_getDisplayData connection st :
  fst (getDisplayData connection st)
  = details (snd (getDisplayData connection st)) !! id connection.
Proof.
  rewrite details_getDisplayData. unfold getDisplayData.
  destruct (details st !! id connection) as [d|] eqn:Hd.
  - rewrite Hd. by destruct (isRemoteKind _).
  - rewrite details_createDetails, !lookup_insert_eq. by destruct (isRemoteKind _).
Qed.

Lemma objects_getDisplayData connection st :
  objects (snd (getDisplayData connection st))
  = match details st !! id connection with
    | Some _ => objects st
    | None => objects (createDetails connection st)
    end.
Proof.
  unfold getDisplayData. destruct (details st !! id connection) as [d|] eqn:Hd.
  - rewrite Hd. by destruct (isRemoteKind _).
  - rewrite details_createDetails, lookup_insert_eq. by destruct (isRemoteKind _).
Qed.

Lemma getDisplayData_consistent connection st :
  consistent st -> consistent (snd (getDisplayData connection st)).
Proof.
  intros [H1 H2]. unfold consistent, idAt.
  rewrite details_getDisplayData, objects_getDisplayData.
  destruct (details st !! id connection) as [d0|] eqn:Hd; [by split|].
  destruct (objects_createDetails connection st) as (o & Hid & ->).
  set (new := fresh (dom (objects st))).
  assert (objects st !! new = None) as Hnew.
  { apply not_elem_of_dom. apply is_fresh. }
  split.
  - intros d k. destruct (decide (new = d)) as [<-|Hne].
    + rewrite lookup_insert_eq. simpl. intros [= <-]. by rewrite Hid, lookup_insert_eq.
    + rewrite lookup_insert_ne by done. intros Hk.
      pose proof (H1 d k Hk) as Hdk.
      rewrite lookup_insert_ne; [done|]. intros <-. congruence.
  - intros k d. destruct (decide (id connection = k)) as [<-|Hne].
    + rewrite lookup_insert_eq. intros [= <-]. rewrite lookup_insert_eq. simpl.
      by rewrite Hid.
    + rewrite lookup_insert_ne by done. intros Hk.
      pose proof (H2 k d Hk) as Hdk. unfold idAt in Hdk.
      rewrite lookup_insert_ne; [done|]. intros <-. by rewrite Hnew in Hdk.
Qed.

(** *** Steps of the event loop *)

Lemma step_other_sameEntries a st :
  (forall connection, a <> CallGetDisplayData connection) ->
  sameEntries st (step a st).
Proof.
  intros Ha. destruct a as [connection|i v|i|[e|] resolved]; simpl.
  - by destruct (Ha connection).
  - destruct (pending st !! i) as [[d|d]|]; [| |apply sameEntries_refl].
    + eapply sameEntries_trans; [apply sameEntries_set_pending|].
      apply sameEntries_onServerDisplayName.
    + eapply sameEntries_trans; [apply sameEntries_set_pending|].
      apply sameEntries_onCategory.
  - apply sameEntries_set_pending.
  - pose proof (sameEntries_fireInterpreterChange resolved e (listeners st) st) as Hf.
    destruct (fireInterpreterChange resolved e (listeners st) st) as [ls st'].
    simpl in Hf. eapply sameEntries_trans; [exact Hf|].
    apply sameEntries_set_listeners.
  - apply sameEntries_refl.
Qed.

(** No step removes an entry or changes the object it refers to. *)
Lemma step_keeps_entries a st k d :
  details st !! k = Some d -> details (step a st) !! k = Some d.
Proof.
  intros Hk. destruct a as [connection|i v|i|e resolved].
  - simpl. rewrite details_getDisplayData.
    destruct (details st !! id connection) as [d0|] eqn:Hd; [done|].
    rewrite lookup_insert_ne; [done|]. intros <-. congruence.
  - by rewrite (proj1 (step_other_sameEntries (Resolve i v) st ltac:(done))).
  - by rewrite (proj1 (step_other_sameEntries (Reject i) st ltac:(done))).
  - by rewrite (proj1 (step_other_sameEntries (InterpreterChanged e resolved) st
                         ltac:(done))).
Qed.

Lemma steps_keep_entries l st k d :
  details st !! k = Some d -> details (steps l st) !! k = Some d.
Proof.
  revert st. induction l as [|a l IH]; intros st Hk; [done|].
  simpl. apply IH. by apply step_keeps_entries.
Qed.

Lemma step_consistent a st : consistent st -> consistent (step a st).
Proof.
  intros Hc. destruct a as [connection|i v|i|e resolved].
  - by apply getDisplayData_consistent.
  - eapply sameEntries_consistent; [|exact Hc].
    by apply step_other_sameEntries.
  - eapply sameEntries_consistent; [|exact Hc].
    by apply step_other_sameEntries.
  - eapply sameEntries_consistent; [|exact Hc].
    by apply step_other_sameEntries.
Qed.

Lemma steps_consistent l st : consistent st -> consistent (steps l st).
Proof.
  revert st. induction l as [|a l IH]; intros st Hc; [done|].
  simpl. apply IH. by apply step_consistent.
Qed.

Lemma initial_consistent : consistent initial.
Proof. split; intros ? ?; unfold idAt; simpl; by rewrite lookup_empty. Qed.

(** C6. Let the provider run any sequence of events from its initial state,
    answer [getDisplayData] for a connection, run any further events, and
    answer [getDisplayData] for a connection with the same id.  The first
    call returns a reference; that reference is the entry the map holds for
    the id when the call returns, and the object it refers to carries the
    id; the same holds after the second call, for the same reference.  Both
    calls return the same reference; the second call leaves the map as it
    found it; no event, and no call, removes an entry or makes it refer to
    another object; and no two objects of the store carry the same
    connection id. *)
Theorem getDisplayData_memoised (before between : list Action)
    (connection connection' : KernelConnectionMetadata) :
  id connection = id connection' ->
  let st1 := steps before initial in
  let first := getDisplayData connection st1 in
  let st3 := steps between (snd first) in
  let second := getDisplayData connection' st3 in
  (exists d,
      fst first = Some d
      /\ details (snd first) !! id connection = Some d
      /\ idAt (snd first) d = Some (id connection)
      /\ details (snd second) !! id connection' = Some d
      /\ idAt (snd second) d = Some (id connection'))
  /\ fst second = fst first
  /\ details (snd second) = details st3
  /\ (forall a st k d, details st !! k = Some d -> details (step a st) !! k = Some d)
  /\ (forall d1 d2 o1 o2,
        objects (snd second) !! d1 = Some o1 ->
        objects (snd second) !! d2 = Some o2 ->
        connectionId o1 = connectionId o2 -> d1 = d2).
Proof.
  intros Hid st1 first st3 second.
  assert (exists d, fst first = Some d
                    /\ details (snd first) !! id connection = Some d) as (d & Hfirst & Hd).
  { subst first. rewrite fst_getDisplayData, details_getDisplayData.
    destruct (details st1 !! id connection) as [d|] eqn:Hl.
    - by exists d.
    - eexists. by rewrite lookup_insert_eq. }
  assert (details st3 !! id connection' = Some d) as Hd3.
  { subst st3. rewrite <- Hid. by apply steps_keep_entries. }
  assert (consistent (snd first)) as [_ Hfirst2].
  { subst first st1.
    apply getDisplayData_consistent, steps_consistent, initial_consistent. }
  assert (consistent (snd second)) as [Hsecond1 Hsecond2].
  { subst second st3 first st1.
    apply getDisplayData_consistent, steps_consistent,
      getDisplayData_consistent, steps_consistent, initial_consistent. }
  assert (details (snd second) = details st3) as Hsame.
  { subst second. by rewrite details_getDisplayData, Hd3. }
  split; [|split; [|split; [|split]]].
  - exists d. split; [exact Hfirst|]. split; [exact Hd|].
    split; [by apply Hfirst2|].
    assert (details (snd second) !! id connection' = Some d) as Hd4
      by (by rewrite Hsame).
    split; [exact Hd4|]. by apply Hsecond2.
  - subst second. rewrite fst_getDisplayData, details_getDisplayData, Hd3.
    by rewrite Hfirst.
  - exact Hsame.
  - intros a st k d0. apply step_keeps_entries.
  - intros d1 d2 o1 o2 Ho1 Ho2 Ho.
    pose proof (Hsecond1 d1 (connectionId o1)) as Hk1.
    pose proof (Hsecond1 d2 (connectionId o2)) as Hk2.
    unfold idAt in Hk1, Hk2. rewrite Ho1 in Hk1. rewrite Ho2 in Hk2.
    specialize (Hk1 eq_refl). specialize (Hk2 eq_refl). congruence.
Qed.

End General.

(** *** Runs with concrete helpers *)
Section Runs.
Import Sample.
#[local] Existing Instance sampleHelpers.

Example first_call_creates_entry :
  let r := getDisplayData liveMetadata initial in
  fst r = Some 0%N
  /\ details (snd r) !! lit "remote-python3" = Some 0%N
  /\ pending (snd r) = [ServerDisplayNameTask 0%N; CategoryTask 0%N]
  /\ disposables (snd r) = [DisposableDetails 0%N].
Proof. repeat split; vm_compute; reflexivity. Qed.

(** A second connection, a resolved refresh and an interpreter change come
    between two calls for the same id: the reference is the same, and the
    object it refers to has been updated in place. *)
Example second_call_same_entry :
  let between :=
    [CallGetDisplayData localMetadata; Resolve 0 (lit "My Server");
     InterpreterChanged (Some {| envId := lit "base"; isCondaEnvWithoutPython := false |})
       [{| envId := lit "base"; isCondaEnvWithoutPython := false |}]] in
  let st := steps between (snd (getDisplayData liveMetadata initial)) in
  fst (getDisplayData sampleMetadata st) = Some 0%N
  /\ serverDisplayName <$> objects st !! 0%N = Some (Some (lit "My Server"))
  /\ size (details st) = 2.
Proof. repeat split; vm_compute; reflexivity. Qed.

Lemma getDisplayData_memoised_witness :
  let before := [CallGetDisplayData localMetadata] in
  let between := [Resolve 0 (lit "My Server"); Reject 0] in
  let st1 := steps before initial in
  let first := getDisplayData liveMetadata st1 in
  let st3 := steps between (snd first) in
  let second := getDisplayData sampleMetadata st3 in
  (exists d,
      fst first = Some d
      /\ details (snd first) !! id liveMetadata = Some d
      /\ idAt (snd first) d = Some (id liveMetadata)
      /\ details (snd second) !! id sampleMetadata = Some d
      /\ idAt (snd second) d = Some (id sampleMetadata))
  /\ fst second = fst first
  /\ details (snd second) = details st3
  /\ (forall a st k d, details st !! k = Some d -> details (step a st) !! k = Some d)
  /\ (forall d1 d2 o1 o2,
        objects (snd second) !! d1 = Some o1 ->
        objects (snd second) !! d2 = Some o2 ->
        connectionId o1 = connectionId o2 -> d1 = d2).
Proof.
  apply (getDisplayData_memoised [CallGetDisplayData localMetadata]
           [Resolve 0 (lit "My Server"); Reject 0] liveMetadata sampleMetadata).
  reflexivity.
Defined.

End Runs.

(** *** Further behaviour of the provider *)
Section Coverage.
Context `{H : Helpers}.

(** X18. A call for an id the map does not know creates the entry at once:
    it returns a new reference to an object made of the connection's id, its
    label, description and category computed synchronously, the session
    information as detail for a live remote kernel and the empty string
    otherwise, and no server name yet; the other objects are untouched, and
    the new one is registered for disposal. *)
Theorem getDisplayData_miss (connection : KernelConnectionMetadata) (st : State) :
  details st !! id connection = None ->
  let new := fresh (dom (objects st)) in
  let r := getDisplayData connection st in
  fst r = Some new
  /\ objects st !! new = None
  /\ objects (snd r) !! new
     = Some {| connectionId := id connection;
               label := getDisplayNameOrNameOfKernelConnection connection;
               description := getKernelConnectionDisplayPath connection;
               detail := if bool_decide (kind connection = connectToLiveRemoteKernel)
                         then getRemoteKernelSessionInformation connection
                         else lit "";
               category := getKernelConnectionCategorySync connection;
               serverDisplayName := None |}
  /\ (forall d, d <> new -> objects (snd r) !! d = objects st !! d)
  /\ DisposableDetails new ∈ disposables (snd r).
Proof.
  intros Hnone new r. subst r.
  split; [by rewrite fst_getDisplayData, details_getDisplayData, Hnone, lookup_insert_eq|].
  split; [apply not_elem_of_dom, is_fresh|].
  assert (snd (getDisplayData connection st)
          = set_pending (fun l => l ++ [CategoryTask new])
              (if isRemoteKind (kind connection)
               then set_pending (fun l => l ++ [ServerDisplayNameTask new])
                      (set_details (insert (id connection) new)
                         (createDetails connection st))
               else set_details (insert (id connection) new)
                      (createDetails connection st))) as ->.
  { unfold getDisplayData. rewrite Hnone, details_createDetails, lookup_insert_eq.
    by destruct (isRemoteKind _). }
  assert (forall st', objects (set_pending (fun l => l ++ [CategoryTask new])
            (if isRemoteKind (kind connection)
             then set_pending (fun l => l ++ [ServerDisplayNameTask new])
                    (set_details (insert (id connection) new) st')
             else set_details (insert (id connection) new) st')) = objects st'
          /\ disposables (set_pending (fun l => l ++ [CategoryTask new])
            (if isRemoteKind (kind connection)
             then set_pending (fun l => l ++ [ServerDisplayNameTask new])
                    (set_details (insert (id connection) new) st')
             else set_details (insert (id connection) new) st')) = disposables st')
    as Hproj.
  { intros st'. by destruct (isRemoteKind _). }
  destruct (Hproj (createDetails connection st)) as [-> ->].
  unfold createDetails. fold new.
  destruct (_ && _); simpl; (split; [by rewrite lookup_insert_eq|]);
    (split; [by intros d Hd; rewrite lookup_insert_ne|]);
    rewrite ?elem_of_app, !list_elem_of_singleton; auto.
Qed.

(** X19. A call for a known id recomputes nothing: it returns the reference
    the map holds and leaves the map, the objects, the disposal registry, the
    listeners and the notifications as they were, even when the metadata it
    is given differs from the one the entry was made from.  It only
    schedules the refreshes: the server name for a remote kind, then the
    category. *)
Theorem getDisplayData_hit (connection : KernelConnectionMetadata) (st : State)
    (d : Ref) :
  details st !! id connection = Some d ->
  let r := getDisplayData connection st in
  fst r = Some d
  /\ details (snd r) = details st
  /\ objects (snd r) = objects st
  /\ disposables (snd r) = disposables st
  /\ listeners (snd r) = listeners st
  /\ changes (snd r) = changes st
  /\ pending (snd r)
     = pending st
       ++ (if isRemoteKind (kind connection) then [ServerDisplayNameTask d] else [])
       ++ [CategoryTask d].
Proof.
  intros Hd r. subst r. unfold getDisplayData. rewrite Hd, Hd.
  destruct (isRemoteKind _); simpl; rewrite insert_id by done;
    repeat split; by rewrite <- ?app_assoc.
Qed.

(** X20. The callbacks of the two refreshes notify exactly when the value
    differs: a category (or a server name) equal to the one stored leaves
    the state as it is and notifies nobody; another one is stored in the
    object, in place, and [triggerChange] is called once. *)
Theorem refresh_notifies_on_change (d : Ref) (v : jsstring) (st : State)
    (o : ConnectionDisplayData) :
  objects st !! d = Some o ->
  (category o = v -> onCategory d v st = st)
  /\ (category o <> v ->
        changes (onCategory d v st) = d :: changes st
        /\ objects (onCategory d v st)
           = <[d := {| connectionId := connectionId o; label := label o;
                       description := description o; detail := detail o;
                       category := v;
                       serverDisplayName := serverDisplayName o |}]> (objects st))
  /\ (serverDisplayName o = Some v -> onServerDisplayName d v st = st)
  /\ (serverDisplayName o <> Some v ->
        changes (onServerDisplayName d v st) = d :: changes st
        /\ objects (onServerDisplayName d v st)
           = <[d := {| connectionId := connectionId o; label := label o;
                       description := description o; detail := detail o;
                       category := category o;
                       serverDisplayName := Some v |}]> (objects st)).
Proof.
  intros Ho. unfold onCategory, onServerDisplayName. rewrite Ho.
  repeat split.
  - intros Heq. by rewrite bool_decide_false by (intros Hne; by apply Hne).
  - by rewrite bool_decide_true.
  - by rewrite bool_decide_true.
  - intros Heq. by rewrite bool_decide_false by (intros Hne; by apply Hne).
  - by rewrite bool_decide_true.
  - by rewrite bool_decide_true.
Qed.

(** *** The registry and the store grow together *)

Lemma countDetails_app l1 l2 :
  countDetails (l1 ++ l2) = countDetails l1 + countDetails l2.
Proof. unfold countDetails. by rewrite List.filter_app, length_app. Qed.

Lemma countSubscriptions_app l1 l2 :
  countSubscriptions (l1 ++ l2) = countSubscriptions l1 + countSubscriptions l2.
Proof. unfold countSubscriptions. by rewrite List.filter_app, length_app. Qed.

Lemma balanced_update st d o o' :
  objects st !! d = Some o -> balanced st ->
  balanced (set_objects (insert d o') st).
Proof.
  intros Hd (H1 & H2 & H3). unfold balanced. simpl.
  by rewrite map_size_insert_Some by eauto.
Qed.

Lemma balanced_onServerDisplayName d v st :
  balanced st -> balanced (onServerDisplayName d v st).
Proof.
  intros Hb. unfold onServerDisplayName.
  destruct (objects st !! d) as [o|] eqn:Ho; [|done].
  case_bool_decide; [|done]. by eapply (balanced_update st d o).
Qed.

Lemma balanced_onCategory d v st : balanced st -> balanced (onCategory d v st).
Proof.
  intros Hb. unfold onCategory.
  destruct (objects st !! d) as [o|] eqn:Ho; [|done].
  case_bool_decide; [|done]. by eapply (balanced_update st d o).
Qed.

Lemma sameShape_updateInterpreterInfo resolved e l st :
  sameShape st (snd (updateInterpreterInfo resolved e l st)).
Proof.
  unfold updateInterpreterInfo.
  destruct (List.find _ resolved) as [i|]; [|done].
  case_bool_decide; [|done].
  destruct (objects st !! listenerDetails l) as [o|] eqn:Ho; [|done].
  simpl. match goal with |- context [if ?b then _ else _] => destruct b end;
    repeat split; simpl; by rewrite map_size_insert_Some by eauto.
Qed.

Lemma fireInterpreterChange_shape resolved e ls st :
  sameShape st (snd (fireInterpreterChange resolved e ls st))
  /\ length (fst (fireInterpreterChange resolved e ls st)) = length ls.
Proof.
  revert st. induction ls as [|l ls IH]; intros st; [done|]. simpl.
  pose proof (sameShape_updateInterpreterInfo resolved e l st) as H1.
  destruct (updateInterpreterInfo resolved e l st) as [l' st1]. simpl in H1.
  destruct (IH st1) as [H2 H3].
  destruct (fireInterpreterChange resolved e ls st1) as [ls' st2]. simpl in *.
  split; [|by rewrite H3].
  destruct H1 as (A1 & A2 & A3 & A4), H2 as (B1 & B2 & B3 & B4).
  repeat split; congruence.
Qed.

Lemma balanced_getDisplayData connection st :
  balanced st -> balanced (snd (getDisplayData connection st)).
Proof.
  intros (H1 & H2 & H3).
  destruct (details st !! id connection) as [d|] eqn:Hd.
  - unfold balanced. rewrite details_getDisplayData, objects_getDisplayData, Hd.
    assert (disposables (snd (getDisplayData connection st)) = disposables st
            /\ listeners (snd (getDisplayData connection st)) = listeners st)
      as [-> ->]; [|done].
    unfold getDisplayData. rewrite Hd, Hd. by destruct (isRemoteKind _).
  - unfold balanced. rewrite details_getDisplayData, objects_getDisplayData, Hd.
    assert (objects st !! fresh (dom (objects st)) = None) as Hnew
      by apply not_elem_of_dom, is_fresh.
    assert (disposables (snd (getDisplayData connection st))
            = disposables (createDetails connection st)
            /\ listeners (snd (getDisplayData connection st))
               = listeners (createDetails connection st)) as [-> ->].
    { unfold getDisplayData. rewrite Hd, details_createDetails, lookup_insert_eq.
      by destruct (isRemoteKind _). }
    rewrite map_size_insert_None by done.
    unfold createDetails. destruct (_ && _); simpl;
      rewrite ?map_size_insert_None by done;
      rewrite ?countDetails_app, ?countSubscriptions_app, ?length_app; simpl;
      unfold countDetails, countSubscriptions in *; simpl; lia.
Qed.

Lemma balanced_step a st : balanced st -> balanced (step a st).
Proof.
  intros Hb. destruct a as [connection|i v|i|[e|] resolved]; simpl.
  - by apply balanced_getDisplayData.
  - destruct (pending st !! i) as [[d|d]|]; [| |done].
    + by apply balanced_onServerDisplayName.
    + by apply balanced_onCategory.
  - done.
  - destruct (fireInterpreterChange_shape resolved e (listeners st) st)
      as [(A1 & A2 & A3 & A4) Hlen].
    destruct (fireInterpreterChange resolved e (listeners st) st) as [ls st'].
    simpl in *. destruct Hb as (H1 & H2 & H3). unfold balanced. simpl.
    rewrite A1, A2, A3, Hlen. done.
  - done.
Qed.

Lemma sameRegistry_refl st : sameRegistry st st.
Proof. done. Qed.

Lemma sameRegistry_update st d o o' :
  objects st !! d = Some o -> sameRegistry st (set_objects (insert d o') st).
Proof.
  intros Hd. split; [|done]. simpl. apply dom_insert_lookup_L. by exists o.
Qed.

Lemma sameRegistry_onServerDisplayName d v st :
  sameRegistry st (onServerDisplayName d v st).
Proof.
  unfold onServerDisplayName. destruct (objects st !! d) as [o|] eqn:Ho; [|done].
  destruct (bool_decide _); [|done]. by apply (sameRegistry_update st d o).
Qed.

Lemma sameRegistry_onCategory d v st : sameRegistry st (onCategory d v st).
Proof.
  unfold onCategory. destruct (objects st !! d) as [o|] eqn:Ho; [|done].
  destruct (bool_decide _); [|done]. by apply (sameRegistry_update st d o).
Qed.

Lemma sameRegistry_updateInterpreterInfo resolved e l st :
  sameRegistry st (snd (updateInterpreterInfo resolved e l st))
  /\ listenerDetails (fst (updateInterpreterInfo resolved e l st)) = listenerDetails l.
Proof.
  unfold updateInterpreterInfo.
  destruct (List.find _ resolved) as [i|]; [|done].
  destruct (bool_decide _); [|done].
  destruct (objects st !! listenerDetails l) as [o|] eqn:Ho; [|done].
  simpl. split; [|done].
  match goal with |- context [if ?b then _ else _] => destruct b end;
    by apply (sameRegistry_update st (listenerDetails l) o).
Qed.

Lemma sameRegistry_fireInterpreterChange resolved e ls st :
  sameRegistry st (snd (fireInterpreterChange resolved e ls st))
  /\ listenerDetails <$> fst (fireInterpreterChange resolved e ls st)
     = listenerDetails <$> ls.
Proof.
  revert st. induction ls as [|l ls IH]; intros st; [done|]. simpl.
  destruct (sameRegistry_updateInterpreterInfo resolved e l st) as [H1 Hl].
  destruct (updateInterpreterInfo resolved e l st) as [l' st1]. simpl in H1, Hl.
  destruct (IH st1) as [H2 Hls].
  destruct (fireInterpreterChange resolved e ls st1) as [ls' st2].
  cbn [fst snd] in *.
  split; [|by rewrite !fmap_cons, Hl, Hls].
  destruct H1 as (A1 & A2 & A3), H2 as (B1 & B2 & B3).
  repeat split; congruence.
Qed.

Lemma registered_sameRegistry st st' :
  sameRegistry st st' -> registered st -> registered st'.
Proof.
  intros (Hdom & Hdisp & Hls) (Hnodup & Hin & Hsub). unfold registered.
  rewrite Hdisp, Hls. split; [done|]. split; [|done].
  intros d. rewrite Hin, <- !elem_of_dom. by rewrite Hdom.
Qed.

Lemma detailsPushed_app l1 l2 :
  detailsPushed (l1 ++ l2) = detailsPushed l1 ++ detailsPushed l2.
Proof. apply omap_app. Qed.

Lemma subscriptionsPushed_app l1 l2 :
  subscriptionsPushed (l1 ++ l2) = subscriptionsPushed l1 ++ subscriptionsPushed l2.
Proof. apply omap_app. Qed.

Lemma elem_of_detailsPushed d l : d ∈ detailsPushed l <-> DisposableDetails d ∈ l.
Proof.
  unfold detailsPushed. rewrite list_elem_of_omap. split.
  - by intros ([d'|d'] & Hx & [= <-]).
  - intros Hx. by exists (DisposableDetails d).
Qed.

Lemma registered_getDisplayData connection st :
  registered st -> registered (snd (getDisplayData connection st)).
Proof.
  intros (Hnodup & Hin & Hsub).
  destruct (details st !! id connection) as [d|] eqn:Hd.
  - assert (objects (snd (getDisplayData connection st)) = objects st
            /\ disposables (snd (getDisplayData connection st)) = disposables st
            /\ listeners (snd (getDisplayData connection st)) = listeners st)
      as (Ho & Hdisp & Hls).
    { unfold getDisplayData. rewrite Hd, Hd. by destruct (isRemoteKind _). }
    unfold registered. by rewrite Ho, Hdisp, Hls.
  - set (new := fresh (dom (objects st))).
    assert (objects st !! new = None) as Hnew by apply not_elem_of_dom, is_fresh.
    assert (new ∉ detailsPushed (disposables st)) as Hfresh.
    { rewrite Hin, Hnew. by intros [? ?]. }
    assert (objects (snd (getDisplayData connection st))
            = objects (createDetails connection st)
            /\ disposables (snd (getDisplayData connection st))
               = disposables (createDetails connection st)
            /\ listeners (snd (getDisplayData connection st))
               = listeners (createDetails connection st)) as (Ho & Hdisp & Hls).
    { unfold getDisplayData. rewrite Hd, details_createDetails, lookup_insert_eq.
      by destruct (isRemoteKind _). }
    unfold registered. rewrite Ho, Hdisp, Hls.
    unfold createDetails. fold new.
    destruct (_ && _); simpl;
      rewrite ?detailsPushed_app, ?subscriptionsPushed_app, ?fmap_app; simpl;
      rewrite ?app_nil_r.
    + split; [|split; [|by rewrite Hsub]].
      * apply NoDup_app. split; [done|]. split; [|apply NoDup_singleton].
        intros d Hd1 Hd2%list_elem_of_singleton. by subst d.
      * intros d. rewrite elem_of_app, list_elem_of_singleton, Hin.
        rewrite lookup_insert_is_Some. split.
        -- intros [Hs| ->]; [|by left]. destruct (decide (new = d)); [by left|by right].
        -- intros [<-|[_ Hs]]; [by right|by left].
    + split; [|split; [|exact Hsub]].
      * apply NoDup_app. split; [done|]. split; [|apply NoDup_singleton].
        intros d Hd1 Hd2%list_elem_of_singleton. by subst d.
      * intros d. rewrite elem_of_app, list_elem_of_singleton, Hin.
        rewrite lookup_insert_is_Some. split.
        -- intros [Hs| ->]; [|by left]. destruct (decide (new = d)); [by left|by right].
        -- intros [<-|[_ Hs]]; [by right|by left].
Qed.

Lemma registered_step a st : registered st -> registered (step a st).
Proof.
  intros Hr. destruct a as [connection|i v|i|[e|] resolved]; simpl.
  - by apply registered_getDisplayData.
  - destruct (pending st !! i) as [[d|d]|]; [| |done].
    + eapply registered_sameRegistry; [apply sameRegistry_onServerDisplayName|done].
    + eapply registered_sameRegistry; [apply sameRegistry_onCategory|done].
  - done.
  - destruct (sameRegistry_fireInterpreterChange resolved e (listeners st) st)
      as [(A1 & A2 & A3) Hls].
    destruct (fireInterpreterChange resolved e (listeners st) st) as [ls st'].
    simpl in *. destruct Hr as (H1 & H2 & H3). unfold registered. simpl.
    rewrite A2, Hls. split; [done|]. split; [|done].
    intros d. rewrite H2, <- !elem_of_dom. by rewrite A1.
  - done.
Qed.

(** X21. Whatever the provider has been through since its creation, the map
    has as many entries as the store has objects; the objects pushed on the
    disposal registry are the objects of the store, each of them pushed
    once; and the subscriptions pushed are those of the listeners, one for
    each and in the order of their registration: nothing is ever taken
    back. *)
Theorem registry_matches_store (actions : list Action) :
  let st := steps actions initial in
  size (details st) = size (objects st)
  /\ NoDup (detailsPushed (disposables st))
  /\ (forall d, DisposableDetails d ∈ disposables st <-> is_Some (objects st !! d))
  /\ countDetails (disposables st) = size (objects st)
  /\ subscriptionsPushed (disposables st) = listenerDetails <$> listeners st
  /\ countSubscriptions (disposables st) = length (listeners st).
Proof.
  simpl.
  assert (balanced (steps actions initial) /\ registered (steps actions initial))
    as [(B1 & B2 & B3) (R1 & R2 & R3)].
  { assert (balanced initial /\ registered initial) as Hinit.
    { split; [done|]. split; [apply NoDup_nil_2|]. split; [|done].
      intros d. simpl. rewrite lookup_empty. split; [by intros ?%elem_of_nil|].
      by intros [? ?]. }
    revert Hinit. generalize initial.
    induction actions as [|a actions IH]; intros st [Hb Hr]; [done|].
    simpl. apply IH. split; [by apply balanced_step|by apply registered_step]. }
  repeat split; try done.
  - intros Hd. apply R2. by apply elem_of_detailsPushed.
  - intros Hd. apply elem_of_detailsPushed. by apply R2.
Qed.

(** *** Interpreter changes *)

Lemma find_all_false {A} (f : A -> bool) (l : list A) :
  Forall (fun x => f x = false) l -> List.find f l = None.
Proof. induction 1 as [|x l Hx _ IH]; [done|]. simpl. by rewrite Hx. Qed.

Lemma find_pointwise {A} (f g : A -> bool) (l : list A) :
  (forall x, f x = g x) -> List.find f l = List.find g l.
Proof.
  intros Hfg. induction l as [|x l IH]; [done|]. simpl. by rewrite Hfg, IH.
Qed.

Lemma updateInterpreterInfo_elsewhere resolved e l st :
  envId <$> interpreter (listenerConnection l) <> Some (envId e)
  \/ Forall (fun env => envId env <> envId e) resolved ->
  updateInterpreterInfo resolved e l st = (l, st).
Proof.
  intros Hwhy. unfold updateInterpreterInfo.
  rewrite find_all_false; [done|].
  destruct Hwhy as [Hl|Hr].
  - rewrite bool_decide_false by (intros Heq; by apply Hl).
    apply Forall_forall. intros env _. by apply bool_decide_false.
  - eapply Forall_impl; [exact Hr|]. intros env Hne. simpl in Hne.
    apply bool_decide_false. intros Heq.
    destruct (bool_decide _) in Heq; simpl in Heq; [|done].
    injection Heq as Heq. done.
Qed.

(** X22. An interpreter event that is not about the environment of a
    listener's connection, or whose environment is not among the resolved
    ones, changes nothing and notifies nobody; neither does an event that
    carries no environment. *)
Theorem interpreter_change_elsewhere (resolved : list PythonEnvironment)
    (e : PythonEnvironment) (st : State) :
  Forall (fun l => envId <$> interpreter (listenerConnection l) <> Some (envId e))
    (listeners st)
  \/ Forall (fun env => envId env <> envId e) resolved ->
  step (InterpreterChanged (Some e) resolved) st = st
  /\ step (InterpreterChanged None resolved) st = st.
Proof.
  intros Hwhy. split; [|reflexivity]. simpl.
  assert (forall ls,
            Forall (fun l => envId <$> interpreter (listenerConnection l)
                             <> Some (envId e)) ls
            \/ Forall (fun env => envId env <> envId e) resolved ->
            fireInterpreterChange resolved e ls st = (ls, st)) as Hfire.
  { induction ls as [|l ls IH]; intros Hls; [done|]. simpl.
    rewrite updateInterpreterInfo_elsewhere.
    - rewrite IH; [done|]. destruct Hls as [Hls|Hr]; [left|by right].
      by apply Forall_cons in Hls as [_ Hls].
    - destruct Hls as [Hls|Hr]; [left|by right].
      by apply Forall_cons in Hls as [Hl _]. }
  rewrite (Hfire _ Hwhy). by destruct st.
Qed.

(** X23. When the event is about the environment of the listener's
    connection and that environment is resolved, the connection takes the
    resolved interpreter, and label, description and category of the entry
    are computed again from it and stored in place; [triggerChange] is
    called once when one of the three has changed, and not at all
    otherwise.  Detail, server name and connection id are kept. *)
Theorem interpreter_change_refreshes (resolved : list PythonEnvironment)
    (e current resolvedEnv : PythonEnvironment) (l : Listener) (st : State)
    (o : ConnectionDisplayData) :
  let connection := updateInterpreter (listenerConnection l) resolvedEnv in
  let d := listenerDetails l in
  let newLabel := getDisplayNameOrNameOfKernelConnection connection in
  let newDescription := getKernelConnectionDisplayPath connection in
  let newCategory := getKernelConnectionCategorySync connection in
  let r := updateInterpreterInfo resolved e l st in
  kind (listenerConnection l) = startUsingPythonInterpreter ->
  interpreter (listenerConnection l) = Some current ->
  envId current = envId e ->
  List.find (fun env => bool_decide (envId env = envId e)) resolved = Some resolvedEnv ->
  objects st !! d = Some o ->
  fst r = {| listenerConnection := connection; listenerDetails := d |}
  /\ objects (snd r)
     = <[d := {| connectionId := connectionId o; label := newLabel;
                 description := newDescription; detail := detail o;
                 category := newCategory;
                 serverDisplayName := serverDisplayName o |}]> (objects st)
  /\ changes (snd r)
     = if bool_decide (newLabel = label o /\ newDescription = description o
                       /\ newCategory = category o)
       then changes st else d :: changes st.
Proof.
  intros connection d newLabel newDescription newCategory r
    Hkind Hint Hid Hfind Ho. subst r. unfold updateInterpreterInfo.
  rewrite Hint. simpl fmap. rewrite bool_decide_true by (by rewrite Hid).
  rewrite (find_pointwise _ (fun env => bool_decide (envId env = envId e))).
  2:{ intros env. simpl. apply bool_decide_ext. split; [by intros [=]|by intros ->]. }
  rewrite Hfind, bool_decide_true by done. fold d. rewrite Ho.
  fold connection newLabel newDescription newCategory.
  repeat match goal with
         | |- context [bool_decide ?Q] => destruct (bool_decide_reflect Q)
         end; simpl; repeat split; try done; tauto.
Qed.

End Coverage.

(** *** The further properties on concrete runs *)
Section CoverageRuns.
Import Sample.
#[local] Existing Instance sampleHelpers.

Lemma getDisplayData_miss_witness :
  let new := fresh (dom (objects initial)) in
  let r := getDisplayData liveMetadata initial in
  fst r = Some new
  /\ objects initial !! new = None
  /\ objects (snd r) !! new
     = Some {| connectionId := id liveMetadata;
               label := getDisplayNameOrNameOfKernelConnection liveMetadata;
               description := getKernelConnectionDisplayPath liveMetadata;
               detail := if bool_decide (kind liveMetadata = connectToLiveRemoteKernel)
                         then getRemoteKernelSessionInformation liveMetadata
                         else lit "";
               category := getKernelConnectionCategorySync liveMetadata;
               serverDisplayName := None |}
  /\ (forall d, d <> new -> objects (snd r) !! d = objects initial !! d)
  /\ DisposableDetails new ∈ disposables (snd r).
Proof. apply (getDisplayData_miss liveMetadata initial). reflexivity. Defined.

Lemma getDisplayData_hit_witness :
  let st := snd (getDisplayData liveMetadata initial) in
  let r := getDisplayData sampleMetadata st in
  fst r = Some 0%N
  /\ details (snd r) = details st
  /\ objects (snd r) = objects st
  /\ disposables (snd r) = disposables st
  /\ listeners (snd r) = listeners st
  /\ changes (snd r) = changes st
  /\ pending (snd r)
     = pending st
       ++ (if isRemoteKind (kind sampleMetadata) then [ServerDisplayNameTask 0%N] else [])
       ++ [CategoryTask 0%N].
Proof.
  apply (getDisplayData_hit sampleMetadata (snd (getDisplayData liveMetadata initial)) 0%N).
  vm_compute. reflexivity.
Defined.

Lemma refresh_notifies_on_change_witness :
  let st := snd (getDisplayData liveMetadata initial) in
  let d := 0%N in
  let v := lit "My Server" in
  let o := liveEntry in
  (category o = v -> onCategory d v st = st)
  /\ (category o <> v ->
        changes (onCategory d v st) = d :: changes st
        /\ objects (onCategory d v st)
           = <[d := {| connectionId := connectionId o; label := label o;
                       description := description o; detail := detail o;
                       category := v;
                       serverDisplayName := serverDisplayName o |}]> (objects st))
  /\ (serverDisplayName o = Some v -> onServerDisplayName d v st = st)
  /\ (serverDisplayName o <> Some v ->
        changes (onServerDisplayName d v st) = d :: changes st
        /\ objects (onServerDisplayName d v st)
           = <[d := {| connectionId := connectionId o; label := label o;
                       description := description o; detail := detail o;
                       category := category o;
                       serverDisplayName := Some v |}]> (objects st)).
Proof.
  apply (refresh_notifies_on_change 0%N (lit "My Server")
           (snd (getDisplayData liveMetadata initial)) liveEntry).
  vm_compute. reflexivity.
Defined.

Lemma interpreter_change_elsewhere_witness :
  let st := snd (getDisplayData localMetadata initial) in
  step (InterpreterChanged (Some otherEnvironment) [otherEnvironment]) st = st
  /\ step (InterpreterChanged None [otherEnvironment]) st = st.
Proof.
  apply (interpreter_change_elsewhere [otherEnvironment] otherEnvironment
           (snd (getDisplayData localMetadata initial))).
  left. vm_compute. constructor; [discriminate|constructor].
Defined.

Lemma interpreter_change_refreshes_witness :
  let l := {| listenerConnection := localMetadata; listenerDetails := 0%N |} in
  let st := snd (getDisplayData localMetadata initial) in
  let o := {| connectionId := lit "conda-base"; label := lit "conda-base";
              description := lit "~/env/bin/python"; detail := lit "";
              category := lit "Python Environments"; serverDisplayName := None |} in
  let connection := updateInterpreter (listenerConnection l) resolvedBase in
  let d := listenerDetails l in
  let newLabel := getDisplayNameOrNameOfKernelConnection connection in
  let newDescription := getKernelConnectionDisplayPath connection in
  let newCategory := getKernelConnectionCategorySync connection in
  let r := updateInterpreterInfo [otherEnvironment; resolvedBase] resolvedBase l st in
  fst r = {| listenerConnection := connection; listenerDetails := d |}
  /\ objects (snd r)
     = <[d := {| connectionId := connectionId o; label := newLabel;
                 description := newDescription; detail := detail o;
                 category := newCategory;
                 serverDisplayName := serverDisplayName o |}]> (objects st)
  /\ changes (snd r)
     = if bool_decide (newLabel = label o /\ newDescription = description o
                       /\ newCategory = category o)
       then changes st else d :: changes st.
Proof.
  intros l st o.
  apply (interpreter_change_refreshes [otherEnvironment; resolvedBase] resolvedBase
           {| envId := lit "base"; isCondaEnvWithoutPython := true |} resolvedBase
           l st o).
  - reflexivity.
  - reflexivity.
  - reflexivity.
  - vm_compute. reflexivity.
  - vm_compute. reflexivity.
Defined.

End CoverageRuns.
End ConnectionDisplayDataProviderFacts.

(** ** [serverSelector.ts] *)
Module JupyterServerSelectorFacts.
Import JupyterServerSelector.

(** *** The regular expression *)

Lemma startsWith_app p r : startsWith p (p ++ r) = true.
Proof. induction p as [|a p IH]; [done|]. simpl. by rewrite N.eqb_refl. Qed.

Lemma startsWith_inv p s : startsWith p s = true -> s = p ++ drop (length p) s.
Proof.
  revert s. induction p as [|a p IH]; intros s Hs; [done|].
  destruct s as [|b s]; [done|]. simpl in Hs.
  apply andb_true_iff in Hs as [Hab Hs]. apply N.eqb_eq in Hab as ->.
  simpl. f_equal. by apply IH.
Qed.

Lemma schemeLength_Some s n :
  schemeLength s = Some n ->
  exists scheme, isScheme scheme /\ length scheme = n /\ s = scheme ++ drop n s.
Proof.
  unfold schemeLength.
  destruct (startsWith (lit "https://") s) eqn:H1.
  - intros [= <-]. exists (lit "https://"). split; [by right|]. split; [done|].
    by apply (startsWith_inv (lit "https://")).
  - destruct (startsWith (lit "http://") s) eqn:H2; [|done].
    intros [= <-]. exists (lit "http://"). split; [by left|]. split; [done|].
    by apply (startsWith_inv (lit "http://")).
Qed.

Lemma schemeLength_scheme scheme r :
  isScheme scheme -> schemeLength (scheme ++ r) = Some (length scheme).
Proof.
  intros [->| ->]; unfold schemeLength.
  - destruct (startsWith (lit "https://") _) eqn:Hs; [|by rewrite startsWith_app].
    apply (startsWith_inv (lit "https://")) in Hs. simpl in Hs. discriminate.
  - by rewrite startsWith_app.
Qed.

Lemma nonSpaceRun_spec s run rest :
  nonSpaceRun s = (run, rest) ->
  s = run ++ rest /\ Forall (fun c => isWhiteSpace c = false) run /\ endsUrl rest.
Proof.
  revert run rest. induction s as [|c s IH]; intros run rest.
  - intros [= <- <-]. repeat split; [constructor|by left].
  - simpl. destruct (isWhiteSpace c) eqn:Hc.
    + intros [= <- <-]. repeat split; [constructor|]. right. by exists c, s.
    + destruct (nonSpaceRun s) as [run' rest'] eqn:Hr. intros [= <- <-].
      destruct (IH run' rest' eq_refl) as (-> & Hall & Hend).
      repeat split; [by constructor|done].
Qed.


(** What [matchUrl] finds is a URL at the start of the text, as long as it
    can be. *)
Lemma matchUrl_Some s url rest :
  matchUrl s = Some (url, rest) ->
  exists scheme run,
    isScheme scheme /\ run <> [] /\ Forall (fun c => isWhiteSpace c = false) run
    /\ endsUrl rest /\ url = scheme ++ run /\ s = scheme ++ run ++ rest.
Proof.
  unfold matchUrl. destruct (schemeLength s) as [n|] eqn:Hn; [|done].
  destruct (schemeLength_Some _ _ Hn) as (scheme & Hscheme & Hlen & Hs).
  destruct (nonSpaceRun (drop n s)) as [run rest'] eqn:Hr.
  destruct (nonSpaceRun_spec _ _ _ Hr) as (Hd & Hall & Hend).
  destruct run as [|c run]; [done|]. intros [= <- <-].
  exists scheme, (c :: run). repeat split; try done.
  - f_equal. rewrite Hs at 1. rewrite <- Hlen. by rewrite take_app_length.
  - rewrite Hs at 1. by rewrite Hd.
Qed.


Lemma matchUrl_rest_length s url rest :
  matchUrl s = Some (url, rest) -> length rest < length s.
Proof.
  intros Hm. destruct (matchUrl_Some _ _ _ Hm)
    as (scheme & run & Hscheme & Hrun & _ & _ & _ & ->).
  rewrite !length_app. destruct run; [done|]. simpl. lia.
Qed.

Lemma replaceFrom_S fuel c s :
  replaceFrom (S fuel) (c :: s)
  = match matchUrl (c :: s) with
    | Some (url, rest) => markdownLink url ++ replaceFrom fuel rest
    | None => c :: replaceFrom fuel s
    end.
Proof. reflexivity. Qed.

(** The scan does not depend on the fuel once there is enough of it. *)
Lemma replaceFrom_enough fuel fuel' s :
  length s <= fuel -> length s <= fuel' -> replaceFrom fuel s = replaceFrom fuel' s.
Proof.
  revert fuel' s. induction fuel as [|fuel IH]; intros fuel' s Hf Hf'.
  - destruct s; [|simpl in Hf; lia]. by destruct fuel'.
  - destruct fuel' as [|fuel']; [destruct s; [done|simpl in Hf'; lia]|].
    destruct s as [|c s]; [done|]. rewrite !replaceFrom_S.
    destruct (matchUrl (c :: s)) as [[url rest]|] eqn:Hm.
    + pose proof (matchUrl_rest_length _ _ _ Hm) as Hlt. simpl in Hf, Hf', Hlt.
      f_equal. apply IH; lia.
    + simpl in Hf, Hf'. f_equal. apply IH; lia.
Qed.

Lemma replaceUrls_nil : replaceUrls [] = [].
Proof. reflexivity. Qed.

Lemma replaceUrls_match s url rest :
  matchUrl s = Some (url, rest) ->
  replaceUrls s = markdownLink url ++ replaceUrls rest.
Proof.
  intros Hm. pose proof (matchUrl_rest_length _ _ _ Hm) as Hlt.
  unfold replaceUrls. destruct s as [|c s]; [simpl in Hlt; lia|].
  simpl length. rewrite replaceFrom_S, Hm. f_equal.
  simpl in Hlt. apply replaceFrom_enough; lia.
Qed.

Lemma replaceUrls_copy c s :
  matchUrl (c :: s) = None -> replaceUrls (c :: s) = c :: replaceUrls s.
Proof. intros Hm. unfold replaceUrls. simpl length. by rewrite replaceFrom_S, Hm. Qed.


(** The replacement rewrites every URL of the message, and only them. *)
Lemma markdownLink_app url out :
  markdownLink url ++ out = lit "[" ++ url ++ lit "](" ++ url ++ lit ")" ++ out.
Proof. unfold markdownLink. by rewrite <- !app_assoc. Qed.



Section General.
Context `{P : Platform}.

(** *** [addJupyterServerOld] *)

(** C7. On the legacy path the run extends the history by [calls], and the
    providers handed to the store by [calls] are: the provider, once, when
    validation succeeds or the prompt for a self-signed or expired
    certificate is accepted; none otherwise.  In particular the store is not
    touched when a certificate prompt is declined, when the error is an
    invalid password, and when the error is of no known class. *)
Theorem addJupyterServerOld_store (provider : JupyterServerProviderHandle)
    (env : Env) (h : History) :
  exists calls,
    fst (addJupyterServerOld provider env h) = calls ++ h
    /\ storeAdds calls
       = (if registrationAccepted env h provider then [provider] else [])
    /\ forall err,
         answer env h (ValidateRemoteUri provider None) = Throw err ->
         registrationRefused env h provider err ->
         storeAdds calls = [].
Proof.
  unfold addJupyterServerOld, registrationAccepted, registrationRefused.
  unfold bind at 1. unfold attempt, await at 1.
  set (validate := ValidateRemoteUri provider None).
  destruct (answer env h validate) as [[]|err] eqn:Hv.
  { (* validation succeeds *)
    exists [StorageAdd provider; validate]. split; [reflexivity|].
    split; [reflexivity|]. intros err [=]. }
  unfold bind at 1.
  destruct (isSelfCertsError err) eqn:Hself;
    [|destruct (isSelfCertsExpiredError err) eqn:Hexp;
      [|destruct (isInvalidPasswordError err) eqn:Hpw]].
  - (* self-signed certificate *)
    unfold bind, emit, await, ret. simpl.
    set (h1 := SendTelemetryEvent ConnectRemoteSelfCertFailedJupyter :: validate :: h).
    set (prompt := HandleSelfCertsError (message err)).
    destruct (answer env h1 prompt) as [[|]|e] eqn:Hp; simpl.
    + exists [StorageAdd provider; prompt;
              SendTelemetryEvent ConnectRemoteSelfCertFailedJupyter; validate].
      split; [reflexivity|]. split; [reflexivity|].
      intros err' [= <-] Href. subst h1 prompt validate.
      destruct Href as [[_ Hd]|[[Hd _]|[[Hd _]|[Hd _]]]]; simpl in *; congruence.
    + exists [prompt; SendTelemetryEvent ConnectRemoteSelfCertFailedJupyter; validate].
      repeat split; reflexivity.
    + exists [prompt; SendTelemetryEvent ConnectRemoteSelfCertFailedJupyter; validate].
      repeat split; reflexivity.
  - (* expired certificate *)
    unfold bind, emit, await, ret. simpl.
    set (h1 := SendTelemetryEvent ConnectRemoteSelfCertFailedJupyter :: validate :: h).
    set (prompt := HandleExpiredCertsError (message err)).
    destruct (answer env h1 prompt) as [[|]|e] eqn:Hp; simpl.
    + exists [StorageAdd provider; prompt;
              SendTelemetryEvent ConnectRemoteSelfCertFailedJupyter; validate].
      split; [reflexivity|]. split; [reflexivity|].
      intros err' [= <-] Href. subst h1 prompt validate.
      destruct Href as [[Hd _]|[(_ & _ & Hd)|[(_ & Hd & _)|(_ & Hd & _)]]];
        simpl in *; congruence.
    + exists [prompt; SendTelemetryEvent ConnectRemoteSelfCertFailedJupyter; validate].
      repeat split; reflexivity.
    + exists [prompt; SendTelemetryEvent ConnectRemoteSelfCertFailedJupyter; validate].
      repeat split; reflexivity.
  - (* invalid password *)
    exists [validate]. repeat split; reflexivity.
  - (* any other error *)
    unfold bind, await, ret. simpl.
    set (report := HandleError _).
    exists [report; validate].
    destruct (answer env (validate :: h) report) as [[]|e]; repeat split; reflexivity.
Qed.

(** *** [validateSelectJupyterURI] *)


End General.

(** *** Runs on the concrete platform *)
Section Runs.
Import Sample.
#[local] Existing Instance sampleSelectorPlatform.

Example replaceUrls_message :
  replaceUrls (lit "request to http://host:8888/api/kernels?1 failed")
  = lit "request to [http://host:8888/api/kernels?1](http://host:8888/api/kernels?1) failed".
Proof. vm_compute. reflexivity. Qed.

Example replaceUrls_two_urls :
  replaceUrls (lit "tried https://a.b then http://c:1/")
  = lit "tried [https://a.b](https://a.b) then [http://c:1/](http://c:1/)".
Proof. vm_compute. reflexivity. Qed.

(** A scheme with nothing after it is not a URL and is left as it is. *)
Example replaceUrls_bare_scheme :
  replaceUrls (lit "no host in http:// given") = lit "no host in http:// given".
Proof. vm_compute. reflexivity. Qed.

Example declined_prompt_leaves_store :
  addJupyterServerOld sampleHandle (selectorEnv (Throw selfSignedError) false) []
  = ([HandleSelfCertsError (message selfSignedError);
      SendTelemetryEvent ConnectRemoteSelfCertFailedJupyter;
      ValidateRemoteUri sampleHandle None],
     Return tt).
Proof. vm_compute. reflexivity. Qed.

Example accepted_prompt_registers :
  addJupyterServerOld sampleHandle (selectorEnv (Throw selfSignedError) true) []
  = ([StorageAdd sampleHandle;
      HandleSelfCertsError (message selfSignedError);
      SendTelemetryEvent ConnectRemoteSelfCertFailedJupyter;
      ValidateRemoteUri sampleHandle None],
     Return tt).
Proof. vm_compute. reflexivity. Qed.



Example refused_connection_text :
  snd (validateSelectJupyterURI false sampleHandle sampleServerUri
         (selectorEnv (Throw refusedError) false) [])
  = Return (Some (lit "Connection failure. Verify the server is running and reachable. (request to [http://host:8888/api/kernels?1](http://host:8888/api/kernels?1) failed, reason: connect ECONNREFUSED)."))%string.
Proof. vm_compute. reflexivity. Qed.

End Runs.

(** *** Further behaviour of the selector *)
Section Coverage.
Context `{P : Platform}.

(** X24. [validateSelectJupyterURI] only tests the URI: whatever the
    environment answers, none of its calls adds to the server URI store or
    reports through the error handler. *)
Theorem validateSelectJupyterURI_read_only (isWebExtension : bool)
    (provider : JupyterServerProviderHandle) (serverUri : IJupyterServerUri)
    (env : Env) (h : History) :
  exists calls,
    fst (validateSelectJupyterURI isWebExtension provider serverUri env h) = calls ++ h
    /\ Forall (fun c => isStoreOrReport c = false) calls
    /\ storeAdds calls = [].
Proof.
  assert (emits (fun c => isStoreOrReport c = false)
            (validateSelectJupyterURI isWebExtension provider serverUri)) as Hemits.
  { unfold validateSelectJupyterURI. solve_emits. }
  destruct (Hemits env h) as (calls & Hcalls & Hall).
  exists calls. split; [done|]. split; [done|].
  clear Hcalls. induction Hall as [|c calls Hc _ IH]; [done|].
  destruct c; try discriminate; exact IH.
Qed.

(** X25. What [validateSelectJupyterURI] answers for the errors it knows:
    for a self-signed or an expired certificate the user is asked, and the
    answer is [undefined] when the certificate is accepted and the text for
    that certificate error when it is not; for an invalid password the
    answer is the password text and nobody is asked. *)
Theorem validateSelectJupyterURI_classified (isWebExtension : bool)
    (provider : JupyterServerProviderHandle) (serverUri : IJupyterServerUri)
    (env : Env) (h : History) (err : JsError) :
  let validate := ValidateRemoteUri provider (Some serverUri) in
  let warned := TraceWarning (lit "Uri verification error") err :: validate :: h in
  let h1 := SendTelemetryEvent ConnectRemoteSelfCertFailedJupyter :: warned in
  let run := validateSelectJupyterURI isWebExtension provider serverUri env h in
  answer env h validate = Throw err ->
  (isSelfCertsError err = true ->
   forall handled,
     answer env h1 (HandleSelfCertsError (message err)) = Return handled ->
     run = (HandleSelfCertsError (message err) :: h1,
            Return (if handled then None
                    else Some jupyterSelfCertFailErrorMessageOnly)))
  /\ (isSelfCertsError err = false -> isSelfCertsExpiredError err = true ->
      forall handled,
        answer env h1 (HandleExpiredCertsError (message err)) = Return handled ->
        run = (HandleExpiredCertsError (message err) :: h1,
               Return (if handled then None
                       else Some jupyterSelfCertExpiredErrorMessageOnly)))
  /\ (isSelfCertsError err = false -> isSelfCertsExpiredError err = false ->
      isInvalidPasswordError err = true ->
      run = (warned, Return (Some passwordFailure))).
Proof.
  intros validate warned h1 run Hv. subst run h1 warned validate.
  unfold validateSelectJupyterURI, bind, attempt, await, emit, ret.
  simpl in *. rewrite Hv.
  repeat split.
  - intros Hself handled Hp. rewrite Hself, Hp. by destruct handled.
  - intros Hself Hexp handled Hp. rewrite Hself, Hexp, Hp. by destruct handled.
  - intros Hself Hexp Hpw. by rewrite Hself, Hexp, Hpw.
Qed.

(** X26. On the legacy path an invalid password ends the registration
    silently, after the validation alone; an error of no known class is
    handed to the error handler as a connection error made of the
    identifier generated for the provider, the provider and the error, and
    the registration then ends as the handler does, without the store. *)
Theorem addJupyterServerOld_failure_report (provider : JupyterServerProviderHandle)
    (env : Env) (h : History) (err : JsError) :
  let validate := ValidateRemoteUri provider None in
  let report :=
    HandleError {| errorUri := generateIdFromRemoteProvider provider;
                   errorProvider := provider; originalError := err |} in
  answer env h validate = Throw err ->
  isSelfCertsError err = false -> isSelfCertsExpiredError err = false ->
  (isInvalidPasswordError err = true ->
   addJupyterServerOld provider env h = (validate :: h, Return tt))
  /\ (isInvalidPasswordError err = false ->
      addJupyterServerOld provider env h
      = (report :: validate :: h,
         match answer env (validate :: h) report with
         | Return _ => Return tt
         | Throw e => Throw e
         end)).
Proof.
  intros validate report Hv Hself Hexp.
  unfold addJupyterServerOld, bind, attempt, await, ret.
  fold validate. simpl in *. rewrite Hv, Hself, Hexp. split; intros Hpw; rewrite Hpw.
  - reflexivity.
  - fold report. by destruct (answer env (validate :: h) report) as [[]|e].
Qed.

(** X27. [addJupyterServer] registers the provider when validation succeeds,
    on either path: the validation is followed by the addition to the
    store, and the outcome is that of the addition. *)
Theorem addJupyterServer_success (provider : JupyterServerProviderHandle)
    (env : Env) (h : History) :
  let validate := ValidateRemoteUri provider None in
  answer env h validate = Return tt ->
  addJupyterServer provider env h
  = (StorageAdd provider :: validate :: h,
     answer env (validate :: h) (StorageAdd provider)).
Proof.
  intros validate Hv. unfold addJupyterServer, bind at 1. unfold read at 1.
  destruct (observe env h (InExperiment PasswordManager)).
  - unfold addJupyterServerNew, bind, attempt, await. fold validate.
    simpl in *. by rewrite Hv.
  - unfold addJupyterServerOld, bind, attempt, await, ret. fold validate.
    simpl in *. by rewrite Hv.
Qed.

(** X28. In the experiment, a validation that throws ends the registration
    with a log entry and nothing else, whatever the error: no prompt is
    shown, even for a certificate error, nothing is reported to the error
    handler, the store is not touched and [addJupyterServer] resolves. *)
Theorem addJupyterServer_experiment_failure (provider : JupyterServerProviderHandle)
    (env : Env) (h : History) (err : JsError) :
  let validate := ValidateRemoteUri provider None in
  observe env h (InExperiment PasswordManager) = true ->
  answer env h validate = Throw err ->
  addJupyterServer provider env h
  = (TraceError (lit "Error in validating the Remote Uri " ++ providerId provider
                 ++ lit "." ++ providerHandle provider) err :: validate :: h,
     Return tt).
Proof.
  intros validate Hexp Hv. unfold addJupyterServer, bind at 1. unfold read at 1.
  simpl in *. rewrite Hexp.
  unfold addJupyterServerNew, bind, attempt, await, emit. fold validate.
  simpl in *. by rewrite Hv.
Qed.

End Coverage.

(** *** The replacement of URLs *)

Lemma nonSpaceRun_app run rest :
  Forall (fun c => isWhiteSpace c = false) run -> endsUrl rest ->
  nonSpaceRun (run ++ rest) = (run, rest).
Proof.
  intros Hall Hend. induction Hall as [|c run Hc _ IH].
  - destruct Hend as [->|(c & rest' & -> & Hc)]; [done|]. simpl. by rewrite Hc.
  - simpl. by rewrite Hc, IH.
Qed.

Lemma matchUrl_complete scheme run rest :
  isScheme scheme -> run <> [] ->
  Forall (fun c => isWhiteSpace c = false) run -> endsUrl rest ->
  matchUrl (scheme ++ run ++ rest) = Some (scheme ++ run, rest).
Proof.
  intros Hscheme Hrun Hall Hend. unfold matchUrl.
  rewrite (schemeLength_scheme _ _ Hscheme), drop_app_length, take_app_length.
  rewrite (nonSpaceRun_app _ _ Hall Hend). by destruct run.
Qed.

Lemma matchUrl_not_startsUrl s : ~ startsUrl s -> matchUrl s = None.
Proof.
  intros Hno. destruct (matchUrl s) as [[url rest]|] eqn:Hm; [|done].
  destruct (matchUrl_Some _ _ _ Hm)
    as (scheme & run & Hscheme & Hrun & Hall & _ & _ & ->).
  destruct run as [|c run]; [done|]. apply Forall_cons in Hall as [Hc _].
  destruct Hno. by exists scheme, c, (run ++ rest).
Qed.

(** X29. The description of the replacement determines its result: a text
    obtained from the message by turning every URL into a link and copying
    the rest is the text [replace] computes. *)
Theorem Rewritten_unique (s out : jsstring) :
  Rewritten s out -> out = replaceUrls s.
Proof.
  induction 1 as [|scheme run rest out Hscheme Hrun Hall Hend _ IH
                  |c s out Hno _ IH].
  - reflexivity.
  - rewrite (replaceUrls_match _ _ _ (matchUrl_complete _ _ _ Hscheme Hrun Hall Hend)).
    by rewrite markdownLink_app, IH.
  - rewrite (replaceUrls_copy _ _ (matchUrl_not_startsUrl _ Hno)). by rewrite IH.
Qed.

Lemma startsWith_shorter p q s :
  startsWith (p ++ q) s = true -> startsWith p s = true.
Proof.
  rewrite !startsWith_iff. intros [r ->]. exists (q ++ r). by rewrite app_assoc.
Qed.

(** X30. A message in which ["http"] does not occur is returned as it is. *)
Theorem replaceUrls_without_http (s : jsstring) :
  includes (lit "http") s = false -> replaceUrls s = s.
Proof.
  induction s as [|c s IH]; [done|]. intros Hinc.
  change (startsWith (lit "http") (c :: s) || includes (lit "http") s = false) in Hinc.
  apply orb_false_iff in Hinc as [Hstart Hrest].
  rewrite replaceUrls_copy; [by rewrite IH|].
  unfold matchUrl, schemeLength.
  destruct (startsWith (lit "https://") (c :: s)) eqn:H1.
  { apply (startsWith_shorter (lit "http") (lit "s://")) in H1. congruence. }
  destruct (startsWith (lit "http://") (c :: s)) eqn:H2; [|done].
  apply (startsWith_shorter (lit "http") (lit "://")) in H2. congruence.
Qed.

(** *** The further properties on concrete runs *)
Section CoverageRuns.
Import Sample.
#[local] Existing Instance sampleSelectorPlatform.

Lemma validateSelectJupyterURI_classified_witness :
  let err := selfSignedError in
  let env := selectorEnv (Throw err) false in
  let validate := ValidateRemoteUri sampleHandle (Some sampleServerUri) in
  let warned := [TraceWarning (lit "Uri verification error") err; validate] in
  let h1 := SendTelemetryEvent ConnectRemoteSelfCertFailedJupyter :: warned in
  let run := validateSelectJupyterURI false sampleHandle sampleServerUri env [] in
  (isSelfCertsError err = true ->
   forall handled,
     answer env h1 (HandleSelfCertsError (message err)) = Return handled ->
     run = (HandleSelfCertsError (message err) :: h1,
            Return (if handled then None
                    else Some jupyterSelfCertFailErrorMessageOnly)))
  /\ (isSelfCertsError err = false -> isSelfCertsExpiredError err = true ->
      forall handled,
        answer env h1 (HandleExpiredCertsError (message err)) = Return handled ->
        run = (HandleExpiredCertsError (message err) :: h1,
               Return (if handled then None
                       else Some jupyterSelfCertExpiredErrorMessageOnly)))
  /\ (isSelfCertsError err = false -> isSelfCertsExpiredError err = false ->
      isInvalidPasswordError err = true ->
      run = (warned, Return (Some passwordFailure))).
Proof.
  apply (validateSelectJupyterURI_classified false sampleHandle sampleServerUri
           (selectorEnv (Throw selfSignedError) false) [] selfSignedError).
  reflexivity.
Defined.

Example declined_certificate_text :
  snd (validateSelectJupyterURI false sampleHandle sampleServerUri
         (selectorEnv (Throw selfSignedError) false) [])
  = Return (Some jupyterSelfCertFailErrorMessageOnly)
  /\ snd (validateSelectJupyterURI false sampleHandle sampleServerUri
            (selectorEnv (Throw selfSignedError) true) [])
     = Return None
  /\ validateSelectJupyterURI false sampleHandle sampleServerUri
       (selectorEnv (Throw invalidPasswordError) true) []
     = ([TraceWarning (lit "Uri verification error") invalidPasswordError;
         ValidateRemoteUri sampleHandle (Some sampleServerUri)],
        Return (Some passwordFailure)).
Proof. repeat split; vm_compute; reflexivity. Qed.

Lemma addJupyterServerOld_failure_report_witness :
  let err := refusedError in
  let env := selectorEnv (Throw err) false in
  let validate := ValidateRemoteUri sampleHandle None in
  let report :=
    HandleError {| errorUri := generateIdFromRemoteProvider sampleHandle;
                   errorProvider := sampleHandle; originalError := err |} in
  (isInvalidPasswordError err = true ->
   addJupyterServerOld sampleHandle env [] = ([validate], Return tt))
  /\ (isInvalidPasswordError err = false ->
      addJupyterServerOld sampleHandle env []
      = ([report; validate],
         match answer env [validate] report with
         | Return _ => Return tt
         | Throw e => Throw e
         end)).
Proof.
  apply (addJupyterServerOld_failure_report sampleHandle
           (selectorEnv (Throw refusedError) false) [] refusedError).
  - reflexivity.
  - vm_compute. reflexivity.
  - vm_compute. reflexivity.
Defined.

Lemma addJupyterServer_success_witness :
  addJupyterServer sampleHandle (experimentEnv (Return tt)) []
  = ([StorageAdd sampleHandle; ValidateRemoteUri sampleHandle None],
     answer (experimentEnv (Return tt)) [ValidateRemoteUri sampleHandle None]
       (StorageAdd sampleHandle)).
Proof.
  apply (addJupyterServer_success sampleHandle (experimentEnv (Return tt)) []).
  reflexivity.
Defined.

Lemma addJupyterServer_experiment_failure_witness :
  addJupyterServer sampleHandle (experimentEnv (Throw selfSignedError)) []
  = ([TraceError (lit "Error in validating the Remote Uri " ++ providerId sampleHandle
                  ++ lit "." ++ providerHandle sampleHandle) selfSignedError;
      ValidateRemoteUri sampleHandle None],
     Return tt).
Proof.
  apply (addJupyterServer_experiment_failure sampleHandle
           (experimentEnv (Throw selfSignedError)) [] selfSignedError);
    reflexivity.
Defined.

Lemma Rewritten_unique_witness :
  lit "[http://a](http://a) b" = replaceUrls (lit "http://a b").
Proof.
  apply (Rewritten_unique (lit "http://a b") (lit "[http://a](http://a) b")).
  apply (rewritten_url (lit "http://") (lit "a") (lit " b") (lit " b")).
  - left. reflexivity.
  - discriminate.
  - constructor; [reflexivity|constructor].
  - right. exists 32%N, (lit "b"). split; reflexivity.
  - apply rewritten_char.
    + intros (scheme & c & rest & [->| ->] & _ & Heq); discriminate Heq.
    + apply rewritten_char; [|constructor].
      intros (scheme & c & rest & [->| ->] & _ & Heq); discriminate Heq.
Defined.

Lemma replaceUrls_without_http_witness :
  replaceUrls (lit "connect ECONNREFUSED 127.0.0.1:8888")
  = lit "connect ECONNREFUSED 127.0.0.1:8888".
Proof.
  apply (replaceUrls_without_http (lit "connect ECONNREFUSED 127.0.0.1:8888")).
  vm_compute. reflexivity.
Defined.

(** Applying the replacement twice is not applying it once: the link text
    and target stand together without white space and are one URL to the
    second pass. *)
Example replaceUrls_not_idempotent :
  replaceUrls (replaceUrls (lit "http://a"))
  = lit "[[http://a](http://a)](http://a](http://a))".
Proof. vm_compute. reflexivity. Qed.

End CoverageRuns.
End JupyterServerSelectorFacts.
